(** * The Hexagon HVX neural-network service: graph builder and execution adapter

    A shallow embedding of the driver's core (HexagonModel, HexagonUtils,
    HexagonOperationsCheck, HexagonOperationsPrepare, HexagonController,
    Device, PreparedModel), the properties its specification states about
    it, and further properties of the code.

    Conventions.
    - C++ [uint32_t]/[int32_t] values are [Z] with the wrap-around written out
      ([to_uint32], [to_int32]).
    - [float] is IEEE binary32, through the Standard Library's [SpecFloat]
      at precision 24 and maximal exponent 128.
    - A [std::vector] is a [list]; [v[i]] is a lookup.  Indexing a vector out
      of range is undefined in C++ (and ruled out for operand indices by
      [nn::validateModel], which [Device] calls before it builds a [Model]);
      the embedding reads the value-initialised element there and a write
      there changes nothing, so that every function stays total and
      executable.
    - The accelerator behind [hexagon::Controller] is an oracle: its answer to
      a call is a function of the calls made so far, and every call is
      recorded in the state. *)

From Stdlib Require Import ZArith List Bool Lia Sorted.
From Stdlib Require Import Strings.Byte.
From Stdlib Require Import Floats.SpecFloat.
From stdpp Require Import base list.

Open Scope Z_scope.

(** ** Machine integers *)

Definition to_uint32 (z : Z) : Z := z mod 2 ^ 32.

Definition to_int32 (z : Z) : Z := (z + 2 ^ 31) mod 2 ^ 32 - 2 ^ 31.

Definition UINT32_MAX : Z := 2 ^ 32 - 1.

Definition size_of {A} (v : list A) : Z := Z.of_nat (length v).

(** ** Single-precision floats *)

Definition float32 : Type := spec_float.

Definition f32_of_Z (z : Z) : float32 := binary_normalize 24 128 z 0 false.

Definition f32_mul : float32 -> float32 -> float32 := SFmul 24 128.

Definition f32_eqb : float32 -> float32 -> bool := SFeqb.

Definition f32_zero : float32 := S754_zero false.

(** ** Value initialisation, the [{}] of the source *)

Class ValueInit (A : Type) : Type := value_init : A.

#[export] Instance ValueInit_bool : ValueInit bool := false.
#[export] Instance ValueInit_Z : ValueInit Z := 0.
#[export] Instance ValueInit_unit : ValueInit unit := tt.
#[export] Instance ValueInit_float32 : ValueInit float32 := f32_zero.
#[export] Instance ValueInit_list {A} : ValueInit (list A) := [].
#[export] Instance ValueInit_option {A} : ValueInit (option A) := None.

(** ** Enumerations of the NN HAL (types.hal, version 1.0) *)

Inductive OperandType : Type :=
| FLOAT32 | INT32 | UINT32 | TENSOR_FLOAT32 | TENSOR_INT32 | TENSOR_QUANT8_ASYMM
| OEM | TENSOR_OEM_BYTE.

Inductive OperationType : Type :=
| ADD | AVERAGE_POOL_2D | CONCATENATION | CONV_2D | DEPTHWISE_CONV_2D
| DEPTH_TO_SPACE | DEQUANTIZE | EMBEDDING_LOOKUP | FLOOR | FULLY_CONNECTED
| HASHTABLE_LOOKUP | L2_NORMALIZATION | L2_POOL_2D
| LOCAL_RESPONSE_NORMALIZATION | LOGISTIC | LSH_PROJECTION | LSTM
| MAX_POOL_2D | MUL | RELU | RELU1 | RELU6 | RESHAPE | RESIZE_BILINEAR | RNN
| SOFTMAX | SPACE_TO_DEPTH | SVDF | TANH | OEM_OPERATION.

Inductive OperandLifeTime : Type :=
| TEMPORARY_VARIABLE | MODEL_INPUT | MODEL_OUTPUT | CONSTANT_COPY
| CONSTANT_REFERENCE | NO_VALUE.

(** [FusedActivationFunc] is an [enum class] over [int32_t]; a scalar operand
    can hold any value, hence the last constructor. *)
Inductive FusedActivationFunc : Type :=
| ACT_NONE | ACT_RELU | ACT_RELU1 | ACT_RELU6 | ACT_other (v : Z).

Definition FusedActivationFunc_of_int32 (v : Z) : FusedActivationFunc :=
  if v =? 0 then ACT_NONE
  else if v =? 1 then ACT_RELU
  else if v =? 2 then ACT_RELU1
  else if v =? 3 then ACT_RELU6
  else ACT_other v.

Inductive ErrorStatus : Type :=
| NONE | DEVICE_UNAVAILABLE | GENERAL_FAILURE | OUTPUT_INSUFFICIENT_SIZE
| INVALID_ARGUMENT.

#[export] Instance ValueInit_OperandType : ValueInit OperandType := FLOAT32.
#[export] Instance ValueInit_OperandLifeTime : ValueInit OperandLifeTime :=
  TEMPORARY_VARIABLE.

Definition OperandType_eqb (a b : OperandType) : bool :=
  match a, b with
  | FLOAT32, FLOAT32 | INT32, INT32 | UINT32, UINT32
  | TENSOR_FLOAT32, TENSOR_FLOAT32 | TENSOR_INT32, TENSOR_INT32
  | TENSOR_QUANT8_ASYMM, TENSOR_QUANT8_ASYMM
  | OEM, OEM | TENSOR_OEM_BYTE, TENSOR_OEM_BYTE => true
  | _, _ => false
  end.

(** ** Accelerator enumerations (hexagon_nn_controller) *)

(** The node kinds this driver emits. *)
Inductive op_type : Type :=
| OP_INPUT | OP_OUTPUT | OP_Nop
| OP_Relu_f | OP_ReluX_f | OP_Clamp_f
| OP_QuantizedRelu_8 | OP_QuantizedReluX_8 | OP_QuantizedClamp_8
| OP_BiasAdd_f | OP_Add_int32 | OP_Requantize_32to8
| OP_Add_f | OP_Mul_f | OP_AvgPool_f | OP_MaxPool_f | OP_L2Pool_f
| OP_Concat_f | OP_Conv2d_f | OP_DepthwiseConv2d_f | OP_MatMul_f | OP_LRN_f
| OP_Sigmoid_f | OP_Tanh_f | OP_Softmax_f | OP_Reshape | OP_ResizeBilinear_f
| OP_QuantizedAdd_8p8to32 | OP_QuantizedMul_8x8to32
| OP_QuantizedAvgPool_8 | OP_QuantizedMaxPool_8 | OP_QuantizedConcat_8
| OP_QuantizedConv2d_8x8to32 | OP_QuantizedDepthwiseConv2d_8x8to32
| OP_QuantizedMatMul_8x8to32 | OP_Dequantize | OP_QuantizedSigmoid_8
| OP_QuantizedReshape | OP_QuantizedSoftmax_8.

Inductive hexagon_nn_padding_type : Type :=
| NN_PAD_NA | NN_PAD_SAME | NN_PAD_VALID.

Definition hexagon_nn_padding_type_eqb (a b : hexagon_nn_padding_type) : bool :=
  match a, b with
  | NN_PAD_NA, NN_PAD_NA | NN_PAD_SAME, NN_PAD_SAME
  | NN_PAD_VALID, NN_PAD_VALID => true
  | _, _ => false
  end.

(** The [PaddingScheme] constants of android::nn. *)
Definition kPaddingUnknown : Z := 0.
Definition kPaddingSame : Z := 1.
Definition kPaddingValid : Z := 2.

(** ** Data model *)

Abbreviation byte := Byte.byte.

(** A [uint8_t*]: [None] is [nullptr], [Some bs] points at the bytes [bs]. *)
Definition buffer : Type := option (list byte).

(** Pointer arithmetic [p + offset]. *)
Definition buffer_offset (p : buffer) (offset : Z) : buffer :=
  match p with
  | None => None
  | Some bs => Some (drop (Z.to_nat offset) bs)
  end.

Definition byte_at (bs : list byte) (i : nat) : Z :=
  Z.of_N (Byte.to_N (nth i bs Byte.x00)).

(** [*reinterpret_cast<const uint32_t*>(p)], little endian. *)
Definition read_uint32 (p : buffer) : Z :=
  let bs := default [] p in
  byte_at bs 0 + 2 ^ 8 * byte_at bs 1 + 2 ^ 16 * byte_at bs 2 + 2 ^ 24 * byte_at bs 3.

(** What a constant node is created from: the [data] argument of
    [append_const_node]. *)
Inductive Blob : Type :=
| blob_buffer (p : buffer)
| blob_uint32 (vs : list Z)
| blob_int32 (vs : list Z)
| blob_float (vs : list float32).

Record hexagon_nn_input : Type := {
  src_id : Z;
  output_idx : Z;
}.

Record hexagon_nn_output : Type := {
  rank : Z;
  max_sizes : list Z;
  elementsize : Z;
  zero_offset : Z;
  stepsize : float32;
}.

Record hexagon_nn_tensordef : Type := {
  batches : Z;
  height : Z;
  width : Z;
  depth : Z;
  data : buffer;
  dataLen : Z;
  data_valid_len : Z;
  unused : Z;
}.

#[export] Instance ValueInit_hexagon_nn_input : ValueInit hexagon_nn_input :=
  {| src_id := 0; output_idx := 0 |}.

#[export] Instance ValueInit_hexagon_nn_output : ValueInit hexagon_nn_output :=
  {| rank := 0; max_sizes := [0; 0; 0; 0; 0; 0; 0; 0]; elementsize := 0;
     zero_offset := 0; stepsize := f32_zero |}.

(** android::nn::Shape *)
Record Shape : Type := {
  shape_type : OperandType;
  shape_dimensions : list Z;
  shape_scale : float32;
  shape_offset : Z;
}.

(** hexagon::OperandInfo (HexagonModel.h) *)
Record OperandInfo : Type := {
  type : OperandType;
  dimensions : list Z;
  scale : float32;
  zeroPoint : Z;
  lifetime : OperandLifeTime;
  buffer_ptr : buffer;
  length_bytes : Z;
  hexagon_input : hexagon_nn_input;
  hexagon_input_min : hexagon_nn_input;
  hexagon_input_max : hexagon_nn_input;
  hexagon_output : hexagon_nn_output;
}.

#[export] Instance ValueInit_OperandInfo : ValueInit OperandInfo :=
  {| type := value_init; dimensions := []; scale := f32_zero; zeroPoint := 0;
     lifetime := value_init; buffer_ptr := None; length_bytes := 0;
     hexagon_input := value_init; hexagon_input_min := value_init;
     hexagon_input_max := value_init; hexagon_output := value_init |}.

Record DataLocation : Type := {
  poolIndex : Z;
  offset : Z;
  location_length : Z;
}.

(** The HAL's [Operand]. *)
Record Operand : Type := {
  operand_type : OperandType;
  operand_dimensions : list Z;
  operand_scale : float32;
  operand_zeroPoint : Z;
  operand_lifetime : OperandLifeTime;
  operand_location : DataLocation;
}.

Record Operation : Type := {
  operation_type : OperationType;
  inputs : list Z;
  outputs : list Z;
}.

(** A [hidl_memory] pool: what mapping it gives, [None] when
    [RunTimePoolInfo::set] fails. *)
Definition hidl_memory : Type := option (list byte).

(** A mapped pool; its [buffer] member. *)
Record RunTimePoolInfo : Type := {
  pool_buffer : buffer;
}.

#[export] Instance ValueInit_RunTimePoolInfo : ValueInit RunTimePoolInfo :=
  {| pool_buffer := None |}.

(** The HAL's [Model], named [NeuralnetworksModel] in HexagonModel. *)
Record NeuralnetworksModel : Type := {
  nn_operands : list Operand;
  nn_operations : list Operation;
  nn_inputIndexes : list Z;
  nn_outputIndexes : list Z;
  nn_operandValues : list byte;
  nn_pools : list hidl_memory;
}.

Record RequestArgument : Type := {
  arg_location : DataLocation;
  arg_dimensions : list Z;
}.

Record Request : Type := {
  request_inputs : list RequestArgument;
  request_outputs : list RequestArgument;
  request_pools : list hidl_memory;
}.

(** hexagon::Model *)
Record Model : Type := {
  mNodeCount : Z;
  mGraphId : Z;
  mCompiled : bool;
  mOperands : list OperandInfo;
  mOperations : list Operation;
  mInputs : list Z;
  mOutputs : list Z;
  mPools : list RunTimePoolInfo;
}.

(** The sentinel [hexagon_nn_nn_id{}]. *)
Definition hexagon_nn_nn_id_none : Z := 0.

(** ** HexagonUtils *)

Definition getPadding (pad : Z) : hexagon_nn_padding_type :=
  if pad =? kPaddingSame then NN_PAD_SAME
  else if pad =? kPaddingValid then NN_PAD_VALID
  else NN_PAD_NA.

Definition getFloatActivationFunction (act : FusedActivationFunc) : op_type :=
  match act with
  | ACT_RELU => OP_Relu_f
  | ACT_RELU1 => OP_ReluX_f
  | ACT_RELU6 => OP_Clamp_f
  | ACT_NONE => OP_Nop
  | ACT_other _ => OP_Nop
  end.

Definition getQuantizedActivationFunction (act : FusedActivationFunc) : op_type :=
  match act with
  | ACT_RELU => OP_QuantizedRelu_8
  | ACT_RELU1 => OP_QuantizedReluX_8
  | ACT_RELU6 => OP_QuantizedClamp_8
  | ACT_NONE => OP_Nop
  | ACT_other _ => OP_Nop
  end.

(** The operand types past the table, [OEM] and [TENSOR_OEM_BYTE], have
    size 0. *)
Definition getSize (t : OperandType) : Z :=
  match t with
  | FLOAT32 => 4
  | INT32 => 4
  | UINT32 => 4
  | TENSOR_FLOAT32 => 4
  | TENSOR_INT32 => 4
  | TENSOR_QUANT8_ASYMM => 1
  | OEM | TENSOR_OEM_BYTE => 0
  end.

(** The soft assertion [N >= dims.size()] returns [{}] when it fails. *)
Definition getAlignedDimensions (dims : list Z) (N : Z) : list Z :=
  if N <? size_of dims then value_init
  else replicate (Z.to_nat (N - size_of dims)) 1 ++ dims.

Definition hexagon_nn_input_eqb (lhs rhs : hexagon_nn_input) : bool :=
  (src_id lhs =? src_id rhs) && (output_idx lhs =? output_idx rhs).

Definition max_size_at (o : hexagon_nn_output) (i : nat) : Z := nth i (max_sizes o) 0.

Definition hexagon_nn_output_eqb (lhs rhs : hexagon_nn_output) : bool :=
  (rank lhs =? rank rhs) && (max_size_at lhs 0 =? max_size_at rhs 0) &&
  (max_size_at lhs 1 =? max_size_at rhs 1) && (max_size_at lhs 2 =? max_size_at rhs 2) &&
  (max_size_at lhs 3 =? max_size_at rhs 3) && (max_size_at lhs 4 =? max_size_at rhs 4) &&
  (max_size_at lhs 5 =? max_size_at rhs 5) && (max_size_at lhs 6 =? max_size_at rhs 6) &&
  (max_size_at lhs 7 =? max_size_at rhs 7) && (elementsize lhs =? elementsize rhs) &&
  (zero_offset lhs =? zero_offset rhs) && f32_eqb (stepsize lhs) (stepsize rhs).

Definition make_hexagon_nn_output (dims : list Z) (size : Z) : hexagon_nn_output :=
  let alignedDims := getAlignedDimensions dims 4 in
  let filled := take 8 alignedDims in
  {| rank := Z.min 8 (size_of alignedDims);
     max_sizes := filled ++ replicate (8 - List.length filled) 0;
     elementsize := size;
     zero_offset := 0;
     stepsize := f32_zero |}.

(** [RunTimePoolInfo::set] succeeds exactly on the pools that map; the first
    failure makes the soft assertion return [{}], the empty vector. *)
Fixpoint mapPools_from (pools : list hidl_memory) : option (list RunTimePoolInfo) :=
  match pools with
  | [] => Some []
  | None :: _ => None
  | Some bs :: rest =>
      match mapPools_from rest with
      | Some infos => Some ({| pool_buffer := Some bs |} :: infos)
      | None => None
      end
  end.

Definition mapPools (pools : list hidl_memory) : list RunTimePoolInfo :=
  default value_init (mapPools_from pools).

Definition getDataFromBlock (block : list byte) (offset length : Z) : buffer :=
  if to_uint32 (offset + length) <=? size_of block
  then buffer_offset (Some block) offset
  else value_init.

Definition getDataFromPool (pool : RunTimePoolInfo) (offset length : Z) : buffer :=
  buffer_offset (pool_buffer pool) offset.

Definition getData (operand : Operand) (block : list byte)
    (pools : list RunTimePoolInfo) : buffer :=
  let loc := operand_location operand in
  match operand_lifetime operand with
  | TEMPORARY_VARIABLE => None
  | MODEL_INPUT | MODEL_OUTPUT => value_init
  | CONSTANT_COPY => getDataFromBlock block (offset loc) (location_length loc)
  | CONSTANT_REFERENCE =>
      getDataFromPool (default value_init (pools !! Z.to_nat (poolIndex loc)))
                      (offset loc) (location_length loc)
  | NO_VALUE => value_init
  end.

(** ** The android::nn helpers the driver links against

    OperationsUtils and Utils of android::nn are not part of this
    repository; their shape validators, padding helpers and model/request
    validation are parameters of the development, and so is the [transpose]
    template of HexagonUtils.h (per element type).  A shape validator answers
    [None] for [false]; otherwise it gives the output shape it wrote through
    its [Shape*] argument. *)
Record OperationsUtils : Type := {
  getPaddingScheme : Z -> Z -> Z -> Z -> Z -> Z -> Z;
  calculateExplicitPadding : Z -> Z -> Z -> Z -> Z * Z;
  getNumberOfElements : Shape -> Z;
  addMulPrepare : Shape -> Shape -> Shape -> option Shape;
  genericPoolingPrepare :
    Shape -> Z -> Z -> Z -> Z -> Z -> Z -> Z -> Z -> Shape -> option Shape;
  concatenationPrepare : list Shape -> Z -> Shape -> option Shape;
  convPrepare :
    Shape -> Shape -> Shape -> Z -> Z -> Z -> Z -> Z -> Z -> Shape -> option Shape;
  depthwiseConvPrepare :
    Shape -> Shape -> Shape -> Z -> Z -> Z -> Z -> Z -> Z -> Shape -> option Shape;
  dequantizePrepare : Shape -> Shape -> option Shape;
  fullyConnectedPrepare : Shape -> Shape -> Shape -> Shape -> option Shape;
  genericNormalizationPrepare : Shape -> Shape -> option Shape;
  genericActivationPrepare : Shape -> Shape -> option Shape;
  reshapePrepare : Shape -> buffer -> Z -> Shape -> option Shape;
  resizeBilinearPrepare : Shape -> Z -> Z -> Shape -> option Shape;
  validateModel : NeuralnetworksModel -> bool;
  validateRequest : Request -> NeuralnetworksModel -> bool;
  transpose_float : Z -> Z -> buffer -> buffer;
  transpose_uint8 : Z -> Z -> buffer -> buffer;
}.

Definition getPadding6 (U : OperationsUtils)
    (filterWidth filterHeight paddingLeft paddingRight paddingTop paddingBottom : Z)
    : hexagon_nn_padding_type :=
  getPadding (getPaddingScheme U filterWidth filterHeight paddingLeft paddingRight
                               paddingTop paddingBottom).

(** ** The accelerator behind hexagon::Controller *)

(** One call through the controller's entry points, with its arguments. *)
Inductive Call : Type :=
| call_init
| call_set_debug_level (id level : Z)
| call_getlog (id : Z)
| call_snpprint (id : Z)
| call_prepare (id : Z)
| call_append_node (id node_id : Z) (operation : op_type)
    (padding : hexagon_nn_padding_type)
    (ins : list hexagon_nn_input) (outs : list hexagon_nn_output)
| call_append_const_node (id node_id batches height width depth : Z)
    (data : Blob) (data_len : Z)
| call_execute_new (id : Z) (ins outs : list hexagon_nn_tensordef)
| call_teardown (id : Z).

(** The accelerator answers a call (a status, or the new graph id for
    [call_init]) from the calls it has seen.  An entry point the library
    could not load answers [-1] (or [hexagon_nn_nn_id{}] for [init]); that is
    one of the accelerators quantified over. *)
Definition Accelerator : Type := list Call -> Call -> Z.

(** ** The state monad of the model's methods *)

Record State : Type := {
  self : Model;
  trace : list Call;
}.

Definition M (A : Type) : Type := State -> A * State.

#[export] Instance M_ret : MRet M := fun A a st => (a, st).

#[export] Instance M_bind : MBind M :=
  fun A B k m st => let (a, st') := m st in k a st'.

(** [HEXAGON_SOFT_ASSERT(cond, msg)]: log and [return {}] when [cond] fails
    (HexagonUtils.h). *)
Notation "'HEXAGON_SOFT_ASSERT' c ;; k" := (if (c : bool) then k else mret value_init)
  (at level 100, c at level 99, k at level 200, only parsing).

Definition gets {A} (f : Model -> A) : M A := fun st => (f (self st), st).

Definition modify (f : Model -> Model) : M unit :=
  fun st => (tt, {| self := f (self st); trace := trace st |}).

Definition set_mNodeCount (n : Z) (m : Model) : Model :=
  {| mNodeCount := n; mGraphId := mGraphId m; mCompiled := mCompiled m;
     mOperands := mOperands m; mOperations := mOperations m;
     mInputs := mInputs m; mOutputs := mOutputs m; mPools := mPools m |}.

Definition set_mGraphId (g : Z) (m : Model) : Model :=
  {| mNodeCount := mNodeCount m; mGraphId := g; mCompiled := mCompiled m;
     mOperands := mOperands m; mOperations := mOperations m;
     mInputs := mInputs m; mOutputs := mOutputs m; mPools := mPools m |}.

Definition set_mCompiled (b : bool) (m : Model) : Model :=
  {| mNodeCount := mNodeCount m; mGraphId := mGraphId m; mCompiled := b;
     mOperands := mOperands m; mOperations := mOperations m;
     mInputs := mInputs m; mOutputs := mOutputs m; mPools := mPools m |}.

Definition set_mOperands (ops : list OperandInfo) (m : Model) : Model :=
  {| mNodeCount := mNodeCount m; mGraphId := mGraphId m; mCompiled := mCompiled m;
     mOperands := ops; mOperations := mOperations m;
     mInputs := mInputs m; mOutputs := mOutputs m; mPools := mPools m |}.

Definition set_dimensions (d : list Z) (o : OperandInfo) : OperandInfo :=
  {| type := type o; dimensions := d; scale := scale o; zeroPoint := zeroPoint o;
     lifetime := lifetime o; buffer_ptr := buffer_ptr o;
     length_bytes := length_bytes o; hexagon_input := hexagon_input o;
     hexagon_input_min := hexagon_input_min o;
     hexagon_input_max := hexagon_input_max o;
     hexagon_output := hexagon_output o |}.

Definition set_buffer (p : buffer) (len : Z) (o : OperandInfo) : OperandInfo :=
  {| type := type o; dimensions := dimensions o; scale := scale o;
     zeroPoint := zeroPoint o; lifetime := lifetime o; buffer_ptr := p;
     length_bytes := len; hexagon_input := hexagon_input o;
     hexagon_input_min := hexagon_input_min o;
     hexagon_input_max := hexagon_input_max o;
     hexagon_output := hexagon_output o |}.

Definition set_hexagon_input (h : hexagon_nn_input) (o : OperandInfo) : OperandInfo :=
  {| type := type o; dimensions := dimensions o; scale := scale o;
     zeroPoint := zeroPoint o; lifetime := lifetime o; buffer_ptr := buffer_ptr o;
     length_bytes := length_bytes o; hexagon_input := h;
     hexagon_input_min := hexagon_input_min o;
     hexagon_input_max := hexagon_input_max o;
     hexagon_output := hexagon_output o |}.

Definition set_hexagon_input_min (h : hexagon_nn_input) (o : OperandInfo) : OperandInfo :=
  {| type := type o; dimensions := dimensions o; scale := scale o;
     zeroPoint := zeroPoint o; lifetime := lifetime o; buffer_ptr := buffer_ptr o;
     length_bytes := length_bytes o; hexagon_input := hexagon_input o;
     hexagon_input_min := h;
     hexagon_input_max := hexagon_input_max o;
     hexagon_output := hexagon_output o |}.

Definition set_hexagon_input_max (h : hexagon_nn_input) (o : OperandInfo) : OperandInfo :=
  {| type := type o; dimensions := dimensions o; scale := scale o;
     zeroPoint := zeroPoint o; lifetime := lifetime o; buffer_ptr := buffer_ptr o;
     length_bytes := length_bytes o; hexagon_input := hexagon_input o;
     hexagon_input_min := hexagon_input_min o;
     hexagon_input_max := h;
     hexagon_output := hexagon_output o |}.

Definition set_hexagon_output (h : hexagon_nn_output) (o : OperandInfo) : OperandInfo :=
  {| type := type o; dimensions := dimensions o; scale := scale o;
     zeroPoint := zeroPoint o; lifetime := lifetime o; buffer_ptr := buffer_ptr o;
     length_bytes := length_bytes o; hexagon_input := hexagon_input o;
     hexagon_input_min := hexagon_input_min o;
     hexagon_input_max := hexagon_input_max o;
     hexagon_output := h |}.

(** [mOperands[operand]], read. *)
Definition operand_at (m : Model) (operand : Z) : OperandInfo :=
  default value_init (mOperands m !! Z.to_nat operand).

Definition getOperand (operand : Z) : M OperandInfo :=
  gets (fun m => operand_at m operand).

(** [mOperands[operand]], updated in place. *)
Definition updateOperandInfo (operand : Z) (f : OperandInfo -> OperandInfo) : M unit :=
  modify (fun m => set_mOperands (alter f (Z.to_nat operand) (mOperands m)) m).

(** [v[i]] on a vector of integers. *)
Definition at_ (v : list Z) (i : nat) : Z := nth i v 0.

(** ** HexagonModel *)

Section HexagonModel.

Variable hexagon_nn : Accelerator.
Variable U : OperationsUtils.

(** A call through [hexagon::Controller::getInstance()]. *)
Definition controller (c : Call) : M Z :=
  fun st => (hexagon_nn (trace st) c,
             {| self := self st; trace := trace st ++ [c] |}).

Definition getOperandsInfo (model : NeuralnetworksModel)
    (pools : list RunTimePoolInfo) : list OperandInfo :=
  map (fun operand : Operand =>
         {| type := operand_type operand;
            dimensions := operand_dimensions operand;
            scale := operand_scale operand;
            zeroPoint := operand_zeroPoint operand;
            lifetime := operand_lifetime operand;
            buffer_ptr := getData operand (nn_operandValues model) pools;
            length_bytes := location_length (operand_location operand);
            hexagon_input := value_init;
            hexagon_input_min := value_init;
            hexagon_input_max := value_init;
            hexagon_output := value_init |})
      (nn_operands model).

(** [Model::Model(const NeuralnetworksModel&)], run after the calls [calls]. *)
Definition Model_new (model : NeuralnetworksModel) (calls : list Call) : State :=
  let id := hexagon_nn calls call_init in
  let calls1 := calls ++ [call_init] in
  let calls2 := calls1 ++ [call_set_debug_level id 99] in
  let pools := mapPools (nn_pools model) in
  {| self := {| mNodeCount := 0; mGraphId := id; mCompiled := false;
                mOperands := getOperandsInfo model pools;
                mOperations := nn_operations model;
                mInputs := nn_inputIndexes model;
                mOutputs := nn_outputIndexes model;
                mPools := pools |};
     trace := calls2 |}.

(** [Model::operator=(Model&&)]: the pair (this, other) after the move.  The
    vectors moved out of [other] are taken to be left empty, as the standard
    library implementations leave them. *)
Definition Model_move_assign (other : Model) : Model * Model :=
  ({| mNodeCount := mNodeCount other; mGraphId := mGraphId other;
      mCompiled := mCompiled other; mOperands := mOperands other;
      mOperations := mOperations other; mInputs := mInputs other;
      mOutputs := mOutputs other; mPools := mPools other |},
   {| mNodeCount := mNodeCount other; mGraphId := hexagon_nn_nn_id_none;
      mCompiled := false; mOperands := []; mOperations := [];
      mInputs := []; mOutputs := []; mPools := [] |}).

(** [Model::Model(Model&&)] *)
Definition Model_move (other : Model) : Model * Model := Model_move_assign other.

(** [Model::~Model()] *)
Definition Model_delete : M unit :=
  id ← gets mGraphId;
  if negb (id =? hexagon_nn_nn_id_none) then controller (call_teardown id);; mret tt
  else mret tt.

(** The text of the log is not modelled, only the call. *)
Definition getDebugLog : M unit :=
  id ← gets mGraphId;
  err ← controller (call_getlog id);
  HEXAGON_SOFT_ASSERT (0 =? err);;
  mret tt.

Definition getLog : M unit :=
  id ← gets mGraphId;
  err ← controller (call_snpprint id);
  HEXAGON_SOFT_ASSERT (0 =? err);;
  mret tt.

Definition getNextNode : M Z :=
  n ← gets mNodeCount;
  modify (set_mNodeCount (to_uint32 (n + 1)));;
  mret (to_uint32 (n + 1)).

Definition getPointer (operand : Z) : M buffer :=
  o ← getOperand operand; mret (buffer_ptr o).

Definition getShape (operand : Z) : M Shape :=
  o ← getOperand operand;
  mret {| shape_type := type o; shape_dimensions := dimensions o;
          shape_scale := scale o; shape_offset := zeroPoint o |}.

Definition setShape (operand : Z) (shape : Shape) : M bool :=
  o ← getOperand operand;
  let output := hexagon_output o in
  HEXAGON_SOFT_ASSERT (hexagon_nn_output_eqb output value_init);;
  updateOperandInfo operand (set_dimensions (shape_dimensions shape));;
  mret true.

Definition isConstant (operand : Z) : M bool :=
  o ← getOperand operand;
  mret (match lifetime o with
        | CONSTANT_COPY | CONSTANT_REFERENCE => true
        | _ => false
        end).

(** [getScalar<int32_t>]: [*reinterpret_cast<const int32_t*>(buffer)]
    (HexagonModel.h). *)
Definition getScalar_int32 (operand : Z) : M Z :=
  o ← getOperand operand; mret (to_int32 (read_uint32 (buffer_ptr o))).

(** [getScalar<FusedActivationFunc>] *)
Definition getScalar_FusedActivationFunc (operand : Z) : M FusedActivationFunc :=
  v ← getScalar_int32 operand; mret (FusedActivationFunc_of_int32 v).

Definition createTensorInternal (B H W D : Z) (ptr : Blob) (size : Z)
    : M hexagon_nn_input :=
  node ← getNextNode;
  id ← gets mGraphId;
  err ← controller (call_append_const_node id node B H W D ptr size);
  let success := err =? 0 in
  HEXAGON_SOFT_ASSERT success;;
  mret {| src_id := node; output_idx := 0 |}.

Definition createShape (B H W D : Z) : M hexagon_nn_input :=
  createTensorInternal B H W D (blob_uint32 [0]) 4.

(** The [createTensor], [createValues] and [createScalar] templates of
    HexagonModel.h, at the element types the driver uses: each hands its
    values to [createTensorInternal], [createValues] as a [1,1,1,n] tensor
    and [createScalar] as a [1,1,1,1] one. *)
Definition createTensor_float (B H W D : Z) (values : list float32)
    : M hexagon_nn_input :=
  createTensorInternal B H W D (blob_float values) (size_of values * 4).

Definition createValues_float (values : list float32) : M hexagon_nn_input :=
  createTensor_float 1 1 1 (size_of values) values.

Definition createValues_int32 (values : list Z) : M hexagon_nn_input :=
  createTensorInternal 1 1 1 (size_of values) (blob_int32 values) (size_of values * 4).

Definition createScalar_float (value : float32) : M hexagon_nn_input :=
  createTensorInternal 1 1 1 1 (blob_float [value]) 4.

Definition createScalar_int32 (value : Z) : M hexagon_nn_input :=
  createTensorInternal 1 1 1 1 (blob_int32 [value]) 4.

Definition addOperand (operandIndex : Z) : M hexagon_nn_input :=
  operand ← getOperand operandIndex;
  let dims := getAlignedDimensions (dimensions operand) 4 in
  HEXAGON_SOFT_ASSERT (negb (0 =? size_of dims));;
  result ← createTensorInternal (at_ dims 0) (at_ dims 1) (at_ dims 2) (at_ dims 3)
             (blob_buffer (buffer_ptr operand)) (length_bytes operand);
  HEXAGON_SOFT_ASSERT (negb (hexagon_nn_input_eqb value_init result));;
  mret result.

Definition getTensor (operand : Z) : M hexagon_nn_input :=
  o ← getOperand operand;
  if hexagon_nn_input_eqb (hexagon_input o) value_init then
    tensor ← addOperand operand;
    updateOperandInfo operand (set_hexagon_input tensor);;
    mret tensor
  else mret (hexagon_input o).

Definition getQuantizationMin (operand : Z) : M hexagon_nn_input :=
  operandInfo ← getOperand operand;
  if hexagon_nn_input_eqb (hexagon_input_min operandInfo) value_init then
    let real_value :=
      f32_mul (f32_of_Z (to_int32 (0 - zeroPoint operandInfo))) (scale operandInfo) in
    h ← createValues_float [real_value];
    updateOperandInfo operand (set_hexagon_input_min h);;
    mret h
  else mret (hexagon_input_min operandInfo).

Definition getQuantizationMax (operand : Z) : M hexagon_nn_input :=
  operandInfo ← getOperand operand;
  if hexagon_nn_input_eqb (hexagon_input_max operandInfo) value_init then
    let real_value :=
      f32_mul (f32_of_Z (to_int32 (255 - zeroPoint operandInfo))) (scale operandInfo) in
    h ← createValues_float [real_value];
    updateOperandInfo operand (set_hexagon_input_max h);;
    mret h
  else mret (hexagon_input_max operandInfo).

(** [quant_value] is a [uint32_t]: the subtraction is unsigned. *)
Definition createQuantizationValue (operand quant_value : Z) : M hexagon_nn_input :=
  operandInfo ← getOperand operand;
  let real_value :=
    f32_mul (f32_of_Z (to_uint32 (quant_value - zeroPoint operandInfo)))
            (scale operandInfo) in
  createValues_float [real_value].

Definition createConvFilterTensor (operand : Z) : M hexagon_nn_input :=
  operandInfo ← getOperand operand;
  let dims := getAlignedDimensions (dimensions operandInfo) 4 in
  HEXAGON_SOFT_ASSERT (negb (0 =? size_of dims));;
  shape ← getShape operand;
  (* NHWC --> HWCN *)
  let cols := to_uint32 (at_ dims 1 * at_ dims 2 * at_ dims 3) in
  if OperandType_eqb (shape_type shape) TENSOR_FLOAT32 then
    let transposed := transpose_float U (at_ dims 0) cols (buffer_ptr operandInfo) in
    createTensorInternal (at_ dims 1) (at_ dims 2) (at_ dims 3) (at_ dims 0)
      (blob_buffer transposed) (length_bytes operandInfo)
  else
    let transposed := transpose_uint8 U (at_ dims 0) cols (buffer_ptr operandInfo) in
    createTensorInternal (at_ dims 1) (at_ dims 2) (at_ dims 3) (at_ dims 0)
      (blob_buffer transposed) (length_bytes operandInfo).

Definition createDepthwiseFilterTensor (operand depth_multiplier : Z)
    : M hexagon_nn_input :=
  operandInfo ← getOperand operand;
  let dims := getAlignedDimensions (dimensions operandInfo) 4 in
  HEXAGON_SOFT_ASSERT (negb (0 =? size_of dims));;
  (* NHWC --> HWCN *)
  createTensorInternal (at_ dims 1) (at_ dims 2)
    (at_ dims 3 / to_uint32 depth_multiplier)
    (to_uint32 (at_ dims 0 * to_uint32 depth_multiplier))
    (blob_buffer (buffer_ptr operandInfo)) (length_bytes operandInfo).

Definition createFullyConnectedWeightTensor (operand : Z) : M hexagon_nn_input :=
  operandInfo ← getOperand operand;
  let dims := getAlignedDimensions (dimensions operandInfo) 4 in
  HEXAGON_SOFT_ASSERT (negb (0 =? size_of dims));;
  shape ← getShape operand;
  (* WC --> CW *)
  if OperandType_eqb (shape_type shape) TENSOR_FLOAT32 then
    let transposed := transpose_float U (at_ dims 0) (at_ dims 1) (buffer_ptr operandInfo) in
    createTensorInternal 1 1 (at_ dims 1) (at_ dims 0)
      (blob_buffer transposed) (length_bytes operandInfo)
  else
    let transposed := transpose_uint8 U (at_ dims 0) (at_ dims 1) (buffer_ptr operandInfo) in
    createTensorInternal 1 1 (at_ dims 1) (at_ dims 0)
      (blob_buffer transposed) (length_bytes operandInfo).

Definition getFloatActivation (operand : Z) : M op_type :=
  act ← getScalar_FusedActivationFunc operand;
  mret (getFloatActivationFunction act).

Definition getQuantizedActivation (operand : Z) : M op_type :=
  act ← getScalar_FusedActivationFunc operand;
  mret (getQuantizedActivationFunction act).

Definition verifyOperationInputs (inputs : list hexagon_nn_input) : bool :=
  forallb (fun input => negb (hexagon_nn_input_eqb input value_init)) inputs.

Definition verifyOperationOutputs (outputs : list hexagon_nn_output) : bool :=
  forallb (fun output => negb (hexagon_nn_output_eqb output value_init)) outputs.

Definition addOperationInternal (op : op_type) (pad : hexagon_nn_padding_type)
    (inputs : list hexagon_nn_input) (outputs : list hexagon_nn_output) : M Z :=
  HEXAGON_SOFT_ASSERT (verifyOperationInputs inputs);;
  HEXAGON_SOFT_ASSERT (verifyOperationOutputs outputs);;
  node ← getNextNode;
  id ← gets mGraphId;
  err ← controller (call_append_node id node op pad inputs outputs);
  mret (if err =? 0 then node else 0).

Definition scalar_float_output : hexagon_nn_output := make_hexagon_nn_output [1; 1; 1; 1] 4.

Definition getHexagonOutputs (operands : list Z) : M (list hexagon_nn_output) :=
  gets (fun m =>
    flat_map (fun index =>
      let operand := operand_at m index in
      make_hexagon_nn_output (dimensions operand) (getSize (type operand)) ::
      (if OperandType_eqb (type operand) TENSOR_QUANT8_ASYMM
       then [scalar_float_output; scalar_float_output]
       else [])) operands).

(** The loop of [registerHexagonInputs], from output slot [idx] on. *)
Fixpoint registerHexagonInputs_from (operands : list Z) (node idx : Z) : M bool :=
  match operands with
  | [] => mret true
  | i :: rest =>
      operand ← getOperand i;
      HEXAGON_SOFT_ASSERT (hexagon_nn_input_eqb (hexagon_input operand) value_init);;
      updateOperandInfo i (set_hexagon_input {| src_id := node; output_idx := idx |});;
      if OperandType_eqb (type operand) TENSOR_QUANT8_ASYMM then
        updateOperandInfo i
          (set_hexagon_input_min {| src_id := node; output_idx := to_uint32 (idx + 1) |});;
        updateOperandInfo i
          (set_hexagon_input_max {| src_id := node; output_idx := to_uint32 (idx + 2) |});;
        registerHexagonInputs_from rest node (to_uint32 (idx + 3))
      else registerHexagonInputs_from rest node (to_uint32 (idx + 1))
  end.

Definition registerHexagonInputs (operands : list Z) (node : Z) : M bool :=
  registerHexagonInputs_from operands node 0.

Definition addBasicOperation (op : op_type) (pad : hexagon_nn_padding_type)
    (inputs : list hexagon_nn_input) (outputs : list Z) : M bool :=
  outs ← getHexagonOutputs outputs;
  node ← addOperationInternal op pad inputs outs;
  HEXAGON_SOFT_ASSERT (negb (0 =? node));;
  registerHexagonInputs outputs node.

Definition f32_6 : float32 := Eval vm_compute in f32_of_Z 6.
Definition f32_1 : float32 := Eval vm_compute in f32_of_Z 1.
Definition f32_minus_1 : float32 := Eval vm_compute in f32_of_Z (-1).

Definition setupActivationArgs (op : op_type) : M (list hexagon_nn_input) :=
  match op with
  | OP_Nop => mret []
  | OP_Relu_f | OP_QuantizedRelu_8 => mret []
  | OP_ReluX_f | OP_QuantizedReluX_8 =>
      six ← createValues_float [f32_6];
      mret [six]
  | OP_Clamp_f | OP_QuantizedClamp_8 =>
      lo ← createValues_float [f32_minus_1];
      hi ← createValues_float [f32_1];
      mret [lo; hi]
  | _ => mret value_init
  end.

Definition node_output (node idx : Z) : hexagon_nn_input :=
  {| src_id := node; output_idx := idx |}.

Definition addFloatOperationWithActivation (op : op_type)
    (pad : hexagon_nn_padding_type) (activation : op_type)
    (inputs : list hexagon_nn_input) (outputs : list Z) : M bool :=
  outs ← getHexagonOutputs outputs;
  actArgs ← setupActivationArgs activation;
  node ← addOperationInternal op pad inputs outs;
  HEXAGON_SOFT_ASSERT (negb (0 =? node));;
  let buffer_in := node_output node 0 :: actArgs in
  node ← addOperationInternal activation NN_PAD_NA buffer_in outs;
  HEXAGON_SOFT_ASSERT (negb (0 =? node));;
  registerHexagonInputs outputs node.

Definition addQuant8OperationWithActivation (op : op_type)
    (pad : hexagon_nn_padding_type) (activation : op_type)
    (inputs : list hexagon_nn_input) (outputs : list Z) : M bool :=
  outs ← getHexagonOutputs outputs;
  actArgs ← setupActivationArgs activation;
  node ← addOperationInternal op pad inputs outs;
  HEXAGON_SOFT_ASSERT (negb (0 =? node));;
  let buffer_in := [node_output node 0; node_output node 1; node_output node 2] ++ actArgs in
  node ← addOperationInternal activation NN_PAD_NA buffer_in outs;
  HEXAGON_SOFT_ASSERT (negb (0 =? node));;
  registerHexagonInputs outputs node.

Definition addFusedFloatOperation (op : op_type) (pad : hexagon_nn_padding_type)
    (bias : hexagon_nn_input) (activation : op_type)
    (inputs : list hexagon_nn_input) (outputs : list Z) : M bool :=
  HEXAGON_SOFT_ASSERT (1 =? size_of outputs);;
  outs ← getHexagonOutputs outputs;
  actArgs ← setupActivationArgs activation;
  node ← addOperationInternal op pad inputs outs;
  HEXAGON_SOFT_ASSERT (negb (0 =? node));;
  node ← (if negb (hexagon_nn_input_eqb bias value_init) then
            let buffer1_in := node_output node 0 in
            addOperationInternal OP_BiasAdd_f NN_PAD_NA [buffer1_in; bias] outs
          else mret node);
  HEXAGON_SOFT_ASSERT (negb (0 =? node));;
  let buffer2_in := node_output node 0 :: actArgs in
  node ← addOperationInternal activation NN_PAD_NA buffer2_in outs;
  HEXAGON_SOFT_ASSERT (negb (0 =? node));;
  registerHexagonInputs outputs node.

Definition addFusedQuant8Operation (op : op_type) (pad : hexagon_nn_padding_type)
    (bias : hexagon_nn_input) (activation : op_type)
    (inputs : list hexagon_nn_input) (outputs : list Z) : M bool :=
  HEXAGON_SOFT_ASSERT (1 =? size_of outputs);;
  actArgs ← setupActivationArgs activation;
  out0 ← getOperand (at_ outputs 0);
  let tensor_out8 := make_hexagon_nn_output (dimensions out0) 1 in
  let tensor_out32 := make_hexagon_nn_output (dimensions out0) 4 in
  let scalar_out32 := make_hexagon_nn_output [1; 1; 1; 1] 4 in
  let out8 := [tensor_out8; scalar_out32; scalar_out32] in
  let out32 := [tensor_out32; scalar_out32; scalar_out32] in
  (* base operation *)
  node ← addOperationInternal op pad inputs out32;
  HEXAGON_SOFT_ASSERT (negb (0 =? node));;
  let old_min := node_output node 1 in
  let old_max := node_output node 2 in
  (* add bias *)
  node ← (if negb (hexagon_nn_input_eqb bias value_init) then
            let buffer1_in := node_output node 0 in
            addOperationInternal OP_Add_int32 NN_PAD_NA [buffer1_in; bias] [tensor_out32]
          else mret node);
  HEXAGON_SOFT_ASSERT (negb (0 =? node));;
  (* requantize *)
  new_min ← getQuantizationMin (at_ outputs 0);
  new_max ← getQuantizationMax (at_ outputs 0);
  let buffer2_in := node_output node 0 in
  node ← addOperationInternal OP_Requantize_32to8 NN_PAD_NA
           [buffer2_in; old_min; old_max; new_min; new_max] out8;
  HEXAGON_SOFT_ASSERT (negb (0 =? node));;
  (* activation *)
  let buffer3 := [node_output node 0; node_output node 1; node_output node 2] ++ actArgs in
  node ← addOperationInternal activation NN_PAD_NA buffer3 out8;
  HEXAGON_SOFT_ASSERT (negb (0 =? node));;
  registerHexagonInputs outputs node.

Definition verifyOperands : M bool :=
  gets (fun m =>
    forallb (fun operand : OperandInfo =>
               forallb (fun dim => negb (0 =? dim)) (dimensions operand))
            (mOperands m)).

Definition addInputs : M bool :=
  (* prepare OP_INPUT's outputs *)
  ins ← gets mInputs;
  outs ← gets (fun m =>
    map (fun i => let operand := operand_at m i in
                  make_hexagon_nn_output (dimensions operand) (getSize (type operand)))
        ins);
  (* add single input node for entire graph *)
  node ← addOperationInternal OP_INPUT NN_PAD_NA [] outs;
  HEXAGON_SOFT_ASSERT (negb (0 =? node));;
  (* update operand information *)
  (fix update (l : list Z) (i : Z) : M unit :=
     match l with
     | [] => mret tt
     | x :: rest =>
         updateOperandInfo x (set_hexagon_input (node_output node (to_uint32 i)));;
         update rest (i + 1)
     end) ins 0;;
  mret true.

(** The first loop of [addOutputs]: the handles of the output operands, or
    [None] when one of them is unset. *)
Fixpoint outputHandles (m : Model) (outs : list Z) : option (list hexagon_nn_input) :=
  match outs with
  | [] => Some []
  | i :: rest =>
      let operand := operand_at m i in
      if negb (hexagon_nn_input_eqb (hexagon_input operand) value_init) then
        match outputHandles m rest with
        | Some hs => Some (hexagon_input operand :: hs)
        | None => None
        end
      else None
  end.

Definition addOutputs : M bool :=
  (* prepare OP_OUTPUT's inputs *)
  handles ← gets (fun m => outputHandles m (mOutputs m));
  match handles with
  | None => mret value_init
  | Some ins =>
      (* add single output node for entire graph *)
      success ← addBasicOperation OP_OUTPUT NN_PAD_NA ins [];
      HEXAGON_SOFT_ASSERT success;;
      mret true
  end.

Definition resetOperand (operand : OperandInfo) : OperandInfo :=
  set_hexagon_output value_init (set_hexagon_input value_init operand).

Definition resetModel : M unit :=
  modify (set_mCompiled false);;
  modify (fun m => set_mOperands (map resetOperand (mOperands m)) m);;
  id ← gets mGraphId;
  (if negb (id =? hexagon_nn_nn_id_none)
   then controller (call_teardown id);; mret tt
   else mret tt);;
  id' ← controller call_init;
  modify (set_mGraphId id');;
  controller (call_set_debug_level id' 99);;
  mret tt.

(** ** HexagonOperationsCheck (version 1.0)

    The functions of the anonymous namespace carry the prefix [check_]. *)

(** [HEXAGON_SOFT_ASSERT(xPrepare(..., &outShape), ...)] followed by
    [HEXAGON_SOFT_ASSERT(model->setShape(outs[0], outShape), ...)], the
    common end of the checks. *)
Definition commitShape (prepared : option Shape) (out : Z) (k : M bool) : M bool :=
  match prepared with
  | None => mret value_init
  | Some outShape =>
      ok ← setShape out outShape;
      HEXAGON_SOFT_ASSERT ok;;
      k
  end.

Definition check_addMul (ins outs : list Z) (op : OperationType) : M bool :=
  HEXAGON_SOFT_ASSERT (3 =? size_of ins);;
  HEXAGON_SOFT_ASSERT (1 =? size_of outs);;
  (* get output size *)
  in1Shape ← getShape (at_ ins 0);
  in2Shape ← getShape (at_ ins 1);
  outShape ← getShape (at_ outs 0);
  commitShape (addMulPrepare U in1Shape in2Shape outShape) (at_ outs 0) (mret true).

Definition check_add (ins outs : list Z) : M bool := check_addMul ins outs ADD.

Definition check_mul (ins outs : list Z) : M bool := check_addMul ins outs MUL.

Definition check_pool (ins outs : list Z) (op : OperationType) : M bool :=
  HEXAGON_SOFT_ASSERT ((size_of ins =? 10) || (size_of ins =? 7));;
  (* get parameters *)
  inShape ← getShape (at_ ins 0);
  if size_of ins =? 10 then
    padding_left ← getScalar_int32 (at_ ins 1);
    padding_right ← getScalar_int32 (at_ ins 2);
    padding_top ← getScalar_int32 (at_ ins 3);
    padding_bottom ← getScalar_int32 (at_ ins 4);
    stride_width ← getScalar_int32 (at_ ins 5);
    stride_height ← getScalar_int32 (at_ ins 6);
    filter_width ← getScalar_int32 (at_ ins 7);
    filter_height ← getScalar_int32 (at_ ins 8);
    HEXAGON_SOFT_ASSERT
      (negb (hexagon_nn_padding_type_eqb
               (getPadding6 U (to_uint32 filter_width) (to_uint32 filter_height)
                  (to_uint32 padding_left) (to_uint32 padding_right)
                  (to_uint32 padding_top) (to_uint32 padding_bottom))
               NN_PAD_NA));;
    (* get output size *)
    outShape ← getShape (at_ outs 0);
    commitShape
      (genericPoolingPrepare U inShape padding_left padding_right padding_top
         padding_bottom stride_width stride_height filter_width filter_height outShape)
      (at_ outs 0) (mret true)
  else
    padding_implicit ← getScalar_int32 (at_ ins 1);
    stride_width ← getScalar_int32 (at_ ins 2);
    stride_height ← getScalar_int32 (at_ ins 3);
    filter_width ← getScalar_int32 (at_ ins 4);
    filter_height ← getScalar_int32 (at_ ins 5);
    let '(padding_left, padding_right) :=
      calculateExplicitPadding U (to_int32 (at_ (shape_dimensions inShape) 2))
        stride_width filter_width padding_implicit in
    let '(padding_top, padding_bottom) :=
      calculateExplicitPadding U (to_int32 (at_ (shape_dimensions inShape) 1))
        stride_height filter_height padding_implicit in
    (* get output size *)
    outShape ← getShape (at_ outs 0);
    commitShape
      (genericPoolingPrepare U inShape padding_left padding_right padding_top
         padding_bottom stride_width stride_height filter_width filter_height outShape)
      (at_ outs 0) (mret true).

Definition check_average_pool_2d (ins outs : list Z) : M bool := check_pool ins outs AVERAGE_POOL_2D.

Definition check_l2_pool_2d (ins outs : list Z) : M bool := check_pool ins outs L2_POOL_2D.

Definition check_max_pool_2d (ins outs : list Z) : M bool := check_pool ins outs MAX_POOL_2D.

(** [inShapes[i] = model->getShape(ins[i])] for [i < numInputTensors]. *)
Fixpoint check_getShapes (operands : list Z) : M (list Shape) :=
  match operands with
  | [] => mret []
  | i :: rest =>
      s ← getShape i;
      ss ← check_getShapes rest;
      mret (s :: ss)
  end.

Definition check_concatenation (ins outs : list Z) : M bool :=
  HEXAGON_SOFT_ASSERT (3 <=? size_of ins);;
  HEXAGON_SOFT_ASSERT (1 =? size_of outs);;
  let numInputTensors := (List.length ins - 1)%nat in
  axis ← getScalar_int32 (at_ ins numInputTensors);
  (* get output size *)
  inShapes ← check_getShapes (take numInputTensors ins);
  outShape ← getShape (at_ outs 0);
  commitShape (concatenationPrepare U inShapes axis outShape) (at_ outs 0) (mret true).

(** The parameter block shared by [check_conv_2d] and [check_depthwise_conv_2d]. *)
Definition check_convolution (explicit : bool)
    (prepare : Shape -> Shape -> Shape -> Z -> Z -> Z -> Z -> Z -> Z -> Shape -> option Shape)
    (ins outs : list Z) : M bool :=
  (* setup shapes *)
  inputShape ← getShape (at_ ins 0);
  filterShape ← getShape (at_ ins 1);
  biasShape ← getShape (at_ ins 2);
  if explicit then
    padding_left ← getScalar_int32 (at_ ins 3);
    padding_right ← getScalar_int32 (at_ ins 4);
    padding_top ← getScalar_int32 (at_ ins 5);
    padding_bottom ← getScalar_int32 (at_ ins 6);
    stride_width ← getScalar_int32 (at_ ins 7);
    stride_height ← getScalar_int32 (at_ ins 8);
    HEXAGON_SOFT_ASSERT
      (negb (hexagon_nn_padding_type_eqb
               (getPadding6 U (at_ (shape_dimensions filterShape) 2)
                  (at_ (shape_dimensions filterShape) 1)
                  (to_uint32 padding_left) (to_uint32 padding_right)
                  (to_uint32 padding_top) (to_uint32 padding_bottom))
               NN_PAD_NA));;
    (* get output size *)
    outShape ← getShape (at_ outs 0);
    commitShape
      (prepare inputShape filterShape biasShape padding_left padding_right
         padding_top padding_bottom stride_width stride_height outShape)
      (at_ outs 0)
      ((* enforce filter is a constant *)
       c ← isConstant (at_ ins 1);
       HEXAGON_SOFT_ASSERT c;;
       mret true)
  else
    padding_implicit ← getScalar_int32 (at_ ins 3);
    stride_width ← getScalar_int32 (at_ ins 4);
    stride_height ← getScalar_int32 (at_ ins 5);
    let '(padding_left, padding_right) :=
      calculateExplicitPadding U (to_int32 (at_ (shape_dimensions inputShape) 2))
        stride_width (to_int32 (at_ (shape_dimensions filterShape) 2)) padding_implicit in
    let '(padding_top, padding_bottom) :=
      calculateExplicitPadding U (to_int32 (at_ (shape_dimensions inputShape) 1))
        stride_height (to_int32 (at_ (shape_dimensions filterShape) 1)) padding_implicit in
    (* get output size *)
    outShape ← getShape (at_ outs 0);
    commitShape
      (prepare inputShape filterShape biasShape padding_left padding_right
         padding_top padding_bottom stride_width stride_height outShape)
      (at_ outs 0)
      ((* enforce filter is a constant *)
       c ← isConstant (at_ ins 1);
       HEXAGON_SOFT_ASSERT c;;
       mret true).

Definition check_conv_2d (ins outs : list Z) : M bool :=
  HEXAGON_SOFT_ASSERT ((size_of ins =? 10) || (size_of ins =? 7));;
  HEXAGON_SOFT_ASSERT (1 =? size_of outs);;
  check_convolution (size_of ins =? 10) (convPrepare U) ins outs.

Definition check_depthwise_conv_2d (ins outs : list Z) : M bool :=
  HEXAGON_SOFT_ASSERT ((size_of ins =? 8) || (size_of ins =? 11));;
  HEXAGON_SOFT_ASSERT (1 =? size_of outs);;
  check_convolution (size_of ins =? 11) (depthwiseConvPrepare U) ins outs.

Definition check_dequantize (ins outs : list Z) : M bool :=
  HEXAGON_SOFT_ASSERT (1 =? size_of ins);;
  HEXAGON_SOFT_ASSERT (1 =? size_of outs);;
  (* get output size *)
  inputShape ← getShape (at_ ins 0);
  outShape ← getShape (at_ outs 0);
  commitShape (dequantizePrepare U inputShape outShape) (at_ outs 0) (mret true).

Definition check_fully_connected (ins outs : list Z) : M bool :=
  HEXAGON_SOFT_ASSERT (4 =? size_of ins);;
  HEXAGON_SOFT_ASSERT (1 =? size_of outs);;
  (* get output size *)
  inputShape ← getShape (at_ ins 0);
  weightsShape ← getShape (at_ ins 1);
  biasShape ← getShape (at_ ins 2);
  outShape ← getShape (at_ outs 0);
  commitShape (fullyConnectedPrepare U inputShape weightsShape biasShape outShape)
    (at_ outs 0)
    ((* enforce weight is a constant *)
     c ← isConstant (at_ ins 1);
     HEXAGON_SOFT_ASSERT c;;
     mret true).

Definition check_local_response_normalization (ins outs : list Z) : M bool :=
  HEXAGON_SOFT_ASSERT (5 =? size_of ins);;
  HEXAGON_SOFT_ASSERT (1 =? size_of outs);;
  (* get output size *)
  inShape ← getShape (at_ ins 0);
  outShape ← getShape (at_ outs 0);
  commitShape (genericNormalizationPrepare U inShape outShape) (at_ outs 0) (mret true).

Definition check_activation (ins outs : list Z) (numInputs : Z) (op : OperationType)
    : M bool :=
  HEXAGON_SOFT_ASSERT (numInputs =? size_of ins);;
  HEXAGON_SOFT_ASSERT (1 =? size_of outs);;
  (* get output size *)
  inShape ← getShape (at_ ins 0);
  outShape ← getShape (at_ outs 0);
  commitShape (genericActivationPrepare U inShape outShape) (at_ outs 0) (mret true).

Definition check_logistic (ins outs : list Z) : M bool := check_activation ins outs 1 LOGISTIC.

Definition check_relu (ins outs : list Z) : M bool := check_activation ins outs 1 RELU.

Definition check_relu1 (ins outs : list Z) : M bool := check_activation ins outs 1 RELU1.

Definition check_relu6 (ins outs : list Z) : M bool := check_activation ins outs 1 RELU6.

Definition check_softmax (ins outs : list Z) : M bool := check_activation ins outs 2 SOFTMAX.

Definition check_tanh (ins outs : list Z) : M bool := check_activation ins outs 1 TANH.

Definition check_reshape (ins outs : list Z) : M bool :=
  HEXAGON_SOFT_ASSERT (2 =? size_of ins);;
  HEXAGON_SOFT_ASSERT (1 =? size_of outs);;
  (* get output size *)
  inShape ← getShape (at_ ins 0);
  targetShape ← getShape (at_ ins 1);
  targetShapePtr ← getPointer (at_ ins 1);
  let targetShapeNumElem := to_int32 (getNumberOfElements U targetShape) in
  outShape ← getShape (at_ outs 0);
  HEXAGON_SOFT_ASSERT (match targetShapePtr with Some _ => true | None => false end);;
  commitShape (reshapePrepare U inShape targetShapePtr targetShapeNumElem outShape)
    (at_ outs 0) (mret true).

Definition check_resize_bilinear (ins outs : list Z) : M bool :=
  HEXAGON_SOFT_ASSERT (3 =? size_of ins);;
  HEXAGON_SOFT_ASSERT (1 =? size_of outs);;
  (* get parameters *)
  width ← getScalar_int32 (at_ ins 1);
  height ← getScalar_int32 (at_ ins 2);
  (* get output size *)
  inShape ← getShape (at_ ins 0);
  outShape ← getShape (at_ outs 0);
  commitShape (resizeBilinearPrepare U inShape width height outShape)
    (at_ outs 0) (mret true).

(** [getOperationCheckTable().find(type)]: [None] is [end()]. *)
Definition getOperationCheckTable (t : OperationType)
    : option (list Z -> list Z -> M bool) :=
  match t with
  | ADD => Some check_add
  | AVERAGE_POOL_2D => Some check_average_pool_2d
  | CONCATENATION => Some check_concatenation
  | CONV_2D => Some check_conv_2d
  | DEPTHWISE_CONV_2D => Some check_depthwise_conv_2d
  | DEQUANTIZE => Some check_dequantize
  | FULLY_CONNECTED => Some check_fully_connected
  | L2_POOL_2D => Some check_l2_pool_2d
  | LOCAL_RESPONSE_NORMALIZATION => Some check_local_response_normalization
  | LOGISTIC => Some check_logistic
  | MAX_POOL_2D => Some check_max_pool_2d
  | MUL => Some check_mul
  | RELU => Some check_relu
  | RELU1 => Some check_relu1
  | RELU6 => Some check_relu6
  | RESHAPE => Some check_reshape
  | RESIZE_BILINEAR => Some check_resize_bilinear
  | SOFTMAX => Some check_softmax
  | TANH => Some check_tanh
  | DEPTH_TO_SPACE | EMBEDDING_LOOKUP | FLOOR | HASHTABLE_LOOKUP
  | L2_NORMALIZATION | LSH_PROJECTION | LSTM | RNN | SPACE_TO_DEPTH | SVDF
  | OEM_OPERATION => None
  end.

(** The body of the loop of [supportedOperations], for one operation. *)
Definition supportedOperation (operation : Operation) : M bool :=
  match getOperationCheckTable (operation_type operation) with
  | Some entry => entry (inputs operation) (outputs operation)
  | None => mret false
  end.

Fixpoint supportedOperations_from (operations : list Operation) : M (list bool) :=
  match operations with
  | [] => mret []
  | operation :: rest =>
      b ← supportedOperation operation;
      bs ← supportedOperations_from rest;
      mret (b :: bs)
  end.

Definition supportedOperations : M (list bool) :=
  operations ← gets mOperations;
  supportedOperations_from operations.

Definition verifyOperations : M bool :=
  supported ← supportedOperations;
  mret (forallb (fun valid : bool => valid) supported).

(** ** HexagonOperationsPrepare: the lowering functions

    The functions of namespace [float32] carry the prefix [float32_], those
    of [quant8_asym] the prefix [quant8_asym_]. *)

Fixpoint mapM {A B} (f : A -> M B) (l : list A) : M (list B) :=
  match l with
  | [] => mret []
  | x :: rest =>
      y ← f x;
      ys ← mapM f rest;
      mret (y :: ys)
  end.

Definition float32_add (ins outs : list Z) : M bool :=
  HEXAGON_SOFT_ASSERT (3 =? size_of ins);;
  HEXAGON_SOFT_ASSERT (1 =? size_of outs);;
  (* get parameters *)
  in1 ← getTensor (at_ ins 0);
  in2 ← getTensor (at_ ins 1);
  act ← getFloatActivation (at_ ins 2);
  (* add node to graph *)
  addFusedFloatOperation OP_Add_f NN_PAD_NA value_init act [in1; in2] outs.

(** [average_pool_2d], [l2_pool_2d] and [max_pool_2d] of [float32] differ in
    the node kind only. *)
Definition float32_pool (op : op_type) (ins outs : list Z) : M bool :=
  HEXAGON_SOFT_ASSERT (10 =? size_of ins);;
  HEXAGON_SOFT_ASSERT (1 =? size_of outs);;
  (* get parameters *)
  input ← getTensor (at_ ins 0);
  padding_left ← getScalar_int32 (at_ ins 1);
  padding_right ← getScalar_int32 (at_ ins 2);
  padding_top ← getScalar_int32 (at_ ins 3);
  padding_bottom ← getScalar_int32 (at_ ins 4);
  stride_width ← getScalar_int32 (at_ ins 5);
  stride_height ← getScalar_int32 (at_ ins 6);
  filter_width ← getScalar_int32 (at_ ins 7);
  filter_height ← getScalar_int32 (at_ ins 8);
  act ← getFloatActivation (at_ ins 9);
  window ← createShape 1 (to_uint32 filter_height) (to_uint32 filter_width) 1;
  stride ← createShape 1 (to_uint32 stride_height) (to_uint32 stride_width) 1;
  let pad := getPadding6 U (to_uint32 filter_width) (to_uint32 filter_height)
               (to_uint32 padding_left) (to_uint32 padding_right)
               (to_uint32 padding_top) (to_uint32 padding_bottom) in
  (* add node to graph *)
  addFloatOperationWithActivation op pad act [input; window; stride] outs.

Definition float32_average_pool_2d : list Z -> list Z -> M bool := float32_pool OP_AvgPool_f.

Definition float32_l2_pool_2d : list Z -> list Z -> M bool := float32_pool OP_L2Pool_f.

Definition float32_max_pool_2d : list Z -> list Z -> M bool := float32_pool OP_MaxPool_f.

Definition float32_concatenation (ins outs : list Z) : M bool :=
  HEXAGON_SOFT_ASSERT (3 <=? size_of ins);;
  HEXAGON_SOFT_ASSERT (1 =? size_of outs);;
  let numInputTensors := (List.length ins - 1)%nat in
  (* get parameters *)
  tensors ← mapM getTensor (take numInputTensors ins);
  (* axis being concatenated *)
  axis ← getScalar_int32 (at_ ins numInputTensors);
  shape ← getShape (at_ ins 0);
  let dims := to_int32 (size_of (shape_dimensions shape)) in
  axisArg ← createScalar_int32 (to_int32 (axis + (4 - dims)));
  (* add node to graph *)
  addBasicOperation OP_Concat_f NN_PAD_NA (axisArg :: tensors) outs.

Definition float32_conv_2d (ins outs : list Z) : M bool :=
  HEXAGON_SOFT_ASSERT (10 =? size_of ins);;
  HEXAGON_SOFT_ASSERT (1 =? size_of outs);;
  (* get parameters *)
  input ← getTensor (at_ ins 0);
  filter ← createConvFilterTensor (at_ ins 1);
  bias ← getTensor (at_ ins 2);
  padding_left ← getScalar_int32 (at_ ins 3);
  padding_right ← getScalar_int32 (at_ ins 4);
  padding_top ← getScalar_int32 (at_ ins 5);
  padding_bottom ← getScalar_int32 (at_ ins 6);
  stride_width ← getScalar_int32 (at_ ins 7);
  stride_height ← getScalar_int32 (at_ ins 8);
  act ← getFloatActivation (at_ ins 9);
  stride ← createShape 1 (to_uint32 stride_height) (to_uint32 stride_width) 1;
  filterShape ← getShape (at_ ins 1);
  let pad := getPadding6 U (at_ (shape_dimensions filterShape) 2)
               (at_ (shape_dimensions filterShape) 1)
               (to_uint32 padding_left) (to_uint32 padding_right)
               (to_uint32 padding_top) (to_uint32 padding_bottom) in
  (* add node to graph *)
  addFusedFloatOperation OP_Conv2d_f pad bias act [input; filter; stride] outs.

Definition float32_depthwise_conv_2d (ins outs : list Z) : M bool :=
  HEXAGON_SOFT_ASSERT (11 =? size_of ins);;
  HEXAGON_SOFT_ASSERT (1 =? size_of outs);;
  (* get parameters *)
  input ← getTensor (at_ ins 0);
  bias ← getTensor (at_ ins 2);
  padding_left ← getScalar_int32 (at_ ins 3);
  padding_right ← getScalar_int32 (at_ ins 4);
  padding_top ← getScalar_int32 (at_ ins 5);
  padding_bottom ← getScalar_int32 (at_ ins 6);
  stride_width ← getScalar_int32 (at_ ins 7);
  stride_height ← getScalar_int32 (at_ ins 8);
  depth_multiplier ← getScalar_int32 (at_ ins 9);
  act ← getFloatActivation (at_ ins 10);
  filter ← createDepthwiseFilterTensor (at_ ins 1) depth_multiplier;
  stride ← createShape 1 (to_uint32 stride_height) (to_uint32 stride_width) 1;
  filterShape ← getShape (at_ ins 1);
  let pad := getPadding6 U (at_ (shape_dimensions filterShape) 2)
               (at_ (shape_dimensions filterShape) 1)
               (to_uint32 padding_left) (to_uint32 padding_right)
               (to_uint32 padding_top) (to_uint32 padding_bottom) in
  (* add node to graph *)
  addFusedFloatOperation OP_DepthwiseConv2d_f pad bias act [input; filter; stride] outs.

Definition float32_fully_connected (ins outs : list Z) : M bool :=
  HEXAGON_SOFT_ASSERT (4 =? size_of ins);;
  HEXAGON_SOFT_ASSERT (1 =? size_of outs);;
  (* get parameters *)
  input ← getTensor (at_ ins 0);
  weights ← createFullyConnectedWeightTensor (at_ ins 1);
  bias ← getTensor (at_ ins 2);
  act ← getFloatActivation (at_ ins 3);
  (* add node to graph *)
  addFusedFloatOperation OP_MatMul_f NN_PAD_NA bias act [input; weights] outs.

Definition float32_local_response_normalization (ins outs : list Z) : M bool :=
  HEXAGON_SOFT_ASSERT (5 =? size_of ins);;
  HEXAGON_SOFT_ASSERT (1 =? size_of outs);;
  (* get parameters *)
  input ← getTensor (at_ ins 0);
  bias ← getTensor (at_ ins 2);
  alpha ← getTensor (at_ ins 3);
  beta ← getTensor (at_ ins 4);
  (* create value that's [1, 1, 1, radius] with value of 1.0f *)
  radius ← getScalar_int32 (at_ ins 1);
  window ← createTensor_float 1 1 1 (to_uint32 (radius * 2 + 1)) [f32_1];
  (* add node to graph *)
  addBasicOperation OP_LRN_f NN_PAD_NA [input; window; bias; alpha; beta] outs.

(** [logistic], [relu] and [tanh] of [float32] differ in the node kind only. *)
Definition float32_unary (op : op_type) (ins outs : list Z) : M bool :=
  HEXAGON_SOFT_ASSERT (1 =? size_of ins);;
  HEXAGON_SOFT_ASSERT (1 =? size_of outs);;
  (* get parameters *)
  input ← getTensor (at_ ins 0);
  (* add node to graph *)
  addBasicOperation op NN_PAD_NA [input] outs.

Definition float32_logistic : list Z -> list Z -> M bool := float32_unary OP_Sigmoid_f.

Definition float32_relu : list Z -> list Z -> M bool := float32_unary OP_Relu_f.

Definition float32_tanh : list Z -> list Z -> M bool := float32_unary OP_Tanh_f.

Definition float32_mul (ins outs : list Z) : M bool :=
  HEXAGON_SOFT_ASSERT (3 =? size_of ins);;
  HEXAGON_SOFT_ASSERT (1 =? size_of outs);;
  (* get parameters *)
  in1 ← getTensor (at_ ins 0);
  in2 ← getTensor (at_ ins 1);
  act ← getFloatActivation (at_ ins 2);
  (* add node to graph *)
  addFusedFloatOperation OP_Mul_f NN_PAD_NA value_init act [in1; in2] outs.

Definition float32_relu1 (ins outs : list Z) : M bool :=
  HEXAGON_SOFT_ASSERT (1 =? size_of ins);;
  HEXAGON_SOFT_ASSERT (1 =? size_of outs);;
  (* get parameters *)
  input ← getTensor (at_ ins 0);
  min ← createScalar_float f32_minus_1;
  max ← createScalar_float f32_1;
  (* add node to graph *)
  addBasicOperation OP_Clamp_f NN_PAD_NA [input; min; max] outs.

Definition float32_relu6 (ins outs : list Z) : M bool :=
  HEXAGON_SOFT_ASSERT (1 =? size_of ins);;
  HEXAGON_SOFT_ASSERT (1 =? size_of outs);;
  (* get parameters *)
  input ← getTensor (at_ ins 0);
  max ← createScalar_float f32_6;
  (* add node to graph *)
  addBasicOperation OP_ReluX_f NN_PAD_NA [input; max] outs.

Definition float32_reshape (ins outs : list Z) : M bool :=
  HEXAGON_SOFT_ASSERT (2 =? size_of ins);;
  HEXAGON_SOFT_ASSERT (1 =? size_of outs);;
  (* get parameters *)
  input ← getTensor (at_ ins 0);
  newdims ← getTensor (at_ ins 1);
  (* add node to graph *)
  addBasicOperation OP_Reshape NN_PAD_NA [input; newdims] outs.

Definition float32_resize_bilinear (ins outs : list Z) : M bool :=
  HEXAGON_SOFT_ASSERT (3 =? size_of ins);;
  HEXAGON_SOFT_ASSERT (1 =? size_of outs);;
  (* get parameters *)
  input ← getTensor (at_ ins 0);
  width ← getScalar_int32 (at_ ins 1);
  height ← getScalar_int32 (at_ ins 2);
  newdim ← createValues_int32 [height; width];
  (* add node to graph *)
  addBasicOperation OP_ResizeBilinear_f NN_PAD_NA [input; newdim] outs.

Definition float32_softmax (ins outs : list Z) : M bool :=
  HEXAGON_SOFT_ASSERT (2 =? size_of ins);;
  HEXAGON_SOFT_ASSERT (1 =? size_of outs);;
  (* get parameters *)
  input ← getTensor (at_ ins 0);
  beta ← getTensor (at_ ins 1);
  (* add node to graph *)
  addBasicOperation OP_Softmax_f NN_PAD_NA [input; beta] outs.

(** [add] and [mul] of [quant8_asym] differ in the node kind only. *)
Definition quant8_asym_addMul (op : op_type) (ins outs : list Z) : M bool :=
  HEXAGON_SOFT_ASSERT (3 =? size_of ins);;
  HEXAGON_SOFT_ASSERT (1 =? size_of outs);;
  (* get parameters *)
  in1 ← getTensor (at_ ins 0);
  in2 ← getTensor (at_ ins 1);
  act ← getQuantizedActivation (at_ ins 2);
  in1_min ← getQuantizationMin (at_ ins 0);
  in1_max ← getQuantizationMax (at_ ins 0);
  in2_min ← getQuantizationMin (at_ ins 1);
  in2_max ← getQuantizationMax (at_ ins 1);
  (* add node to graph *)
  addFusedQuant8Operation op NN_PAD_NA value_init act
    [in1; in1_min; in1_max; in2; in2_min; in2_max] outs.

Definition quant8_asym_add : list Z -> list Z -> M bool :=
  quant8_asym_addMul OP_QuantizedAdd_8p8to32.

Definition quant8_asym_mul : list Z -> list Z -> M bool :=
  quant8_asym_addMul OP_QuantizedMul_8x8to32.

(** [average_pool_2d] and [max_pool_2d] of [quant8_asym] differ in the node
    kind only. *)
Definition quant8_asym_pool (op : op_type) (ins outs : list Z) : M bool :=
  HEXAGON_SOFT_ASSERT (10 =? size_of ins);;
  HEXAGON_SOFT_ASSERT (1 =? size_of outs);;
  (* get parameters *)
  input ← getTensor (at_ ins 0);
  padding_left ← getScalar_int32 (at_ ins 1);
  padding_right ← getScalar_int32 (at_ ins 2);
  padding_top ← getScalar_int32 (at_ ins 3);
  padding_bottom ← getScalar_int32 (at_ ins 4);
  stride_width ← getScalar_int32 (at_ ins 5);
  stride_height ← getScalar_int32 (at_ ins 6);
  filter_width ← getScalar_int32 (at_ ins 7);
  filter_height ← getScalar_int32 (at_ ins 8);
  act ← getQuantizedActivation (at_ ins 9);
  in_min ← getQuantizationMin (at_ ins 0);
  in_max ← getQuantizationMax (at_ ins 0);
  window ← createShape 1 (to_uint32 filter_height) (to_uint32 filter_width) 1;
  stride ← createShape 1 (to_uint32 stride_height) (to_uint32 stride_width) 1;
  let pad := getPadding6 U (to_uint32 filter_width) (to_uint32 filter_height)
               (to_uint32 padding_left) (to_uint32 padding_right)
               (to_uint32 padding_top) (to_uint32 padding_bottom) in
  (* add node to graph *)
  addQuant8OperationWithActivation op pad act
    [input; in_min; in_max; window; stride] outs.

Definition quant8_asym_average_pool_2d : list Z -> list Z -> M bool :=
  quant8_asym_pool OP_QuantizedAvgPool_8.

Definition quant8_asym_max_pool_2d : list Z -> list Z -> M bool :=
  quant8_asym_pool OP_QuantizedMaxPool_8.

(** One turn of the loop of [quant8_asym::concatenation]. *)
Definition quantizedTensor (operand : Z)
    : M (hexagon_nn_input * hexagon_nn_input * hexagon_nn_input) :=
  t ← getTensor operand;
  lo ← getQuantizationMin operand;
  hi ← getQuantizationMax operand;
  mret (t, lo, hi).

Definition quant8_asym_concatenation (ins outs : list Z) : M bool :=
  HEXAGON_SOFT_ASSERT (3 <=? size_of ins);;
  HEXAGON_SOFT_ASSERT (1 =? size_of outs);;
  let numInputTensors := (List.length ins - 1)%nat in
  (* get parameters *)
  triples ← mapM quantizedTensor (take numInputTensors ins);
  (* axis being concatenated *)
  axis ← getScalar_int32 (at_ ins numInputTensors);
  shape ← getShape (at_ ins 0);
  let dims := to_int32 (size_of (shape_dimensions shape)) in
  axisArg ← createScalar_int32 (to_int32 (axis + (4 - dims)));
  (* add node to graph *)
  addBasicOperation OP_QuantizedConcat_8 NN_PAD_NA
    (axisArg :: map (fun t => fst (fst t)) triples
             ++ map (fun t => snd (fst t)) triples
             ++ map snd triples) outs.

Definition quant8_asym_conv_2d (ins outs : list Z) : M bool :=
  HEXAGON_SOFT_ASSERT (10 =? size_of ins);;
  HEXAGON_SOFT_ASSERT (1 =? size_of outs);;
  (* get parameters *)
  input ← getTensor (at_ ins 0);
  filter ← createConvFilterTensor (at_ ins 1);
  bias ← getTensor (at_ ins 2);
  padding_left ← getScalar_int32 (at_ ins 3);
  padding_right ← getScalar_int32 (at_ ins 4);
  padding_top ← getScalar_int32 (at_ ins 5);
  padding_bottom ← getScalar_int32 (at_ ins 6);
  stride_width ← getScalar_int32 (at_ ins 7);
  stride_height ← getScalar_int32 (at_ ins 8);
  act ← getQuantizedActivation (at_ ins 9);
  input_min ← getQuantizationMin (at_ ins 0);
  input_max ← getQuantizationMax (at_ ins 0);
  filter_min ← getQuantizationMin (at_ ins 1);
  filter_max ← getQuantizationMax (at_ ins 1);
  stride ← createShape 1 (to_uint32 stride_height) (to_uint32 stride_width) 1;
  filterShape ← getShape (at_ ins 1);
  let pad := getPadding6 U (at_ (shape_dimensions filterShape) 2)
               (at_ (shape_dimensions filterShape) 1)
               (to_uint32 padding_left) (to_uint32 padding_right)
               (to_uint32 padding_top) (to_uint32 padding_bottom) in
  (* add node to graph *)
  addFusedQuant8Operation OP_QuantizedConv2d_8x8to32 pad bias act
    [input; filter; input_min; input_max; filter_min; filter_max; stride] outs.

Definition quant8_asym_depthwise_conv_2d (ins outs : list Z) : M bool :=
  HEXAGON_SOFT_ASSERT (11 =? size_of ins);;
  HEXAGON_SOFT_ASSERT (1 =? size_of outs);;
  (* get parameters *)
  input ← getTensor (at_ ins 0);
  bias ← getTensor (at_ ins 2);
  padding_left ← getScalar_int32 (at_ ins 3);
  padding_right ← getScalar_int32 (at_ ins 4);
  padding_top ← getScalar_int32 (at_ ins 5);
  padding_bottom ← getScalar_int32 (at_ ins 6);
  stride_width ← getScalar_int32 (at_ ins 7);
  stride_height ← getScalar_int32 (at_ ins 8);
  depth_multiplier ← getScalar_int32 (at_ ins 9);
  act ← getQuantizedActivation (at_ ins 10);
  input_min ← getQuantizationMin (at_ ins 0);
  input_max ← getQuantizationMax (at_ ins 0);
  filter_min ← getQuantizationMin (at_ ins 0);
  filter_max ← getQuantizationMax (at_ ins 0);
  filter ← createDepthwiseFilterTensor (at_ ins 1) depth_multiplier;
  stride ← createShape 1 (to_uint32 stride_height) (to_uint32 stride_width) 1;
  filterShape ← getShape (at_ ins 1);
  let pad := getPadding6 U (at_ (shape_dimensions filterShape) 2)
               (at_ (shape_dimensions filterShape) 1)
               (to_uint32 padding_left) (to_uint32 padding_right)
               (to_uint32 padding_top) (to_uint32 padding_bottom) in
  (* add node to graph *)
  addFusedQuant8Operation OP_QuantizedDepthwiseConv2d_8x8to32 pad bias act
    [input; filter; input_min; input_max; filter_min; filter_max; stride] outs.

(** [dequantize] and [relu] of [quant8_asym] differ in the node kind only. *)
Definition quant8_asym_unary (op : op_type) (ins outs : list Z) : M bool :=
  HEXAGON_SOFT_ASSERT (1 =? size_of ins);;
  HEXAGON_SOFT_ASSERT (1 =? size_of outs);;
  (* get parameters *)
  input ← getTensor (at_ ins 0);
  input_min ← getQuantizationMin (at_ ins 0);
  input_max ← getQuantizationMax (at_ ins 0);
  (* add node to graph *)
  addBasicOperation op NN_PAD_NA [input; input_min; input_max] outs.

Definition quant8_asym_dequantize : list Z -> list Z -> M bool :=
  quant8_asym_unary OP_Dequantize.

Definition quant8_asym_relu : list Z -> list Z -> M bool :=
  quant8_asym_unary OP_QuantizedRelu_8.

Definition quant8_asym_fully_connected (ins outs : list Z) : M bool :=
  HEXAGON_SOFT_ASSERT (4 =? size_of ins);;
  HEXAGON_SOFT_ASSERT (1 =? size_of outs);;
  (* get parameters *)
  input ← getTensor (at_ ins 0);
  weights ← getTensor (at_ ins 1);
  bias ← getTensor (at_ ins 2);
  act ← getQuantizedActivation (at_ ins 3);
  input_min ← getQuantizationMin (at_ ins 0);
  input_max ← getQuantizationMax (at_ ins 0);
  weights_min ← getQuantizationMin (at_ ins 1);
  weights_max ← getQuantizationMax (at_ ins 1);
  (* add node to graph *)
  addFusedQuant8Operation OP_QuantizedMatMul_8x8to32 NN_PAD_NA bias act
    [input; weights; input_min; input_max; weights_min; weights_max] outs.

Definition quant8_asym_logistic (ins outs : list Z) : M bool :=
  HEXAGON_SOFT_ASSERT (1 =? size_of ins);;
  HEXAGON_SOFT_ASSERT (1 =? size_of outs);;
  (* get parameters *)
  input ← getTensor (at_ ins 0);
  input_min ← getQuantizationMin (at_ ins 0);
  (* TFLite uses different max value *)
  input_max ← createQuantizationValue (at_ ins 0) 256;
  (* add node to graph *)
  addBasicOperation OP_QuantizedSigmoid_8 NN_PAD_NA [input; input_min; input_max] outs.

Definition quant8_asym_relu1 (ins outs : list Z) : M bool :=
  HEXAGON_SOFT_ASSERT (1 =? size_of ins);;
  HEXAGON_SOFT_ASSERT (1 =? size_of outs);;
  (* get parameters *)
  input ← getTensor (at_ ins 0);
  min ← createScalar_float f32_minus_1;
  max ← createScalar_float f32_1;
  input_min ← getQuantizationMin (at_ ins 0);
  input_max ← getQuantizationMax (at_ ins 0);
  (* add node to graph *)
  addBasicOperation OP_QuantizedClamp_8 NN_PAD_NA
    [input; input_min; input_max; min; max] outs.

Definition quant8_asym_relu6 (ins outs : list Z) : M bool :=
  HEXAGON_SOFT_ASSERT (1 =? size_of ins);;
  HEXAGON_SOFT_ASSERT (1 =? size_of outs);;
  (* get parameters *)
  input ← getTensor (at_ ins 0);
  max ← createScalar_float f32_6;
  input_min ← getQuantizationMin (at_ ins 0);
  input_max ← getQuantizationMax (at_ ins 0);
  (* add node to graph *)
  addBasicOperation OP_QuantizedReluX_8 NN_PAD_NA [input; input_min; input_max; max] outs.

Definition quant8_asym_reshape (ins outs : list Z) : M bool :=
  HEXAGON_SOFT_ASSERT (2 =? size_of ins);;
  HEXAGON_SOFT_ASSERT (1 =? size_of outs);;
  (* get parameters *)
  input ← getTensor (at_ ins 0);
  newdims ← getTensor (at_ ins 1);
  input_min ← getQuantizationMin (at_ ins 0);
  input_max ← getQuantizationMax (at_ ins 0);
  (* add node to graph *)
  addBasicOperation OP_QuantizedReshape NN_PAD_NA
    [input; newdims; input_min; input_max] outs.

Definition quant8_asym_softmax (ins outs : list Z) : M bool :=
  HEXAGON_SOFT_ASSERT (2 =? size_of ins);;
  HEXAGON_SOFT_ASSERT (1 =? size_of outs);;
  (* get parameters *)
  input ← getTensor (at_ ins 0);
  beta ← getTensor (at_ ins 1);
  input_min ← getQuantizationMin (at_ ins 0);
  input_max ← getQuantizationMax (at_ ins 0);
  (* add node to graph *)
  addBasicOperation OP_QuantizedSoftmax_8 NN_PAD_NA
    [input; input_min; input_max; beta] outs.

(** [getOperationPrepareTable().find({operationType, operandType})] *)
Definition getOperationPrepareTable (operationType : OperationType)
    (operandType : OperandType) : option (list Z -> list Z -> M bool) :=
  match operandType, operationType with
  (* -------------------------- 32-BIT FLOAT ---------------------------- *)
  | TENSOR_FLOAT32, ADD => Some float32_add
  | TENSOR_FLOAT32, AVERAGE_POOL_2D => Some float32_average_pool_2d
  | TENSOR_FLOAT32, CONCATENATION => Some float32_concatenation
  | TENSOR_FLOAT32, CONV_2D => Some float32_conv_2d
  | TENSOR_FLOAT32, DEPTHWISE_CONV_2D => Some float32_depthwise_conv_2d
  | TENSOR_FLOAT32, FULLY_CONNECTED => Some float32_fully_connected
  | TENSOR_FLOAT32, L2_POOL_2D => Some float32_l2_pool_2d
  | TENSOR_FLOAT32, LOCAL_RESPONSE_NORMALIZATION =>
      Some float32_local_response_normalization
  | TENSOR_FLOAT32, LOGISTIC => Some float32_logistic
  | TENSOR_FLOAT32, MAX_POOL_2D => Some float32_max_pool_2d
  | TENSOR_FLOAT32, MUL => Some float32_mul
  | TENSOR_FLOAT32, RELU => Some float32_relu
  | TENSOR_FLOAT32, RELU1 => Some float32_relu1
  | TENSOR_FLOAT32, RELU6 => Some float32_relu6
  | TENSOR_FLOAT32, RESHAPE => Some float32_reshape
  | TENSOR_FLOAT32, RESIZE_BILINEAR => Some float32_resize_bilinear
  | TENSOR_FLOAT32, SOFTMAX => Some float32_softmax
  | TENSOR_FLOAT32, TANH => Some float32_tanh
  (* -------------------- QUANTIZED 8-BIT ASYMMETRICAL ------------------ *)
  | TENSOR_QUANT8_ASYMM, ADD => Some quant8_asym_add
  | TENSOR_QUANT8_ASYMM, AVERAGE_POOL_2D => Some quant8_asym_average_pool_2d
  | TENSOR_QUANT8_ASYMM, CONCATENATION => Some quant8_asym_concatenation
  | TENSOR_QUANT8_ASYMM, CONV_2D => Some quant8_asym_conv_2d
  | TENSOR_QUANT8_ASYMM, DEPTHWISE_CONV_2D => Some quant8_asym_depthwise_conv_2d
  | TENSOR_QUANT8_ASYMM, DEQUANTIZE => Some quant8_asym_dequantize
  | TENSOR_QUANT8_ASYMM, FULLY_CONNECTED => Some quant8_asym_fully_connected
  | TENSOR_QUANT8_ASYMM, LOGISTIC => Some quant8_asym_logistic
  | TENSOR_QUANT8_ASYMM, MAX_POOL_2D => Some quant8_asym_max_pool_2d
  | TENSOR_QUANT8_ASYMM, MUL => Some quant8_asym_mul
  | TENSOR_QUANT8_ASYMM, RELU => Some quant8_asym_relu
  | TENSOR_QUANT8_ASYMM, RELU1 => Some quant8_asym_relu1
  | TENSOR_QUANT8_ASYMM, RELU6 => Some quant8_asym_relu6
  | TENSOR_QUANT8_ASYMM, RESHAPE => Some quant8_asym_reshape
  | TENSOR_QUANT8_ASYMM, SOFTMAX => Some quant8_asym_softmax
  | _, _ => None
  end.

Fixpoint addOperations_from (operations : list Operation) : M bool :=
  match operations with
  | [] => mret true
  | operation :: rest =>
      let operationType := operation_type operation in
      first ← getOperand (at_ (inputs operation) 0);
      let operandType := type first in
      match getOperationPrepareTable operationType operandType with
      | None => mret value_init
      | Some lower =>
          success ← lower (inputs operation) (outputs operation);
          HEXAGON_SOFT_ASSERT success;;
          addOperations_from rest
      end
  end.

Definition addOperations : M bool :=
  operations ← gets mOperations;
  addOperations_from operations.

(** [addInputs() && addOperations() && addOutputs()], the three construction
    steps of [compile], left to right and stopping at the first failure. *)
Definition buildGraph : M bool :=
  a ← addInputs;
  if negb a then mret false else
  b ← addOperations;
  if negb b then mret false else
  addOutputs.

Definition compile : M bool :=
  valid ← verifyOperations;
  if negb valid then mret false else
  known ← verifyOperands;
  if negb known then mret false else
  built ← buildGraph;
  if negb built then resetModel;; mret false else
  getLog;;
  getDebugLog;;
  id ← gets mGraphId;
  err ← controller (call_prepare id);
  getLog;;
  getDebugLog;;
  mret (err =? 0).

Definition convertToTensordef (operand : OperandInfo) : hexagon_nn_tensordef :=
  let dims := getAlignedDimensions (dimensions operand) 4 in
  {| batches := at_ dims 0;
     height := at_ dims 1;
     width := at_ dims 2;
     depth := at_ dims 3;
     data := buffer_ptr operand;
     dataLen := to_int32 (length_bytes operand);
     data_valid_len := length_bytes operand;
     unused := 0 |}.

(** [getSize(const OperandInfo&)]: the byte size, accumulated in [uint32_t]. *)
Definition getOperandSize (operand : OperandInfo) : Z :=
  fold_left (fun acc dim => to_uint32 (acc * dim)) (dimensions operand)
            (getSize (type operand)).

Definition updateOperand (inputOutput : RequestArgument)
    (pools : list RunTimePoolInfo) (operand : OperandInfo) : OperandInfo :=
  let pool := default value_init (pools !! Z.to_nat (poolIndex (arg_location inputOutput))) in
  let offset := offset (arg_location inputOutput) in
  let operand1 :=
    if 0 <? size_of (arg_dimensions inputOutput)
    then set_dimensions (arg_dimensions inputOutput) operand
    else operand in
  set_buffer (buffer_offset (pool_buffer pool) offset) (getOperandSize operand1) operand1.

(** The two loops of [execute]: rebind the operand behind [indexes[i]] to
    [args[i]] and collect its tensor descriptor. *)
Fixpoint bindArguments (args : list RequestArgument) (pools : list RunTimePoolInfo)
    (indexes : list Z) (i : nat) : M (list hexagon_nn_tensordef) :=
  match args with
  | [] => mret []
  | arg :: rest =>
      let index := at_ indexes i in
      updateOperandInfo index (updateOperand arg pools);;
      operandInfo ← getOperand index;
      defs ← bindArguments rest pools indexes (S i);
      mret (convertToTensordef operandInfo :: defs)
  end.

Definition execute (request : Request) : M bool :=
  let pools := mapPools (request_pools request) in
  (* prepare inputs *)
  ins ← gets mInputs;
  inputs ← bindArguments (request_inputs request) pools ins 0;
  (* prepare outputs *)
  outs ← gets mOutputs;
  outputs ← bindArguments (request_outputs request) pools outs 0;
  (* execute model *)
  id ← gets mGraphId;
  err ← controller (call_execute_new id inputs outputs);
  getDebugLog;;
  mret (err =? 0).

(** ** PreparedModel and Device *)

(** [PreparedModel::asyncExecute]: the status handed to the callback. *)
Definition asyncExecute (request : Request) : M ErrorStatus :=
  ok ← execute request;
  mret (if (ok : bool) then NONE else GENERAL_FAILURE).

(** [PreparedModel::execute]: the returned status and the status the callback
    is notified with, if any.  [callback] tells whether the callback pointer
    is non-null; the detached thread is run to its end at once. *)
Definition PreparedModel_execute (mNeuralNetworksModel : NeuralnetworksModel)
    (request : Request) (callback : bool) : M (ErrorStatus * option ErrorStatus) :=
  if negb callback then mret (INVALID_ARGUMENT, None) else
  if negb (validateRequest U request mNeuralNetworksModel)
  then mret (INVALID_ARGUMENT, Some INVALID_ARGUMENT) else
  status ← asyncExecute request;
  mret (NONE, Some status).

(** The part of [Device::prepareModel] after validation: build the model,
    attempt to compile it, move it into the [PreparedModel] and destroy the
    moved-from local.  The result is the prepared model's [mHexagonModel]
    and the calls made. *)
Definition Device_prepareModel (model : NeuralnetworksModel) (calls : list Call) : State :=
  let hexagonModel := Model_new model calls in
  (* attempt to compile model; if this fails, it will be fully compiled later *)
  let '(_, compiled) := compile hexagonModel in
  let '(mHexagonModel, moved_from) := Model_move (self compiled) in
  let '(_, after) := Model_delete {| self := moved_from; trace := trace compiled |} in
  {| self := mHexagonModel; trace := trace after |}.


(** ** The states a model can be in

    The methods that code outside the class calls on a [Model]: the entry
    points used by [Device] and [PreparedModel], and the builder interface
    used by the check and lowering functions. *)
Inductive Method : Type :=
| call_supportedOperations
| call_compile
| call_execute (request : Request)
| call_getLog
| call_getDebugLog
| call_setShape (operand : Z) (shape : Shape)
| call_getTensor (operand : Z)
| call_getQuantizationMin (operand : Z)
| call_getQuantizationMax (operand : Z)
| call_createQuantizationValue (operand quant_value : Z)
| call_createConvFilterTensor (operand : Z)
| call_createDepthwiseFilterTensor (operand depth_multiplier : Z)
| call_createFullyConnectedWeightTensor (operand : Z)
| call_createShape (B H W D : Z)
| call_createTensor_float (B H W D : Z) (values : list float32)
| call_createValues_float (values : list float32)
| call_createValues_int32 (values : list Z)
| call_createScalar_float (value : float32)
| call_createScalar_int32 (value : Z)
| call_addBasicOperation (op : op_type) (pad : hexagon_nn_padding_type)
    (ins : list hexagon_nn_input) (outs : list Z)
| call_addFloatOperationWithActivation (op : op_type) (pad : hexagon_nn_padding_type)
    (activation : op_type) (ins : list hexagon_nn_input) (outs : list Z)
| call_addQuant8OperationWithActivation (op : op_type) (pad : hexagon_nn_padding_type)
    (activation : op_type) (ins : list hexagon_nn_input) (outs : list Z)
| call_addFusedFloatOperation (op : op_type) (pad : hexagon_nn_padding_type)
    (bias : hexagon_nn_input) (activation : op_type)
    (ins : list hexagon_nn_input) (outs : list Z)
| call_addFusedQuant8Operation (op : op_type) (pad : hexagon_nn_padding_type)
    (bias : hexagon_nn_input) (activation : op_type)
    (ins : list hexagon_nn_input) (outs : list Z).

Definition discard {A} (m : M A) : M unit := m;; mret tt.

Definition invoke (method : Method) : M unit :=
  match method with
  | call_supportedOperations => discard supportedOperations
  | call_compile => discard compile
  | call_execute request => discard (execute request)
  | call_getLog => getLog
  | call_getDebugLog => getDebugLog
  | call_setShape operand shape => discard (setShape operand shape)
  | call_getTensor operand => discard (getTensor operand)
  | call_getQuantizationMin operand => discard (getQuantizationMin operand)
  | call_getQuantizationMax operand => discard (getQuantizationMax operand)
  | call_createQuantizationValue operand v => discard (createQuantizationValue operand v)
  | call_createConvFilterTensor operand => discard (createConvFilterTensor operand)
  | call_createDepthwiseFilterTensor operand d =>
      discard (createDepthwiseFilterTensor operand d)
  | call_createFullyConnectedWeightTensor operand =>
      discard (createFullyConnectedWeightTensor operand)
  | call_createShape B H W D => discard (createShape B H W D)
  | call_createTensor_float B H W D values => discard (createTensor_float B H W D values)
  | call_createValues_float values => discard (createValues_float values)
  | call_createValues_int32 values => discard (createValues_int32 values)
  | call_createScalar_float value => discard (createScalar_float value)
  | call_createScalar_int32 value => discard (createScalar_int32 value)
  | call_addBasicOperation op pad ins outs => discard (addBasicOperation op pad ins outs)
  | call_addFloatOperationWithActivation op pad act ins outs =>
      discard (addFloatOperationWithActivation op pad act ins outs)
  | call_addQuant8OperationWithActivation op pad act ins outs =>
      discard (addQuant8OperationWithActivation op pad act ins outs)
  | call_addFusedFloatOperation op pad bias act ins outs =>
      discard (addFusedFloatOperation op pad bias act ins outs)
  | call_addFusedQuant8Operation op pad bias act ins outs =>
      discard (addFusedQuant8Operation op pad bias act ins outs)
  end.

(** A model is constructed from a HAL model, has methods called on it, and
    is moved (into a [PreparedModel]); the moved-from object stays around
    until it is destroyed. *)
Inductive reachable : State -> Prop :=
| reachable_new (model : NeuralnetworksModel) (calls : list Call) :
    reachable (Model_new model calls)
| reachable_invoke (st : State) (method : Method) :
    reachable st -> reachable (snd (invoke method st))
| reachable_moved_to (st : State) :
    reachable st ->
    reachable {| self := fst (Model_move (self st)); trace := trace st |}
| reachable_moved_from (st : State) :
    reachable st ->
    reachable {| self := snd (Model_move (self st)); trace := trace st |}.

End HexagonModel.

(** ** Relations between the state before and after a method

    [moves R m]: running [m] takes every state to an [R]-related one. *)
Definition moves (R : State -> State -> Prop) {A} (m : M A) : Prop :=
  forall st, R st (snd (m st)).

(** The compiled flag, once false, is still false. *)
Definition staysUncompiled (st st' : State) : Prop :=
  mCompiled (self st) = false -> mCompiled (self st') = false.




(** The calls made on the way from [st] to [st']. *)
Definition issued (st st' : State) : list Call :=
  drop (List.length (trace st)) (trace st').


Definition forgetDimensions (o : OperandInfo) : OperandInfo := set_dimensions [] o.

(** Nothing changed but the dimensions of operands: no accelerator call, the
    same session, counter, flag, operations and handles. *)
Definition sameSession (st st' : State) : Prop :=
  trace st' = trace st /\
  mGraphId (self st') = mGraphId (self st) /\
  mNodeCount (self st') = mNodeCount (self st) /\
  mCompiled (self st') = mCompiled (self st) /\
  mOperations (self st') = mOperations (self st) /\
  mInputs (self st') = mInputs (self st) /\
  mOutputs (self st') = mOutputs (self st) /\
  mPools (self st') = mPools (self st) /\
  map forgetDimensions (mOperands (self st')) = map forgetDimensions (mOperands (self st)).

(** No operand has an output descriptor attached. *)
Definition outputsUnset (st : State) : Prop :=
  Forall (fun o => hexagon_output o = value_init) (mOperands (self st)).

Definition keepsOutputsUnset (st st' : State) : Prop :=
  outputsUnset st -> outputsUnset st'.

Definition isTeardownOf (id : Z) (c : Call) : bool :=
  match c with
  | call_teardown id' => id' =? id
  | _ => false
  end.

(** How often the session [id] is torn down in [calls]. *)
Definition teardowns (id : Z) (calls : list Call) : nat :=
  List.length (filter (fun c => isTeardownOf id c = true) calls).

Definition isAppendNode (c : Call) : bool :=
  match c with
  | call_append_node _ _ _ _ _ _ => true
  | _ => false
  end.

(** The constant node [createValues<float>({v})] asks for in state [st]. *)
Definition float_constant (st : State) (v : float32) : Call :=
  call_append_const_node (mGraphId (self st)) (to_uint32 (mNodeCount (self st) + 1))
    1 1 1 1 (blob_float [v]) 4.

(** The dequantization of the stored value [q]: [(q - zeroPoint) * scale]. *)
Definition dequantized (o : OperandInfo) (q : Z) : float32 :=
  f32_mul (f32_of_Z (q - zeroPoint o)) (scale o).

(** The controller entry point a call goes through. *)
Inductive EntryPoint : Type :=
| ep_init | ep_set_debug_level | ep_getlog | ep_snpprint | ep_prepare
| ep_append_node | ep_append_const_node | ep_execute_new | ep_teardown.

Definition entryPoint (c : Call) : EntryPoint :=
  match c with
  | call_init => ep_init
  | call_set_debug_level _ _ => ep_set_debug_level
  | call_getlog _ => ep_getlog
  | call_snpprint _ => ep_snpprint
  | call_prepare _ => ep_prepare
  | call_append_node _ _ _ _ _ _ => ep_append_node
  | call_append_const_node _ _ _ _ _ _ _ _ => ep_append_const_node
  | call_execute_new _ _ _ => ep_execute_new
  | call_teardown _ => ep_teardown
  end.

(** Nothing was asked of the accelerator and the session is the same. *)
Definition quiet (st st' : State) : Prop :=
  trace st' = trace st /\ mGraphId (self st') = mGraphId (self st).

(** Whether the lowering table has a function for the pair. *)
Definition hasLoweringFunction (hexagon_nn : Accelerator) (U : OperationsUtils)
    (t : OperationType) (ty : OperandType) : bool :=
  match getOperationPrepareTable hexagon_nn U t ty with
  | Some _ => true
  | None => false
  end.

(** An operand whose input handle and output descriptor are unset. *)
Definition isCleared (o : OperandInfo) : Prop :=
  hexagon_input o = value_init /\ hexagon_output o = value_init.

(** [accepted h before calls]: the accelerator [h], having seen [before],
    accepts every [append_node] among [calls]. *)
Fixpoint accepted (h : Accelerator) (before calls : list Call) : Prop :=
  match calls with
  | [] => True
  | c :: rest =>
      (isAppendNode c = true -> h before c = 0) /\ accepted h (before ++ [c]) rest
  end.

(** No [append_node] issued on the way from [st] to [st'] was rejected. *)
Definition clean (h : Accelerator) (st st' : State) : Prop :=
  exists calls, trace st' = trace st ++ calls /\ accepted h (trace st) calls.

(** A step of the builder that can only succeed on a clean run. *)
Definition succeedsCleanly (h : Accelerator) (m : M bool) : Prop :=
  forall st, fst (m st) = true -> clean h st (snd (m st)).

(** The same for a step that returns a node id, zero meaning failure. *)
Definition yieldsNodeCleanly (h : Accelerator) (m : M Z) : Prop :=
  forall st, fst (m st) <> 0 -> clean h st (snd (m st)).

(** ** The arities the check and lowering functions ask for

    Each function opens with soft assertions on [ins.size()] and
    [outs.size()]; these tables collect them ([None]: no function).  The
    pooling checks assert nothing about the outputs. *)
Definition checkArity (t : OperationType) : option (Z -> Z -> bool) :=
  match t with
  | ADD | MUL => Some (fun i o => (i =? 3) && (o =? 1))
  | AVERAGE_POOL_2D | L2_POOL_2D | MAX_POOL_2D => Some (fun i _ => (i =? 10) || (i =? 7))
  | CONCATENATION => Some (fun i o => (3 <=? i) && (o =? 1))
  | CONV_2D => Some (fun i o => ((i =? 10) || (i =? 7)) && (o =? 1))
  | DEPTHWISE_CONV_2D => Some (fun i o => ((i =? 8) || (i =? 11)) && (o =? 1))
  | DEQUANTIZE | LOGISTIC | RELU | RELU1 | RELU6 | TANH =>
      Some (fun i o => (i =? 1) && (o =? 1))
  | FULLY_CONNECTED => Some (fun i o => (i =? 4) && (o =? 1))
  | LOCAL_RESPONSE_NORMALIZATION => Some (fun i o => (i =? 5) && (o =? 1))
  | RESHAPE | SOFTMAX => Some (fun i o => (i =? 2) && (o =? 1))
  | RESIZE_BILINEAR => Some (fun i o => (i =? 3) && (o =? 1))
  | DEPTH_TO_SPACE | EMBEDDING_LOOKUP | FLOOR | HASHTABLE_LOOKUP
  | L2_NORMALIZATION | LSH_PROJECTION | LSTM | RNN | SPACE_TO_DEPTH | SVDF
  | OEM_OPERATION => None
  end.

Definition loweringArity (t : OperationType) (ty : OperandType)
    : option (Z -> Z -> bool) :=
  match ty, t with
  | TENSOR_FLOAT32, (ADD | MUL) | TENSOR_QUANT8_ASYMM, (ADD | MUL) =>
      Some (fun i o => (i =? 3) && (o =? 1))
  | TENSOR_FLOAT32, (AVERAGE_POOL_2D | L2_POOL_2D | MAX_POOL_2D | CONV_2D)
  | TENSOR_QUANT8_ASYMM, (AVERAGE_POOL_2D | MAX_POOL_2D | CONV_2D) =>
      Some (fun i o => (i =? 10) && (o =? 1))
  | TENSOR_FLOAT32, CONCATENATION | TENSOR_QUANT8_ASYMM, CONCATENATION =>
      Some (fun i o => (3 <=? i) && (o =? 1))
  | TENSOR_FLOAT32, DEPTHWISE_CONV_2D | TENSOR_QUANT8_ASYMM, DEPTHWISE_CONV_2D =>
      Some (fun i o => (i =? 11) && (o =? 1))
  | TENSOR_FLOAT32, FULLY_CONNECTED | TENSOR_QUANT8_ASYMM, FULLY_CONNECTED =>
      Some (fun i o => (i =? 4) && (o =? 1))
  | TENSOR_FLOAT32, LOCAL_RESPONSE_NORMALIZATION =>
      Some (fun i o => (i =? 5) && (o =? 1))
  | TENSOR_FLOAT32, (LOGISTIC | RELU | RELU1 | RELU6 | TANH)
  | TENSOR_QUANT8_ASYMM, (DEQUANTIZE | LOGISTIC | RELU | RELU1 | RELU6) =>
      Some (fun i o => (i =? 1) && (o =? 1))
  | TENSOR_FLOAT32, (RESHAPE | SOFTMAX) | TENSOR_QUANT8_ASYMM, (RESHAPE | SOFTMAX) =>
      Some (fun i o => (i =? 2) && (o =? 1))
  | TENSOR_FLOAT32, RESIZE_BILINEAR => Some (fun i o => (i =? 3) && (o =? 1))
  | _, _ => None
  end.

(** ** Instances for the worked examples *)

(** An accelerator that opens session 1 and accepts every call. *)
Definition accept_all : Accelerator :=
  fun _ c => match c with call_init => 1 | _ => 0 end.

(** An accelerator that accepts the graph and then fails to prepare it. *)
Definition reject_prepare : Accelerator :=
  fun _ c => match c with call_init => 1 | call_prepare _ => -1 | _ => 0 end.

(** An accelerator that rejects every node. *)
Definition reject_nodes : Accelerator :=
  fun _ c => match c with
             | call_init => 1
             | call_append_node _ _ _ _ _ _ => -1
             | call_append_const_node _ _ _ _ _ _ _ _ => -1
             | _ => 0
             end.


(** The validators the examples reach, as android::nn has them: [SetShape]
    copies the dimensions when type and rank agree, the activation validator
    asks for rank at most 4, the element-wise validator takes equal shapes
    or broadcasts from the trailing dimension. *)
Definition example_SetShape (input output : Shape) : option Shape :=
  if OperandType_eqb (shape_type input) (shape_type output) &&
     (size_of (shape_dimensions input) =? size_of (shape_dimensions output))
  then Some {| shape_type := shape_type output;
               shape_dimensions := shape_dimensions input;
               shape_scale := shape_scale output;
               shape_offset := shape_offset output |}
  else None.

Definition example_genericActivationPrepare (input output : Shape) : option Shape :=
  if size_of (shape_dimensions input) <=? 4 then example_SetShape input output else None.

Fixpoint broadcast_reversed (a b : list Z) : option (list Z) :=
  match a, b with
  | [], l | l, [] => Some l
  | x :: a', y :: b' =>
      if (x =? y) || (x =? 1) || (y =? 1)
      then option_map (cons (Z.max x y)) (broadcast_reversed a' b')
      else None
  end.

Definition example_addMulPrepare (in1 in2 out : Shape) : option Shape :=
  if (size_of (shape_dimensions in1) <=? 4) && (size_of (shape_dimensions in2) <=? 4) &&
     OperandType_eqb (shape_type in1) (shape_type in2)
  then
    if forallb (fun p => fst p =? snd p)
         (combine (shape_dimensions in1) (shape_dimensions in2)) &&
       (size_of (shape_dimensions in1) =? size_of (shape_dimensions in2))
    then example_SetShape in1 out
    else
      match broadcast_reversed (rev (shape_dimensions in1)) (rev (shape_dimensions in2)) with
      | Some dims => Some {| shape_type := shape_type out;
                             shape_dimensions := rev dims;
                             shape_scale := shape_scale out;
                             shape_offset := shape_offset out |}
      | None => None
      end
  else None.

(** The helpers of the examples.  The validators no example reaches answer
    false. *)
Definition example_utils : OperationsUtils :=
  {| getPaddingScheme := fun _ _ _ _ _ _ => kPaddingUnknown;
     calculateExplicitPadding := fun _ _ _ _ => (0, 0);
     getNumberOfElements := fun s => fold_left Z.mul (shape_dimensions s) 1;
     addMulPrepare := example_addMulPrepare;
     genericPoolingPrepare := fun _ _ _ _ _ _ _ _ _ _ => None;
     concatenationPrepare := fun _ _ _ => None;
     convPrepare := fun _ _ _ _ _ _ _ _ _ _ => None;
     depthwiseConvPrepare := fun _ _ _ _ _ _ _ _ _ _ => None;
     dequantizePrepare := fun _ _ => None;
     fullyConnectedPrepare := fun _ _ _ _ => None;
     genericNormalizationPrepare := fun _ _ => None;
     genericActivationPrepare := example_genericActivationPrepare;
     reshapePrepare := fun _ _ _ _ => None;
     resizeBilinearPrepare := fun _ _ _ _ => None;
     validateModel := fun _ => true;
     validateRequest := fun _ _ => true;
     transpose_float := fun _ _ p => p;
     transpose_uint8 := fun _ _ p => p |}.

Definition example_operand (t : OperandType) (dims : list Z) (life : OperandLifeTime)
    (s : float32) (zp : Z) (len : Z) : Operand :=
  {| operand_type := t; operand_dimensions := dims; operand_scale := s;
     operand_zeroPoint := zp; operand_lifetime := life;
     operand_location := {| poolIndex := 0; offset := 0; location_length := len |} |}.

(** One float RELU from operand 0 (the input) to operand 1 (the output). *)
Definition nn_relu : NeuralnetworksModel :=
  {| nn_operands :=
       [example_operand TENSOR_FLOAT32 [1; 2] MODEL_INPUT f32_zero 0 0;
        example_operand TENSOR_FLOAT32 [1; 2] MODEL_OUTPUT f32_zero 0 0];
     nn_operations := [{| operation_type := RELU; inputs := [0]; outputs := [1] |}];
     nn_inputIndexes := [0];
     nn_outputIndexes := [1];
     nn_operandValues := [];
     nn_pools := [] |}.

Definition f32_half : float32 := S754_finite false 8388608 (-24).

(** One TANH on 8-bit quantized tensors (zero point 128, scale 0.5). *)
Definition nn_tanh_quant8 : NeuralnetworksModel :=
  {| nn_operands :=
       [example_operand TENSOR_QUANT8_ASYMM [1; 2] MODEL_INPUT f32_half 128 0;
        example_operand TENSOR_QUANT8_ASYMM [1; 2] MODEL_OUTPUT f32_half 128 0];
     nn_operations := [{| operation_type := TANH; inputs := [0]; outputs := [1] |}];
     nn_inputIndexes := [0];
     nn_outputIndexes := [1];
     nn_operandValues := [];
     nn_pools := [] |}.

(** One vendor operation, which the driver has no check function for. *)
Definition nn_oem : NeuralnetworksModel :=
  {| nn_operands :=
       [example_operand TENSOR_FLOAT32 [1; 2] MODEL_INPUT f32_zero 0 0;
        example_operand TENSOR_FLOAT32 [1; 2] MODEL_OUTPUT f32_zero 0 0];
     nn_operations := [{| operation_type := OEM_OPERATION; inputs := [0]; outputs := [1] |}];
     nn_inputIndexes := [0];
     nn_outputIndexes := [1];
     nn_operandValues := [];
     nn_pools := [] |}.

(** An ADD of operands 0 and 1 into operand 3, listed before the RELU that
    writes operand 0 from operand 4.  Operand 2 is the activation scalar. *)
Definition nn_add_after_relu : NeuralnetworksModel :=
  {| nn_operands :=
       [example_operand TENSOR_FLOAT32 [2] TEMPORARY_VARIABLE f32_zero 0 0;
        example_operand TENSOR_FLOAT32 [2] MODEL_INPUT f32_zero 0 0;
        example_operand INT32 [] CONSTANT_COPY f32_zero 0 4;
        example_operand TENSOR_FLOAT32 [2] MODEL_OUTPUT f32_zero 0 0;
        example_operand TENSOR_FLOAT32 [3] MODEL_INPUT f32_zero 0 0];
     nn_operations :=
       [{| operation_type := ADD; inputs := [0; 1; 2]; outputs := [3] |};
        {| operation_type := RELU; inputs := [4]; outputs := [0] |}];
     nn_inputIndexes := [1; 4];
     nn_outputIndexes := [3];
     nn_operandValues := [Byte.x00; Byte.x00; Byte.x00; Byte.x00];
     nn_pools := [] |}.

(** A request for [nn_relu]: input at offset 0 and output at offset 8 of one
    pool of 16 bytes. *)
Definition request_relu : Request :=
  {| request_inputs :=
       [{| arg_location := {| poolIndex := 0; offset := 0; location_length := 8 |};
           arg_dimensions := [] |}];
     request_outputs :=
       [{| arg_location := {| poolIndex := 0; offset := 8; location_length := 8 |};
           arg_dimensions := [] |}];
     request_pools := [Some (replicate 16 Byte.x00)] |}.

(** ** Operand slots, footprints and the service entry points *)

(** Operand 0 is a constant vector of two floats, operand 1 a tensor of rank
    five, operand 2 a quantized tensor and operand 3 a float matrix. *)
Definition nn_operands_only : NeuralnetworksModel :=
  {| nn_operands :=
       [example_operand TENSOR_FLOAT32 [2] CONSTANT_COPY f32_zero 0 8;
        example_operand TENSOR_FLOAT32 [1; 1; 1; 1; 2] MODEL_INPUT f32_zero 0 0;
        example_operand TENSOR_QUANT8_ASYMM [1; 2] TEMPORARY_VARIABLE f32_half 128 0;
        example_operand TENSOR_FLOAT32 [2; 2] MODEL_OUTPUT f32_zero 0 0];
     nn_operations := [];
     nn_inputIndexes := [1];
     nn_outputIndexes := [3];
     nn_operandValues := replicate 8 Byte.x00;
     nn_pools := [] |}.

(** The number of output slots an operand takes on its node: a quantized
    tensor comes with its range. *)
Definition slotsOf (o : OperandInfo) : Z :=
  if OperandType_eqb (type o) TENSOR_QUANT8_ASYMM then 3 else 1.

(** The descriptors [getHexagonOutputs] makes for one operand. *)
Definition descriptorsOf (o : OperandInfo) : list hexagon_nn_output :=
  make_hexagon_nn_output (dimensions o) (getSize (type o)) ::
  (if OperandType_eqb (type o) TENSOR_QUANT8_ASYMM
   then [scalar_float_output; scalar_float_output] else []).

(** An operand after the body of the loop of [registerHexagonInputs]. *)
Definition registeredAt (node idx : Z) (o : OperandInfo) : OperandInfo :=
  let o1 := set_hexagon_input {| src_id := node; output_idx := idx |} o in
  if OperandType_eqb (type o) TENSOR_QUANT8_ASYMM then
    set_hexagon_input_max {| src_id := node; output_idx := to_uint32 (idx + 2) |}
      (set_hexagon_input_min {| src_id := node; output_idx := to_uint32 (idx + 1) |} o1)
  else o1.

(** The state with operand [i] replaced by [f] of it. *)
Definition withOperand (i : Z) (f : OperandInfo -> OperandInfo) (st : State) : State :=
  {| self := set_mOperands (alter f (Z.to_nat i) (mOperands (self st))) (self st);
     trace := trace st |}.

(** An operand index within the operand table. *)
Definition inRange (st : State) (i : Z) : Prop := 0 <= i < size_of (mOperands (self st)).

(** What [registerHexagonInputs] leaves in operand [i], one of the operands
    [l] registered on [node] with the slots counted from [idx]: its handle
    names a slot of [node], the descriptor [getHexagonOutputs] made for that
    slot is the operand's own, and a quantized operand has its range in the
    two slots that follow. *)
Definition registeredIn (st st' : State) (l : list Z) (node idx : Z) (i : Z) : Prop :=
  let o := operand_at (self st) i in
  let o' := operand_at (self st') i in
  exists slot,
    idx <= slot /\
    hexagon_input o' = {| src_id := node; output_idx := slot |} /\
    fst (getHexagonOutputs l st) !! Z.to_nat (slot - idx) =
      Some (make_hexagon_nn_output (dimensions o) (getSize (type o))) /\
    (type o = TENSOR_QUANT8_ASYMM ->
     hexagon_input_min o' = {| src_id := node; output_idx := slot + 1 |} /\
     hexagon_input_max o' = {| src_id := node; output_idx := slot + 2 |}).

(** When [m] succeeds, every operand of [outs] carries a handle. *)
Definition wiresOutputs (outs : list Z) (m : M bool) : Prop :=
  forall st i, In i outs -> inRange st i -> fst (m st) = true ->
    hexagon_nn_input_eqb (hexagon_input (operand_at (self (snd (m st))) i)) value_init = false.

(** Whether the check table has a function for the operation kind. *)
Definition hasCheckFunction (U : OperationsUtils) (t : OperationType) : bool :=
  match getOperationCheckTable U t with
  | Some _ => true
  | None => false
  end.

(** At most the dimensions of operand [out] were written. *)
Definition wroteDimensionsOf (out : Z) (st st' : State) : Prop :=
  exists d, st' = withOperand out (set_dimensions d) st.

(** What the HAL model says of an operand. *)
Definition declared (o : OperandInfo) : OperandType * float32 * Z * OperandLifeTime :=
  (type o, scale o, zeroPoint o, lifetime o).

(** The part of the model taken from the HAL model is as it was. *)
Definition sameDescription (st st' : State) : Prop :=
  mOperations (self st') = mOperations (self st) /\
  mInputs (self st') = mInputs (self st) /\
  mOutputs (self st') = mOutputs (self st) /\
  mPools (self st') = mPools (self st) /\
  map declared (mOperands (self st')) = map declared (mOperands (self st)).


(** [hexagon::Controller] (HexagonController.cpp) over the entry points of
    libhexagon_nn_controller.so that [dlsym] found ([loaded]) and the
    library's answers ([lib]): an entry point that is missing answers [-1],
    or the empty id for [init]; [CONTROLLER_CHECK] hands a non-zero status
    through and the method returns 0 otherwise. *)
Definition Controller (loaded : EntryPoint -> bool) (lib : Accelerator) : Accelerator :=
  fun calls c =>
    match c with
    | call_init => if loaded ep_init then lib calls c else hexagon_nn_nn_id_none
    | _ =>
        if loaded (entryPoint c) then
          let err := lib calls c in
          if negb (err =? 0) then err else 0
        else -1
    end.

(** The controller when the library could not be opened: no entry point is
    loaded. *)
Definition withoutLibrary (lib : Accelerator) : Accelerator :=
  Controller (fun _ => false) lib.

(** A model without a session stays without one. *)
Definition noSession (st st' : State) : Prop :=
  mGraphId (self st) = hexagon_nn_nn_id_none -> mGraphId (self st') = hexagon_nn_nn_id_none.

(** * Reasoning about the methods *)

Lemma run_bind {A B} (m : M A) (k : A -> M B) (st : State) :
  (m ≫= k) st = k (fst (m st)) (snd (m st)).
Proof. unfold mbind, M_bind. destruct (m st); reflexivity. Qed.

Lemma run_mret {A} (a : A) (st : State) : (mret a : M A) st = (a, st).
Proof. reflexivity. Qed.

(** ** Transition relations kept by every method

    [steps R m] says that running [m] moves the state along [R].  For a
    reflexive and transitive [R] that the primitive writes of the model obey,
    every method moves the state along [R]; the section proves this once,
    method by method. *)

Create HintDb frame.

Section Frame.

Variable hexagon_nn : Accelerator.
Variable U : OperationsUtils.
Variable R : State -> State -> Prop.

Local Abbreviation steps := (moves R).

Hypothesis R_refl : forall st, R st st.
Hypothesis R_trans : forall a b c, R a b -> R b c -> R a c.

Lemma steps_mret {A} (a : A) : steps (mret a).
Proof. intros st. apply R_refl. Qed.

Lemma steps_bind {A B} (m : M A) (k : A -> M B) :
  steps m -> (forall a, steps (k a)) -> steps (m ≫= k).
Proof.
  intros Hm Hk st. rewrite run_bind.
  eapply R_trans; [apply Hm | apply Hk].
Qed.

Lemma steps_gets {A} (f : Model -> A) : steps (gets f).
Proof. intros st. apply R_refl. Qed.

Lemma steps_getOperand (i : Z) : steps (getOperand i).
Proof. apply steps_gets. Qed.

Hint Resolve steps_mret steps_gets steps_getOperand : frame.

Ltac frame :=
  repeat match goal with
  | |- steps (mret _) => apply steps_mret
  | |- steps (_ ≫= _) => apply steps_bind; [ | intros ]
  | |- steps (if ?c then _ else _) => destruct c
  | |- steps (match ?x with _ => _ end) => destruct x eqn:?
  | |- steps _ => solve [ eauto with frame ]
  end.

(** *** Methods that only read *)

Lemma steps_getPointer i : steps (getPointer i).
Proof. unfold getPointer. frame. Qed.

Lemma steps_getShape i : steps (getShape i).
Proof. unfold getShape. frame. Qed.

Lemma steps_isConstant i : steps (isConstant i).
Proof. unfold isConstant. frame. Qed.

Lemma steps_getScalar_int32 i : steps (getScalar_int32 i).
Proof. unfold getScalar_int32. frame. Qed.

Hint Resolve steps_getPointer steps_getShape steps_isConstant steps_getScalar_int32 : frame.

Lemma steps_getScalar_FusedActivationFunc i : steps (getScalar_FusedActivationFunc i).
Proof. unfold getScalar_FusedActivationFunc. frame. Qed.

Hint Resolve steps_getScalar_FusedActivationFunc : frame.

Lemma steps_getFloatActivation i : steps (getFloatActivation i).
Proof. unfold getFloatActivation. frame. Qed.

Lemma steps_getQuantizedActivation i : steps (getQuantizedActivation i).
Proof. unfold getQuantizedActivation. frame. Qed.

Lemma steps_getHexagonOutputs l : steps (getHexagonOutputs l).
Proof. unfold getHexagonOutputs. frame. Qed.

Lemma steps_verifyOperands : steps verifyOperands.
Proof. unfold verifyOperands. frame. Qed.

Lemma steps_check_getShapes l : steps (check_getShapes l).
Proof. induction l; simpl; frame. Qed.

Hint Resolve steps_getFloatActivation steps_getQuantizedActivation
  steps_getHexagonOutputs steps_verifyOperands steps_check_getShapes : frame.

(** *** The feasibility checks: they write dimensions only *)

Section Checks.

Hypothesis R_dimensions : forall i d, steps (updateOperandInfo i (set_dimensions d)).

Hint Resolve R_dimensions : frame.

Lemma steps_setShape i s : steps (setShape i s).
Proof. unfold setShape. frame. Qed.

Hint Resolve steps_setShape : frame.

Lemma steps_commitShape p out k : steps k -> steps (commitShape p out k).
Proof. intros Hk. unfold commitShape. frame. Qed.

Hint Resolve steps_commitShape : frame.

Lemma steps_check_addMul ins outs op : steps (check_addMul U ins outs op).
Proof. unfold check_addMul. frame. Qed.

Lemma steps_check_pool ins outs op : steps (check_pool U ins outs op).
Proof. unfold check_pool. frame. Qed.

Lemma steps_check_concatenation ins outs : steps (check_concatenation U ins outs).
Proof. unfold check_concatenation. frame. Qed.

Lemma steps_check_convolution e p ins outs : steps (check_convolution U e p ins outs).
Proof. unfold check_convolution. frame; apply steps_commitShape; frame. Qed.

Hint Resolve steps_check_addMul steps_check_pool steps_check_concatenation
  steps_check_convolution : frame.

Lemma steps_check_conv_2d ins outs : steps (check_conv_2d U ins outs).
Proof. unfold check_conv_2d. frame. Qed.

Lemma steps_check_depthwise_conv_2d ins outs : steps (check_depthwise_conv_2d U ins outs).
Proof. unfold check_depthwise_conv_2d. frame. Qed.

Lemma steps_check_dequantize ins outs : steps (check_dequantize U ins outs).
Proof. unfold check_dequantize. frame. Qed.

Lemma steps_check_fully_connected ins outs : steps (check_fully_connected U ins outs).
Proof. unfold check_fully_connected. frame; apply steps_commitShape; frame. Qed.

Lemma steps_check_local_response_normalization ins outs :
  steps (check_local_response_normalization U ins outs).
Proof. unfold check_local_response_normalization. frame. Qed.

Lemma steps_check_activation ins outs n op : steps (check_activation U ins outs n op).
Proof. unfold check_activation. frame. Qed.

Lemma steps_check_reshape ins outs : steps (check_reshape U ins outs).
Proof. unfold check_reshape. frame. Qed.

Lemma steps_check_resize_bilinear ins outs : steps (check_resize_bilinear U ins outs).
Proof. unfold check_resize_bilinear. frame. Qed.

Hint Resolve steps_check_conv_2d steps_check_depthwise_conv_2d steps_check_dequantize
  steps_check_fully_connected steps_check_local_response_normalization
  steps_check_activation steps_check_reshape steps_check_resize_bilinear : frame.

Lemma steps_check_entry t f ins outs :
  getOperationCheckTable U t = Some f -> steps (f ins outs).
Proof.
  destruct t; simpl; intros E; inversion E; subst; clear E;
    unfold check_add, check_mul, check_average_pool_2d, check_l2_pool_2d,
      check_max_pool_2d, check_logistic, check_relu, check_relu1, check_relu6,
      check_softmax, check_tanh; frame.
Qed.

Lemma steps_supportedOperation o : steps (supportedOperation U o).
Proof.
  unfold supportedOperation.
  destruct (getOperationCheckTable U (operation_type o)) eqn:E; frame.
  eapply steps_check_entry; eassumption.
Qed.

Hint Resolve steps_supportedOperation : frame.

Lemma steps_supportedOperations_from l : steps (supportedOperations_from U l).
Proof. induction l; simpl; frame. Qed.

Hint Resolve steps_supportedOperations_from : frame.

Lemma steps_supportedOperations : steps (supportedOperations U).
Proof. unfold supportedOperations. frame. Qed.

Hint Resolve steps_supportedOperations : frame.

Lemma steps_verifyOperations : steps (verifyOperations U).
Proof. unfold verifyOperations. frame. Qed.

End Checks.

(** *** The graph builder and the execution adapter *)

Section Builders.

Hypothesis R_dimensions : forall i d, steps (updateOperandInfo i (set_dimensions d)).
Hypothesis R_input : forall i h, steps (updateOperandInfo i (set_hexagon_input h)).
Hypothesis R_input_min : forall i h, steps (updateOperandInfo i (set_hexagon_input_min h)).
Hypothesis R_input_max : forall i h, steps (updateOperandInfo i (set_hexagon_input_max h)).
Hypothesis R_rebind : forall i arg pools, steps (updateOperandInfo i (updateOperand arg pools)).
Hypothesis R_const_node :
  forall B H W D p size, steps (createTensorInternal hexagon_nn B H W D p size).
Hypothesis R_node :
  forall op pad ins outs, steps (addOperationInternal hexagon_nn op pad ins outs).
Hypothesis R_getlog : forall id, steps (controller hexagon_nn (call_getlog id)).
Hypothesis R_snpprint : forall id, steps (controller hexagon_nn (call_snpprint id)).
Hypothesis R_prepare : forall id, steps (controller hexagon_nn (call_prepare id)).
Hypothesis R_execute_new :
  forall id ins outs, steps (controller hexagon_nn (call_execute_new id ins outs)).
Hypothesis R_teardown : forall id, steps (controller hexagon_nn (call_teardown id)).
Hypothesis R_resetModel : steps (resetModel hexagon_nn).

Hint Resolve R_dimensions R_input R_input_min R_input_max R_rebind R_const_node
  R_node R_getlog R_snpprint R_prepare R_execute_new R_teardown R_resetModel : frame.

Lemma steps_Model_delete : steps (Model_delete hexagon_nn).
Proof. unfold Model_delete. frame. Qed.

Lemma steps_getDebugLog : steps (getDebugLog hexagon_nn).
Proof. unfold getDebugLog. frame. Qed.

Lemma steps_getLog : steps (getLog hexagon_nn).
Proof. unfold getLog. frame. Qed.

Lemma steps_createShape B H W D : steps (createShape hexagon_nn B H W D).
Proof. unfold createShape. frame. Qed.

Lemma steps_createTensor_float B H W D v : steps (createTensor_float hexagon_nn B H W D v).
Proof. unfold createTensor_float. frame. Qed.

Hint Resolve steps_getDebugLog steps_getLog steps_createShape steps_createTensor_float : frame.

Lemma steps_createValues_float v : steps (createValues_float hexagon_nn v).
Proof. unfold createValues_float. frame. Qed.

Lemma steps_createValues_int32 v : steps (createValues_int32 hexagon_nn v).
Proof. unfold createValues_int32. frame. Qed.

Lemma steps_createScalar_float v : steps (createScalar_float hexagon_nn v).
Proof. unfold createScalar_float. frame. Qed.

Lemma steps_createScalar_int32 v : steps (createScalar_int32 hexagon_nn v).
Proof. unfold createScalar_int32. frame. Qed.

Lemma steps_addOperand i : steps (addOperand hexagon_nn i).
Proof. unfold addOperand. frame. Qed.

Hint Resolve steps_createValues_float steps_createValues_int32 steps_createScalar_float
  steps_createScalar_int32 steps_addOperand : frame.

Lemma steps_getTensor i : steps (getTensor hexagon_nn i).
Proof. unfold getTensor. frame. Qed.

Lemma steps_getQuantizationMin i : steps (getQuantizationMin hexagon_nn i).
Proof. unfold getQuantizationMin. frame. Qed.

Lemma steps_getQuantizationMax i : steps (getQuantizationMax hexagon_nn i).
Proof. unfold getQuantizationMax. frame. Qed.

Lemma steps_createQuantizationValue i v : steps (createQuantizationValue hexagon_nn i v).
Proof. unfold createQuantizationValue. frame. Qed.

Lemma steps_createConvFilterTensor i : steps (createConvFilterTensor hexagon_nn U i).
Proof. unfold createConvFilterTensor. frame. Qed.

Lemma steps_createDepthwiseFilterTensor i d :
  steps (createDepthwiseFilterTensor hexagon_nn i d).
Proof. unfold createDepthwiseFilterTensor. frame. Qed.

Lemma steps_createFullyConnectedWeightTensor i :
  steps (createFullyConnectedWeightTensor hexagon_nn U i).
Proof. unfold createFullyConnectedWeightTensor. frame. Qed.

Hint Resolve steps_getTensor steps_getQuantizationMin steps_getQuantizationMax
  steps_createQuantizationValue steps_createConvFilterTensor
  steps_createDepthwiseFilterTensor steps_createFullyConnectedWeightTensor : frame.

Lemma steps_registerHexagonInputs_from l node idx :
  steps (registerHexagonInputs_from l node idx).
Proof. revert idx. induction l; intros idx; simpl; frame. Qed.

Hint Resolve steps_registerHexagonInputs_from : frame.

Lemma steps_registerHexagonInputs l node : steps (registerHexagonInputs l node).
Proof. unfold registerHexagonInputs. frame. Qed.

Hint Resolve steps_registerHexagonInputs : frame.

Lemma steps_addBasicOperation op pad ins outs :
  steps (addBasicOperation hexagon_nn op pad ins outs).
Proof. unfold addBasicOperation. frame. Qed.

Lemma steps_setupActivationArgs op : steps (setupActivationArgs hexagon_nn op).
Proof. unfold setupActivationArgs. frame. Qed.

Hint Resolve steps_addBasicOperation steps_setupActivationArgs : frame.

Lemma steps_addFloatOperationWithActivation op pad act ins outs :
  steps (addFloatOperationWithActivation hexagon_nn op pad act ins outs).
Proof. unfold addFloatOperationWithActivation. frame. Qed.

Lemma steps_addQuant8OperationWithActivation op pad act ins outs :
  steps (addQuant8OperationWithActivation hexagon_nn op pad act ins outs).
Proof. unfold addQuant8OperationWithActivation. frame. Qed.

Lemma steps_addFusedFloatOperation op pad bias act ins outs :
  steps (addFusedFloatOperation hexagon_nn op pad bias act ins outs).
Proof. unfold addFusedFloatOperation. frame. Qed.

Lemma steps_addFusedQuant8Operation op pad bias act ins outs :
  steps (addFusedQuant8Operation hexagon_nn op pad bias act ins outs).
Proof. unfold addFusedQuant8Operation. frame. Qed.

Hint Resolve steps_addFloatOperationWithActivation steps_addQuant8OperationWithActivation
  steps_addFusedFloatOperation steps_addFusedQuant8Operation : frame.

Lemma steps_mapM {A B} (f : A -> M B) l : (forall x, steps (f x)) -> steps (mapM f l).
Proof. intros Hf. induction l; simpl; frame. Qed.

Lemma steps_quantizedTensor i : steps (quantizedTensor hexagon_nn i).
Proof. unfold quantizedTensor. frame. Qed.

Hint Resolve steps_quantizedTensor : frame.

Hint Resolve steps_mapM : frame.

Lemma steps_lowering t ty f ins outs :
  getOperationPrepareTable hexagon_nn U t ty = Some f -> steps (f ins outs).
Proof.
  destruct ty, t; simpl; intros E; inversion E; subst; clear E;
    unfold float32_add, float32_average_pool_2d, float32_l2_pool_2d,
      float32_max_pool_2d, float32_pool, float32_concatenation, float32_conv_2d,
      float32_depthwise_conv_2d, float32_fully_connected,
      float32_local_response_normalization, float32_logistic, float32_relu,
      float32_tanh, float32_unary, float32_mul, float32_relu1, float32_relu6,
      float32_reshape, float32_resize_bilinear, float32_softmax,
      quant8_asym_add, quant8_asym_mul, quant8_asym_addMul,
      quant8_asym_average_pool_2d, quant8_asym_max_pool_2d, quant8_asym_pool,
      quant8_asym_concatenation, quant8_asym_conv_2d,
      quant8_asym_depthwise_conv_2d, quant8_asym_dequantize, quant8_asym_relu,
      quant8_asym_unary, quant8_asym_fully_connected, quant8_asym_logistic,
      quant8_asym_relu1, quant8_asym_relu6, quant8_asym_reshape,
      quant8_asym_softmax; frame.
Qed.

Lemma steps_addOperations_from l : steps (addOperations_from hexagon_nn U l).
Proof.
  induction l as [|o l IH]; simpl; frame.
  eapply steps_lowering; eassumption.
Qed.

Hint Resolve steps_addOperations_from : frame.

Lemma steps_addOperations : steps (addOperations hexagon_nn U).
Proof. unfold addOperations. frame. Qed.

Lemma steps_addInputs : steps (addInputs hexagon_nn).
Proof.
  unfold addInputs. frame.
  generalize 0 as i. induction a as [|x l IH]; intros i; frame.
Qed.

Lemma steps_addOutputs : steps (addOutputs hexagon_nn).
Proof. unfold addOutputs. frame. Qed.

Hint Resolve steps_addOperations steps_addInputs steps_addOutputs : frame.

Lemma steps_buildGraph : steps (buildGraph hexagon_nn U).
Proof. unfold buildGraph. frame. Qed.

Hint Resolve steps_buildGraph : frame.

Lemma steps_compile : steps (compile hexagon_nn U).
Proof.
  pose proof (steps_verifyOperations R_dimensions) as Hv.
  unfold compile. frame.
Qed.

Lemma steps_bindArguments args pools indexes i :
  steps (bindArguments args pools indexes i).
Proof. revert i. induction args; intros i; simpl; frame. Qed.

Hint Resolve steps_bindArguments : frame.

Lemma steps_execute request : steps (execute hexagon_nn request).
Proof. unfold execute. frame. Qed.

Hint Resolve steps_compile steps_execute : frame.

Lemma steps_asyncExecute request : steps (asyncExecute hexagon_nn request).
Proof. unfold asyncExecute. frame. Qed.

Hint Resolve steps_asyncExecute : frame.

Lemma steps_PreparedModel_execute nn request callback :
  steps (PreparedModel_execute hexagon_nn U nn request callback).
Proof. unfold PreparedModel_execute. frame. Qed.

Hint Resolve steps_Model_delete steps_PreparedModel_execute : frame.

Lemma steps_discard {A} (m : M A) : steps m -> steps (discard m).
Proof. intros Hm. unfold discard. frame. Qed.

Lemma steps_invoke method : steps (invoke hexagon_nn U method).
Proof.
  pose proof (steps_supportedOperations R_dimensions) as Hs.
  pose proof (steps_setShape R_dimensions) as Hset.
  destruct method; simpl; try apply steps_discard; frame.
Qed.

End Builders.

End Frame.

(** ** What the primitive steps do *)

Section ModelFacts.

Variable hexagon_nn : Accelerator.
Variable U : OperationsUtils.

Ltac run := unfold mbind, M_bind, mret, M_ret, gets, modify, controller in *; simpl in *.

Lemma getNextNode_run st :
  getNextNode st =
  (to_uint32 (mNodeCount (self st) + 1),
   {| self := set_mNodeCount (to_uint32 (mNodeCount (self st) + 1)) (self st);
      trace := trace st |}).
Proof. reflexivity. Qed.

Lemma createTensorInternal_run B H W D p size st :
  createTensorInternal hexagon_nn B H W D p size st =
  let node := to_uint32 (mNodeCount (self st) + 1) in
  let c := call_append_const_node (mGraphId (self st)) node B H W D p size in
  (if hexagon_nn (trace st) c =? 0
   then {| src_id := node; output_idx := 0 |} else value_init,
   {| self := set_mNodeCount node (self st); trace := trace st ++ [c] |}).
Proof.
  unfold createTensorInternal, getNextNode. run.
  destruct (hexagon_nn _ _ =? 0); reflexivity.
Qed.

Lemma addOperationInternal_run op pad ins outs st :
  addOperationInternal hexagon_nn op pad ins outs st =
  if verifyOperationInputs ins && verifyOperationOutputs outs then
    let node := to_uint32 (mNodeCount (self st) + 1) in
    let c := call_append_node (mGraphId (self st)) node op pad ins outs in
    (if hexagon_nn (trace st) c =? 0 then node else 0,
     {| self := set_mNodeCount node (self st); trace := trace st ++ [c] |})
  else (0, st).
Proof.
  unfold addOperationInternal, getNextNode.
  destruct (verifyOperationInputs ins); [|reflexivity].
  destruct (verifyOperationOutputs outs); reflexivity.
Qed.

Lemma resetModel_run st :
  resetModel hexagon_nn st =
  let id := mGraphId (self st) in
  let calls1 :=
    if negb (id =? hexagon_nn_nn_id_none) then trace st ++ [call_teardown id]
    else trace st in
  let id' := hexagon_nn calls1 call_init in
  (tt,
   {| self :=
        set_mGraphId id'
          (set_mOperands (map resetOperand (mOperands (self st)))
             (set_mCompiled false (self st)));
      trace := (calls1 ++ [call_init]) ++ [call_set_debug_level id' 99] |}).
Proof.
  unfold resetModel. run.
  destruct (negb (mGraphId (self st) =? hexagon_nn_nn_id_none)); reflexivity.
Qed.

Lemma updateOperandInfo_run i f st :
  updateOperandInfo i f st =
  (tt, {| self := set_mOperands (alter f (Z.to_nat i) (mOperands (self st))) (self st);
          trace := trace st |}).
Proof. reflexivity. Qed.

Lemma controller_run c st :
  controller hexagon_nn c st =
  (hexagon_nn (trace st) c, {| self := self st; trace := trace st ++ [c] |}).
Proof. reflexivity. Qed.

(** *** The compiled flag *)

Lemma staysUncompiled_invoke method : moves staysUncompiled (invoke hexagon_nn U method).
Proof.
  apply steps_invoke; unfold moves, staysUncompiled; intros;
    rewrite ?updateOperandInfo_run, ?createTensorInternal_run,
      ?addOperationInternal_run, ?controller_run, ?resetModel_run;
    repeat match goal with |- context [if ?c then _ else _] => destruct c end;
    simpl; auto.
Qed.

Lemma staysUncompiled_compile : moves staysUncompiled (compile hexagon_nn U).
Proof.
  apply steps_compile; unfold moves, staysUncompiled; intros;
    rewrite ?updateOperandInfo_run, ?createTensorInternal_run,
      ?addOperationInternal_run, ?controller_run, ?resetModel_run;
    repeat match goal with |- context [if ?c then _ else _] => destruct c end;
    simpl; auto.
Qed.

Lemma reachable_uncompiled st :
  reachable hexagon_nn U st -> mCompiled (self st) = false.
Proof.
  induction 1 as [model calls | st method Hst IH | st Hst IH | st Hst IH].
  - reflexivity.
  - apply (staysUncompiled_invoke method st IH).
  - exact IH.
  - reflexivity.
Qed.

End ModelFacts.

(** * The properties of the specification *)

(** ** The compiled flag *)

(** C9: the compiled flag [mCompiled] is false in every state a model can
    reach: construction sets it to false, [resetModel] sets it to false, and
    no method sets it to true, not even a [compile] that succeeds from the
    first step to the last. *)
Theorem compiled_flag_is_never_set (hexagon_nn : Accelerator) (U : OperationsUtils)
    (st : State) (Hreach : reachable hexagon_nn U st) :
  mCompiled (self st) = false /\
  mCompiled (self (snd (resetModel hexagon_nn st))) = false /\
  (forall ok st', compile hexagon_nn U st = (ok, st') -> mCompiled (self st') = false).
Proof.
  pose proof (reachable_uncompiled hexagon_nn U st Hreach) as Hst.
  split; [exact Hst|]. split.
  - rewrite resetModel_run. reflexivity.
  - intros ok st' Hrun.
    pose proof (staysUncompiled_compile hexagon_nn U st Hst) as H.
    rewrite Hrun in H. exact H.
Qed.

(** A model whose compilation succeeds, flag still false. *)
Lemma compiled_flag_is_never_set_witness :
  fst (compile accept_all example_utils (Model_new accept_all nn_relu [])) = true /\
  mCompiled (self (snd (compile accept_all example_utils
                          (Model_new accept_all nn_relu [])))) = false.
Proof.
  split; [vm_compute; reflexivity|].
  pose proof (compiled_flag_is_never_set accept_all example_utils
                (Model_new accept_all nn_relu [])
                (reachable_new accept_all example_utils nn_relu [])) as [_ [_ H]].
  exact (H _ _ (surjective_pairing _)).
Defined.

(** ** Ownership of the accelerator session *)

Lemma Model_delete_run (hexagon_nn : Accelerator) (st : State) :
  Model_delete hexagon_nn st =
  (tt, {| self := self st;
          trace := if mGraphId (self st) =? hexagon_nn_nn_id_none then trace st
                   else trace st ++ [call_teardown (mGraphId (self st))] |}).
Proof.
  unfold Model_delete, gets, controller, mbind, M_bind, mret, M_ret. simpl.
  destruct (mGraphId (self st) =? hexagon_nn_nn_id_none); simpl; [|reflexivity].
  destruct st; reflexivity.
Qed.

Lemma teardowns_snoc (id : Z) (calls : list Call) (c : Call) :
  (teardowns id (calls ++ [c]) <= teardowns id calls + 1)%nat.
Proof.
  unfold teardowns. rewrite filter_app, length_app.
  apply Nat.add_le_mono_l.
  rewrite filter_cons, filter_nil. destruct (decide _); simpl; lia.
Qed.

(** C10: moving a model hands the session over: the moved-from object has
    the sentinel graph id and a false compiled flag, the destructor tears a
    session down only when the graph id is not the sentinel, and so
    destroying both objects tears the session down at most once. *)
Theorem move_transfers_the_session (hexagon_nn : Accelerator) (other : Model)
    (calls : list Call) :
  let this := fst (Model_move other) in
  let moved_from := snd (Model_move other) in
  let after_moved_from :=
    snd (Model_delete hexagon_nn {| self := moved_from; trace := calls |}) in
  let after_this :=
    snd (Model_delete hexagon_nn {| self := this; trace := trace after_moved_from |}) in
  mGraphId this = mGraphId other /\
  mGraphId moved_from = hexagon_nn_nn_id_none /\
  mCompiled moved_from = false /\
  (forall st,
     trace (snd (Model_delete hexagon_nn st)) =
     if mGraphId (self st) =? hexagon_nn_nn_id_none then trace st
     else trace st ++ [call_teardown (mGraphId (self st))]) /\
  trace after_moved_from = calls /\
  trace after_this =
    (if mGraphId other =? hexagon_nn_nn_id_none then calls
     else calls ++ [call_teardown (mGraphId other)]) /\
  (teardowns (mGraphId other) (trace after_this)
   <= teardowns (mGraphId other) calls + 1)%nat.
Proof.
  cbv zeta. rewrite !Model_delete_run. simpl.
  repeat split.
  - intros st. rewrite Model_delete_run. reflexivity.
  - destruct (mGraphId other =? hexagon_nn_nn_id_none); [lia|].
    apply teardowns_snoc.
Qed.

(** ** Fused activations *)

Lemma createValues_float_run (hexagon_nn : Accelerator) (values : list float32) (st : State) :
  createValues_float hexagon_nn values st =
  createTensorInternal hexagon_nn 1 1 1 (size_of values) (blob_float values)
    (size_of values * 4) st.
Proof. reflexivity. Qed.

Lemma createValues_float_single (hexagon_nn : Accelerator) (v : float32) (st : State) :
  createValues_float hexagon_nn [v] st =
  (if hexagon_nn (trace st) (float_constant st v) =? 0
   then {| src_id := to_uint32 (mNodeCount (self st) + 1); output_idx := 0 |}
   else value_init,
   {| self := set_mNodeCount (to_uint32 (mNodeCount (self st) + 1)) (self st);
      trace := trace st ++ [float_constant st v] |}).
Proof. rewrite createValues_float_run, createTensorInternal_run. reflexivity. Qed.

Lemma createValues_float_trace (hexagon_nn : Accelerator) (v : float32) (st : State) :
  trace (snd (createValues_float hexagon_nn [v] st)) = trace st ++ [float_constant st v].
Proof. rewrite createValues_float_run, createTensorInternal_run. reflexivity. Qed.

(** C4, on the code: the selector tables send RELU1 to the bounded relu and
    RELU6 to the clamp, in the float and in the quantized variant, and
    [setupActivationArgs] gives the bounded relu the constant 6.0 and the
    clamp the constants -1.0 and 1.0.  So RELU1 is lowered to a relu bounded
    by 6 and RELU6 to a clamp to [-1,1], the reverse of what the selectors
    mean (and of what the stand-alone RELU1 and RELU6 lowerings emit). *)
Theorem fused_relu1_and_relu6_are_exchanged (hexagon_nn : Accelerator) (st : State) :
  getFloatActivationFunction ACT_NONE = OP_Nop /\
  getFloatActivationFunction ACT_RELU = OP_Relu_f /\
  getFloatActivationFunction ACT_RELU1 = OP_ReluX_f /\
  getFloatActivationFunction ACT_RELU6 = OP_Clamp_f /\
  getQuantizedActivationFunction ACT_NONE = OP_Nop /\
  getQuantizedActivationFunction ACT_RELU = OP_QuantizedRelu_8 /\
  getQuantizedActivationFunction ACT_RELU1 = OP_QuantizedReluX_8 /\
  getQuantizedActivationFunction ACT_RELU6 = OP_QuantizedClamp_8 /\
  setupActivationArgs hexagon_nn OP_Nop st = ([], st) /\
  setupActivationArgs hexagon_nn OP_Relu_f st = ([], st) /\
  setupActivationArgs hexagon_nn OP_QuantizedRelu_8 st = ([], st) /\
  trace (snd (setupActivationArgs hexagon_nn OP_ReluX_f st)) =
    trace st ++ [float_constant st f32_6] /\
  trace (snd (setupActivationArgs hexagon_nn OP_QuantizedReluX_8 st)) =
    trace st ++ [float_constant st f32_6] /\
  trace (snd (setupActivationArgs hexagon_nn OP_Clamp_f st)) =
    trace st ++
      [float_constant st f32_minus_1;
       float_constant (snd (createValues_float hexagon_nn [f32_minus_1] st)) f32_1] /\
  trace (snd (setupActivationArgs hexagon_nn OP_QuantizedClamp_8 st)) =
    trace st ++
      [float_constant st f32_minus_1;
       float_constant (snd (createValues_float hexagon_nn [f32_minus_1] st)) f32_1].
Proof.
  assert (Hx : forall op, op = OP_ReluX_f \/ op = OP_QuantizedReluX_8 ->
            trace (snd (setupActivationArgs hexagon_nn op st)) =
            trace st ++ [float_constant st f32_6]).
  { intros op [-> | ->]; simpl; rewrite run_bind; simpl;
      apply createValues_float_trace. }
  assert (Hc : forall op, op = OP_Clamp_f \/ op = OP_QuantizedClamp_8 ->
            trace (snd (setupActivationArgs hexagon_nn op st)) =
            trace st ++
              [float_constant st f32_minus_1;
               float_constant (snd (createValues_float hexagon_nn [f32_minus_1] st))
                 f32_1]).
  { intros op [-> | ->]; simpl; rewrite run_bind, run_bind; simpl;
      rewrite createValues_float_trace, createValues_float_trace, <- app_assoc;
      reflexivity. }
  repeat match goal with |- _ /\ _ => split end; try reflexivity; auto.
Qed.

(** The same at a fresh model: a fused RELU6 on floats becomes the clamp with
    -1.0 and 1.0, a fused RELU1 the bounded relu with 6.0. *)
Example fused_relu6_is_lowered_to_clamp :
  let st := Model_new accept_all nn_relu [] in
  getFloatActivationFunction (FusedActivationFunc_of_int32 3) = OP_Clamp_f /\
  skipn 2 (trace (snd (setupActivationArgs accept_all
                         (getFloatActivationFunction ACT_RELU6) st))) =
    [call_append_const_node 1 1 1 1 1 1 (blob_float [f32_minus_1]) 4;
     call_append_const_node 1 2 1 1 1 1 (blob_float [f32_1]) 4] /\
  skipn 2 (trace (snd (setupActivationArgs accept_all
                         (getFloatActivationFunction ACT_RELU1) st))) =
    [call_append_const_node 1 1 1 1 1 1 (blob_float [f32_6]) 4].
Proof. vm_compute. repeat split. Qed.

(** ** Quantization ranges *)

Lemma to_int32_id (z : Z) : - 2 ^ 31 <= z < 2 ^ 31 -> to_int32 z = z.
Proof. intros H. unfold to_int32. rewrite Z.mod_small; lia. Qed.

Lemma to_uint32_id (z : Z) : 0 <= z < 2 ^ 32 -> to_uint32 z = z.
Proof. intros H. unfold to_uint32. apply Z.mod_small. lia. Qed.

Lemma operand_at_alter (m m' : Model) (i : Z) (f : OperandInfo -> OperandInfo) :
  mOperands m' = alter f (Z.to_nat i) (mOperands m) ->
  (Z.to_nat i < List.length (mOperands m))%nat ->
  operand_at m' i = f (operand_at m i).
Proof.
  intros Hm Hi. unfold operand_at. rewrite Hm, list_lookup_alter_eq.
  destruct (lookup_lt_is_Some_2 _ _ Hi) as [o Ho]. rewrite Ho. reflexivity.
Qed.

Section Quantization.

Variable hexagon_nn : Accelerator.

Lemma getQuantizationMin_first (operand : Z) (st : State) :
  let o := operand_at (self st) operand in
  0 <= zeroPoint o <= 255 ->
  hexagon_nn_input_eqb (hexagon_input_min o) value_init = true ->
  trace (snd (getQuantizationMin hexagon_nn operand st)) =
  trace st ++ [float_constant st (dequantized o 0)].
Proof.
  intros o Hz Hunset. unfold getQuantizationMin, getOperand, gets.
  rewrite run_bind. simpl. fold o. rewrite Hunset.
  rewrite run_bind, run_bind. simpl.
  rewrite createValues_float_trace. unfold dequantized.
  rewrite to_int32_id by lia. reflexivity.
Qed.

Lemma getQuantizationMax_first (operand : Z) (st : State) :
  let o := operand_at (self st) operand in
  0 <= zeroPoint o <= 255 ->
  hexagon_nn_input_eqb (hexagon_input_max o) value_init = true ->
  trace (snd (getQuantizationMax hexagon_nn operand st)) =
  trace st ++ [float_constant st (dequantized o 255)].
Proof.
  intros o Hz Hunset. unfold getQuantizationMax, getOperand, gets.
  rewrite run_bind. simpl. fold o. rewrite Hunset.
  rewrite run_bind, run_bind. simpl.
  rewrite createValues_float_trace. unfold dequantized.
  rewrite to_int32_id by lia. reflexivity.
Qed.

(** Once the handle is set, the range is not computed again. *)
Lemma getQuantizationMin_cached (operand : Z) (st : State) :
  let o := operand_at (self st) operand in
  hexagon_nn_input_eqb (hexagon_input_min o) value_init = false ->
  getQuantizationMin hexagon_nn operand st = (hexagon_input_min o, st).
Proof.
  intros o Hset. unfold getQuantizationMin, getOperand, gets.
  rewrite run_bind. simpl. fold o. rewrite Hset. reflexivity.
Qed.

Lemma getQuantizationMax_cached (operand : Z) (st : State) :
  let o := operand_at (self st) operand in
  hexagon_nn_input_eqb (hexagon_input_max o) value_init = false ->
  getQuantizationMax hexagon_nn operand st = (hexagon_input_max o, st).
Proof.
  intros o Hset. unfold getQuantizationMax, getOperand, gets.
  rewrite run_bind. simpl. fold o. rewrite Hset. reflexivity.
Qed.

(** A first call that the accelerator accepts sets the handle, so that the
    second call returns it without creating a node. *)
Lemma getQuantizationMin_twice (operand : Z) (st : State) :
  let o := operand_at (self st) operand in
  (Z.to_nat operand < List.length (mOperands (self st)))%nat ->
  0 <= mNodeCount (self st) < UINT32_MAX ->
  hexagon_nn_input_eqb (hexagon_input_min o) value_init = true ->
  hexagon_nn (trace st)
    (float_constant st (f32_mul (f32_of_Z (to_int32 (0 - zeroPoint o))) (scale o))) = 0 ->
  let first := getQuantizationMin hexagon_nn operand st in
  getQuantizationMin hexagon_nn operand (snd first) = (fst first, snd first).
Proof.
  intros o Hi Hn Hunset Hok first.
  set (h := {| src_id := mNodeCount (self st) + 1; output_idx := 0 |}).
  set (st1 :=
    {| self := set_mOperands
                 (alter (set_hexagon_input_min h) (Z.to_nat operand) (mOperands (self st)))
                 (set_mNodeCount (mNodeCount (self st) + 1) (self st));
       trace := trace st ++
                [float_constant st
                   (f32_mul (f32_of_Z (to_int32 (0 - zeroPoint o))) (scale o))] |}).
  assert (Hfirst : first = (h, st1)).
  { unfold first, getQuantizationMin, getOperand, gets.
    rewrite run_bind. cbn [fst snd]. fold o. rewrite Hunset.
    rewrite run_bind. rewrite createValues_float_single, Hok. cbn [fst snd].
    rewrite to_uint32_id by (unfold UINT32_MAX in Hn; lia). reflexivity. }
  rewrite Hfirst. cbn [fst snd].
  assert (Hread : operand_at (self st1) operand = set_hexagon_input_min h o).
  { apply operand_at_alter; [reflexivity | exact Hi]. }
  rewrite getQuantizationMin_cached; rewrite Hread; cbn [hexagon_input_min set_hexagon_input_min].
  - reflexivity.
  - unfold hexagon_nn_input_eqb, h. cbn [src_id output_idx value_init ValueInit_hexagon_nn_input].
    destruct (Z.eqb_spec (mNodeCount (self st) + 1) 0); [lia|reflexivity].
Qed.

Lemma createQuantizationValue_trace (operand quant_value : Z) (st : State) :
  let o := operand_at (self st) operand in
  trace (snd (createQuantizationValue hexagon_nn operand quant_value st)) =
  trace st ++
    [float_constant st
       (f32_mul (f32_of_Z (to_uint32 (quant_value - zeroPoint o))) (scale o))].
Proof.
  intros o. unfold createQuantizationValue, getOperand, gets.
  rewrite run_bind. simpl. apply createValues_float_trace.
Qed.

(** From the zero point upwards the value is the dequantized one. *)
Lemma createQuantizationValue_above_zero_point (operand quant_value : Z) (st : State) :
  let o := operand_at (self st) operand in
  zeroPoint o <= quant_value < 2 ^ 32 + zeroPoint o ->
  trace (snd (createQuantizationValue hexagon_nn operand quant_value st)) =
  trace st ++ [float_constant st (dequantized o quant_value)].
Proof.
  intros o H. rewrite createQuantizationValue_trace. fold o.
  rewrite to_uint32_id by lia. reflexivity.
Qed.

End Quantization.

(** C5, on the code: for the quantized operand with zero point 128 and scale
    0.5, [getQuantizationMin] and [getQuantizationMax] create the constants
    (0-128)*0.5 = -64 and (255-128)*0.5 = 63.5, but
    [createQuantizationValue] at the quantized value 0 creates
    (2^32-128)*0.5 = 2^31 and not (0-128)*0.5: its subtraction is done in
    [uint32_t] and wraps around below the zero point. *)
Theorem createQuantizationValue_wraps_below_zero_point :
  let st := Model_new accept_all nn_tanh_quant8 [] in
  let o := operand_at (self st) 0 in
  zeroPoint o = 128 /\ scale o = f32_half /\
  trace (snd (getQuantizationMin accept_all 0 st)) =
    trace st ++ [float_constant st (dequantized o 0)] /\
  trace (snd (getQuantizationMax accept_all 0 st)) =
    trace st ++ [float_constant st (dequantized o 255)] /\
  dequantized o 0 = S754_finite true 8388608 (-17) /\
  dequantized o 255 = S754_finite false 16646144 (-18) /\
  trace (snd (createQuantizationValue accept_all 0 0 st)) =
    trace st ++ [float_constant st (S754_finite false 8388608 8)] /\
  S754_finite false 8388608 8 <> dequantized o 0.
Proof.
  vm_compute. repeat split; discriminate.
Qed.

(** ** Execution of a model that is not compiled *)

Lemma quiet_bindArguments args pools indexes i : moves quiet (bindArguments args pools indexes i).
Proof.
  apply steps_bindArguments; unfold moves, quiet.
  - intros st. split; reflexivity.
  - intros a b c [H1 H2] [H3 H4]. split; congruence.
  - intros j arg ps st. split; reflexivity.
Qed.

(** [execute] asks the accelerator to run the graph and to hand out its log,
    nothing else: it does not look at the compiled flag and never compiles. *)
Lemma execute_never_compiles (hexagon_nn : Accelerator) (request : Request) (st : State) :
  exists ins outs,
    let run := call_execute_new (mGraphId (self st)) ins outs in
    trace (snd (execute hexagon_nn request st)) =
      trace st ++ [run; call_getlog (mGraphId (self st))] /\
    fst (execute hexagon_nn request st) = (hexagon_nn (trace st) run =? 0).
Proof.
  unfold execute, getDebugLog, mbind, M_bind, gets, controller. cbn [fst snd].
  pose proof (quiet_bindArguments (request_inputs request)
                (mapPools (request_pools request)) (mInputs (self st)) 0%nat st) as Q1.
  destruct (bindArguments (request_inputs request) _ _ _ st) as [ins st1].
  pose proof (quiet_bindArguments (request_outputs request)
                (mapPools (request_pools request)) (mOutputs (self st1)) 0%nat st1) as Q2.
  destruct (bindArguments (request_outputs request) _ _ _ st1) as [outs st2].
  destruct Q1 as [Ht1 Hg1], Q2 as [Ht2 Hg2]. cbn [fst snd] in *.
  exists ins, outs. cbn [self trace].
  rewrite Hg2, Hg1, Ht2, Ht1.
  destruct (0 =? _); cbn; rewrite <- app_assoc; split; reflexivity.
Qed.

(** C2, on the code: [nn_relu] is prepared on an accelerator that fails to
    prepare the graph, so [compile] fails; two executions follow.  Neither
    compiles: each goes straight to [execute_new] and the log, and each
    reports [NONE], the success status, since the accelerator answers 0. *)
Theorem execute_does_not_compile_lazily :
  let prepared := Device_prepareModel reject_prepare example_utils nn_relu [] in
  let first := asyncExecute reject_prepare request_relu prepared in
  let second := asyncExecute reject_prepare request_relu (snd first) in
  fst (compile reject_prepare example_utils (Model_new reject_prepare nn_relu [])) = false /\
  mCompiled (self prepared) = false /\
  fst first = NONE /\
  fst second = NONE /\
  map entryPoint (skipn (List.length (trace prepared)) (trace (snd second))) =
    [ep_execute_new; ep_getlog; ep_execute_new; ep_getlog].
Proof. vm_compute. repeat split. Qed.

(** ** Node ids *)








Section Allocation.

Variable hexagon_nn : Accelerator.
Variable U : OperationsUtils.





End Allocation.



Section Rejection.

Variable hexagon_nn : Accelerator.
Variable U : OperationsUtils.

(** The accelerator rejects every [append_node]. *)
Hypothesis rejects : forall calls c, isAppendNode c = true -> hexagon_nn calls c <> 0.

Lemma rejected_addOperationInternal op pad ins outs st :
  fst (addOperationInternal hexagon_nn op pad ins outs st) = 0.
Proof.
  rewrite addOperationInternal_run.
  destruct (verifyOperationInputs ins && verifyOperationOutputs outs); [|reflexivity].
  cbv zeta. cbn [fst].
  destruct (Z.eqb_spec (hexagon_nn (trace st)
    (call_append_node (mGraphId (self st)) (to_uint32 (mNodeCount (self st) + 1))
       op pad ins outs)) 0) as [E|]; [|reflexivity].
  exfalso. eapply rejects; [|exact E]. reflexivity.
Qed.

Lemma rejected_addInputs st : fst (addInputs hexagon_nn st) = false.
Proof.
  unfold addInputs. rewrite !run_bind. unfold gets at 1 2. cbn [fst snd].
  rewrite rejected_addOperationInternal. reflexivity.
Qed.

Lemma rejected_buildGraph st : fst (buildGraph hexagon_nn U st) = false.
Proof.
  unfold buildGraph. rewrite run_bind, rejected_addInputs. reflexivity.
Qed.

Lemma rejected_compile st : fst (compile hexagon_nn U st) = false.
Proof.
  unfold compile. rewrite run_bind.
  destruct (fst (verifyOperations U st)); [|reflexivity]. cbn [negb].
  rewrite run_bind.
  destruct (fst (verifyOperands _)); [|reflexivity]. cbn [negb].
  rewrite run_bind, rejected_buildGraph. cbn [negb].
  rewrite run_bind. reflexivity.
Qed.

End Rejection.


(** *** A rejected node fails the construction *)

Lemma accepted_app (h : Accelerator) (before x y : list Call) :
  accepted h before (x ++ y) <-> accepted h before x /\ accepted h (before ++ x) y.
Proof.
  revert before. induction x as [|c x IH]; intros before; simpl.
  - rewrite app_nil_r. tauto.
  - rewrite IH, <- app_assoc. simpl. tauto.
Qed.

Section Propagation.

Variable hexagon_nn : Accelerator.
Variable U : OperationsUtils.

Lemma clean_refl st : clean hexagon_nn st st.
Proof. exists []. rewrite app_nil_r. split; [reflexivity | exact I]. Qed.

Lemma clean_trans a b c :
  clean hexagon_nn a b -> clean hexagon_nn b c -> clean hexagon_nn a c.
Proof.
  intros [k1 [Ht1 Ha1]] [k2 [Ht2 Ha2]]. exists (k1 ++ k2). split.
  - rewrite Ht2, Ht1, app_assoc. reflexivity.
  - apply accepted_app. split; [exact Ha1|]. rewrite <- Ht1. exact Ha2.
Qed.

Lemma clean_silent st st' : trace st' = trace st -> clean hexagon_nn st st'.
Proof. intros H. exists []. rewrite app_nil_r. split; [exact H | exact I]. Qed.

Lemma clean_call st st' c :
  trace st' = trace st ++ [c] -> isAppendNode c = false -> clean hexagon_nn st st'.
Proof.
  intros Ht Hc. exists [c]. split; [exact Ht|]. simpl. split; [|exact I].
  rewrite Hc. discriminate.
Qed.

Lemma clean_update i f : moves (clean hexagon_nn) (updateOperandInfo i f).
Proof. intros st. apply clean_silent. reflexivity. Qed.

Lemma clean_createTensorInternal B H W D p size :
  moves (clean hexagon_nn) (createTensorInternal hexagon_nn B H W D p size).
Proof.
  intros st. rewrite createTensorInternal_run. eapply clean_call; reflexivity.
Qed.

Lemma clean_resetModel : moves (clean hexagon_nn) (resetModel hexagon_nn).
Proof.
  intros st. rewrite resetModel_run. cbv zeta.
  destruct (negb (mGraphId (self st) =? hexagon_nn_nn_id_none)).
  - eexists [_; _; _]. split; [cbn; rewrite <- !app_assoc; reflexivity|].
    cbn. repeat split; discriminate.
  - eexists [_; _]. split; [cbn; rewrite <- !app_assoc; reflexivity|].
    cbn. repeat split; discriminate.
Qed.

Lemma clean_passive c :
  isAppendNode c = false -> moves (clean hexagon_nn) (controller hexagon_nn c).
Proof. intros Hc st. eapply clean_call; [reflexivity | exact Hc]. Qed.

(** What the frame lemmas ask of [clean]. *)
Ltac clean_frame :=
  try apply clean_refl; try apply clean_trans;
  try apply clean_createTensorInternal; try apply clean_resetModel;
  intros; try apply clean_update; try (apply clean_passive; reflexivity).

(** The steps that create no operation node. *)
Ltac quiet_step :=
  first
    [ apply steps_gets | apply steps_getOperand | apply steps_getShape
    | apply steps_getScalar_int32 | apply steps_getFloatActivation
    | apply steps_getQuantizedActivation | apply steps_getHexagonOutputs
    | apply steps_getTensor | apply steps_getQuantizationMin
    | apply steps_getQuantizationMax | apply steps_createQuantizationValue
    | apply steps_createConvFilterTensor | apply steps_createDepthwiseFilterTensor
    | apply steps_createFullyConnectedWeightTensor | apply steps_createShape
    | apply steps_createTensor_float | apply steps_createValues_float
    | apply steps_createValues_int32 | apply steps_createScalar_float
    | apply steps_createScalar_int32 | apply steps_setupActivationArgs
    | apply steps_registerHexagonInputs | apply steps_quantizedTensor
    | apply steps_getLog | apply steps_getDebugLog
    | apply steps_verifyOperations | apply steps_verifyOperands
    | apply clean_passive; reflexivity ];
  clean_frame.

Ltac quiet := first [ quiet_step | apply steps_mapM; clean_frame; quiet_step ].

Lemma yieldsNodeCleanly_addOperationInternal op pad ins outs :
  yieldsNodeCleanly hexagon_nn (addOperationInternal hexagon_nn op pad ins outs).
Proof.
  intros st. rewrite addOperationInternal_run.
  destruct (verifyOperationInputs ins && verifyOperationOutputs outs);
    [|intros _; apply clean_refl].
  cbv zeta. cbn [fst snd].
  destruct (Z.eqb_spec (hexagon_nn (trace st)
    (call_append_node (mGraphId (self st)) (to_uint32 (mNodeCount (self st) + 1))
       op pad ins outs)) 0) as [E|E]; [|intros H; contradiction].
  intros _. eexists [_]. split; [reflexivity|]. simpl. split; [intros _; exact E | exact I].
Qed.

Lemma succeedsCleanly_quiet {A} (m : M A) (k : A -> M bool) :
  moves (clean hexagon_nn) m -> (forall a, succeedsCleanly hexagon_nn (k a)) ->
  succeedsCleanly hexagon_nn (m ≫= k).
Proof.
  intros Hm Hk st. rewrite run_bind. intros Hrun.
  eapply clean_trans; [apply Hm | apply Hk; exact Hrun].
Qed.

Lemma succeedsCleanly_node (m : M Z) (k : Z -> M bool) :
  yieldsNodeCleanly hexagon_nn m -> (forall n, succeedsCleanly hexagon_nn (k n)) ->
  succeedsCleanly hexagon_nn
    (m ≫= fun node => if negb (0 =? node) then k node else mret value_init).
Proof.
  intros Hm Hk st. rewrite run_bind.
  destruct (Z.eqb_spec 0 (fst (m st))) as [E|E]; cbn [negb]; [cbn; discriminate|].
  intros Hrun. eapply clean_trans; [apply Hm; congruence | apply Hk; exact Hrun].
Qed.


Lemma succeedsCleanly_moves (m : M bool) :
  moves (clean hexagon_nn) m -> succeedsCleanly hexagon_nn m.
Proof. intros Hm st _. apply Hm. Qed.

Lemma succeedsCleanly_false : succeedsCleanly hexagon_nn (mret value_init).
Proof. intros st. cbn. discriminate. Qed.

Lemma succeedsCleanly_registerHexagonInputs l node :
  succeedsCleanly hexagon_nn (registerHexagonInputs l node).
Proof. apply succeedsCleanly_moves. quiet. Qed.

Create HintDb clean.

Hint Resolve succeedsCleanly_false succeedsCleanly_registerHexagonInputs
  yieldsNodeCleanly_addOperationInternal : clean.

(** Follow a builder through its binds. *)
Ltac builder :=
  repeat match goal with
  | |- succeedsCleanly _ (mret value_init) => apply succeedsCleanly_false
  | |- succeedsCleanly _ (mret _) => apply succeedsCleanly_moves, steps_mret, clean_refl
  | |- succeedsCleanly _ (if ?c then _ else _) => destruct c
  | |- succeedsCleanly _ (_ ≫= fun node => if negb (0 =? node) then _ else mret value_init) =>
      apply succeedsCleanly_node; [ | intros ]
  | |- succeedsCleanly _ (_ ≫= _) => apply succeedsCleanly_quiet; [ quiet | intros ]
  | |- yieldsNodeCleanly _ (if ?c then _ else _) => destruct c
  | |- yieldsNodeCleanly _ (mret _) => intros ? _; apply clean_refl
  | |- _ => solve [ auto with clean ]
  end.

Lemma succeedsCleanly_addBasicOperation op pad ins outs :
  succeedsCleanly hexagon_nn (addBasicOperation hexagon_nn op pad ins outs).
Proof. unfold addBasicOperation. builder. Qed.

Lemma succeedsCleanly_addFloatOperationWithActivation op pad act ins outs :
  succeedsCleanly hexagon_nn (addFloatOperationWithActivation hexagon_nn op pad act ins outs).
Proof. unfold addFloatOperationWithActivation. builder. Qed.

Lemma succeedsCleanly_addQuant8OperationWithActivation op pad act ins outs :
  succeedsCleanly hexagon_nn (addQuant8OperationWithActivation hexagon_nn op pad act ins outs).
Proof. unfold addQuant8OperationWithActivation. builder. Qed.

Lemma succeedsCleanly_addFusedFloatOperation op pad bias act ins outs :
  succeedsCleanly hexagon_nn (addFusedFloatOperation hexagon_nn op pad bias act ins outs).
Proof. unfold addFusedFloatOperation. builder. Qed.

Lemma succeedsCleanly_addFusedQuant8Operation op pad bias act ins outs :
  succeedsCleanly hexagon_nn (addFusedQuant8Operation hexagon_nn op pad bias act ins outs).
Proof. unfold addFusedQuant8Operation. builder. Qed.

Hint Resolve succeedsCleanly_addBasicOperation
  succeedsCleanly_addFloatOperationWithActivation
  succeedsCleanly_addQuant8OperationWithActivation
  succeedsCleanly_addFusedFloatOperation succeedsCleanly_addFusedQuant8Operation : clean.








End Propagation.



(** ** The supported-operations query *)

Lemma map_alter_absorbed {A B} (f : A -> B) (g : A -> A) (i : nat) (l : list A) :
  (forall x, f (g x) = f x) -> map f (alter g i l) = map f l.
Proof.
  intros H. revert i. induction l as [|x l IH]; intros [|i]; simpl;
    rewrite ?H; try reflexivity.
  f_equal. apply IH.
Qed.

Lemma sameSession_refl st : sameSession st st.
Proof. unfold sameSession. repeat split; reflexivity. Qed.

Lemma sameSession_trans a b c : sameSession a b -> sameSession b c -> sameSession a c.
Proof. unfold sameSession. intuition congruence. Qed.







(** ** What a supported operation has been checked for *)

(** Peel the soft assertions a function opens with off a run that returned
    [true]. *)
Ltac asserted H :=
  repeat match type of H with
  | fst ((if ?c then _ else _) _) = true =>
      let E := fresh "Hassert" in
      destruct c eqn:E; [ | cbn in H; discriminate H ]
  end.

Ltac arity :=
  eexists; split; [reflexivity|];
  repeat match goal with
  | H : _ = true |- _ =>
      first [ apply Z.eqb_eq in H | apply Z.leb_le in H | apply orb_true_iff in H ]
  end;
  repeat match goal with H : _ \/ _ |- _ => destruct H end;
  repeat match goal with H : (_ =? _) = true |- _ => apply Z.eqb_eq in H end;
  cbn beta;
  repeat match goal with
  | H : ?a = ?b |- context [?b =? ?a] => rewrite <- H
  | H : ?a = ?b |- context [?a =? ?b] => rewrite H
  end;
  rewrite ?Z.eqb_refl, ?orb_true_r; try reflexivity;
  try (apply andb_true_intro; split; [apply Z.leb_le; assumption | reflexivity]).

Lemma check_arity_sound (U : OperationsUtils) (t : OperationType)
    (f : list Z -> list Z -> M bool) (ins outs : list Z) (st : State) :
  getOperationCheckTable U t = Some f ->
  fst (f ins outs st) = true ->
  exists rule, checkArity t = Some rule /\ rule (size_of ins) (size_of outs) = true.
Proof.
  intros Hf Hrun.
  destruct t; simpl in Hf; inversion Hf; subst f; clear Hf;
    unfold check_add, check_mul, check_addMul, check_average_pool_2d,
      check_l2_pool_2d, check_max_pool_2d, check_pool, check_concatenation,
      check_conv_2d, check_depthwise_conv_2d, check_dequantize,
      check_fully_connected, check_local_response_normalization, check_logistic,
      check_relu, check_relu1, check_relu6, check_softmax, check_tanh,
      check_activation, check_reshape, check_resize_bilinear in Hrun;
    asserted Hrun; arity.
Qed.

Lemma lowering_arity_sound (hexagon_nn : Accelerator) (U : OperationsUtils)
    (t : OperationType) (ty : OperandType)
    (f : list Z -> list Z -> M bool) (ins outs : list Z) (st : State) :
  getOperationPrepareTable hexagon_nn U t ty = Some f ->
  fst (f ins outs st) = true ->
  exists rule, loweringArity t ty = Some rule /\ rule (size_of ins) (size_of outs) = true.
Proof.
  intros Hf Hrun.
  destruct ty, t; simpl in Hf; inversion Hf; subst f; clear Hf;
    unfold float32_add, float32_average_pool_2d, float32_l2_pool_2d,
      float32_max_pool_2d, float32_pool, float32_concatenation, float32_conv_2d,
      float32_depthwise_conv_2d, float32_fully_connected,
      float32_local_response_normalization, float32_logistic, float32_relu,
      float32_tanh, float32_unary, float32_mul, float32_relu1, float32_relu6,
      float32_reshape, float32_resize_bilinear, float32_softmax,
      quant8_asym_add, quant8_asym_mul, quant8_asym_addMul,
      quant8_asym_average_pool_2d, quant8_asym_max_pool_2d, quant8_asym_pool,
      quant8_asym_concatenation, quant8_asym_conv_2d,
      quant8_asym_depthwise_conv_2d, quant8_asym_dequantize, quant8_asym_relu,
      quant8_asym_unary, quant8_asym_fully_connected, quant8_asym_logistic,
      quant8_asym_relu1, quant8_asym_relu6, quant8_asym_reshape,
      quant8_asym_softmax in Hrun;
    asserted Hrun; arity.
Qed.

Lemma supportedOperation_sound (U : OperationsUtils) (operation : Operation) (st : State) :
  fst (supportedOperation U operation st) = true ->
  is_Some (getOperationCheckTable U (operation_type operation)) /\
  exists rule,
    checkArity (operation_type operation) = Some rule /\
    rule (size_of (inputs operation)) (size_of (outputs operation)) = true.
Proof.
  unfold supportedOperation.
  destruct (getOperationCheckTable U (operation_type operation)) as [f|] eqn:Hf.
  - intros Hrun. split; [eexists; reflexivity|].
    eapply check_arity_sound; eassumption.
  - cbn. discriminate.
Qed.

Lemma supportedOperations_from_sound (U : OperationsUtils) (l : list Operation)
    (st : State) (i : nat) (operation : Operation) :
  l !! i = Some operation ->
  fst (supportedOperations_from U l st) !! i = Some true ->
  is_Some (getOperationCheckTable U (operation_type operation)) /\
  exists rule,
    checkArity (operation_type operation) = Some rule /\
    rule (size_of (inputs operation)) (size_of (outputs operation)) = true.
Proof.
  revert st i. induction l as [|o l IH]; intros st i Hop Hres; [discriminate Hop|].
  simpl in Hres. rewrite run_bind, run_bind in Hres. cbn [fst mret M_ret] in Hres.
  destruct i as [|i].
  - cbn in Hop, Hres. injection Hop as ->. injection Hres as Hres.
    eapply supportedOperation_sound. exact Hres.
  - cbn in Hop, Hres. eapply IH; eassumption.
Qed.

(** C1, as amended: [supportedOperations] returns true for an operation of
    the list only if the check table has a function for the operation's
    kind (the table is keyed by the kind alone, the numeric representation
    of the inputs plays no part) and the numbers of inputs and outputs
    satisfy the assertions that check function opens with. *)
Theorem supported_operations_passed_their_check (U : OperationsUtils) (st : State)
    (i : nat) (operation : Operation)
    (Hoperation : mOperations (self st) !! i = Some operation)
    (Hsupported : fst (supportedOperations U st) !! i = Some true) :
  is_Some (getOperationCheckTable U (operation_type operation)) /\
  exists rule,
    checkArity (operation_type operation) = Some rule /\
    rule (size_of (inputs operation)) (size_of (outputs operation)) = true.
Proof.
  unfold supportedOperations in Hsupported. rewrite run_bind in Hsupported.
  eapply supportedOperations_from_sound; eassumption.
Qed.

(** The RELU of [nn_relu] is supported: it has a check function and one
    input and one output. *)
Lemma supported_operations_passed_their_check_witness :
  let st := Model_new accept_all nn_relu [] in
  let operation := {| operation_type := RELU; inputs := [0]; outputs := [1] |} in
  mOperations (self st) !! 0%nat = Some operation /\
  fst (supportedOperations example_utils st) !! 0%nat = Some true /\
  is_Some (getOperationCheckTable example_utils RELU) /\
  exists rule, checkArity RELU = Some rule /\ rule 1 1 = true.
Proof.
  cbv zeta.
  assert (H1 : mOperations (self (Model_new accept_all nn_relu [])) !! 0%nat =
               Some {| operation_type := RELU; inputs := [0]; outputs := [1] |})
    by reflexivity.
  assert (H2 : fst (supportedOperations example_utils (Model_new accept_all nn_relu []))
                 !! 0%nat = Some true)
    by (vm_compute; reflexivity).
  split; [exact H1|]. split; [exact H2|].
  exact (supported_operations_passed_their_check example_utils
           (Model_new accept_all nn_relu []) 0%nat _ H1 H2).
Defined.

(** C1, as stated, fails: the TANH of [nn_tanh_quant8] works on 8-bit
    quantized tensors, for which the lowering table has no TANH; the query
    still answers true, and the compilation then fails. *)
Lemma supported_without_a_lowering_function :
  let st := Model_new accept_all nn_tanh_quant8 [] in
  mOperations (self st) = [{| operation_type := TANH; inputs := [0]; outputs := [1] |}] /\
  type (operand_at (self st) 0) = TENSOR_QUANT8_ASYMM /\
  fst (supportedOperations example_utils st) = [true] /\
  hasLoweringFunction accept_all example_utils TANH TENSOR_QUANT8_ASYMM = false /\
  fst (compile accept_all example_utils st) = false.
Proof. cbv zeta. repeat split; vm_compute; reflexivity. Qed.

(** ** Compilation failures *)

Section Compile.

Variable hexagon_nn : Accelerator.
Variable U : OperationsUtils.

Lemma verifyOperands_pure st : snd (verifyOperands st) = st.
Proof. reflexivity. Qed.

(** A failed validation ends [compile] at once. *)
Lemma compile_invalid st :
  fst (verifyOperations U st) = false \/
  fst (verifyOperands (snd (verifyOperations U st))) = false ->
  compile hexagon_nn U st = (false, snd (verifyOperations U st)).
Proof.
  intros H. unfold compile. rewrite run_bind.
  destruct (fst (verifyOperations U st)); [|reflexivity].
  destruct H as [H|H]; [discriminate|].
  cbn [negb]. rewrite run_bind, H. reflexivity.
Qed.

(** A failed construction step ends [compile] through [resetModel]. *)
Lemma compile_not_built st :
  let validated := snd (verifyOperations U st) in
  fst (verifyOperations U st) = true ->
  fst (verifyOperands validated) = true ->
  fst (buildGraph hexagon_nn U validated) = false ->
  compile hexagon_nn U st =
  (false, snd (resetModel hexagon_nn (snd (buildGraph hexagon_nn U validated)))).
Proof.
  intros validated Hv Hk Hb. unfold compile. rewrite run_bind, Hv. cbn [negb].
  rewrite run_bind. fold validated. rewrite Hk. cbn [negb].
  rewrite verifyOperands_pure, run_bind, Hb. cbn [negb].
  rewrite run_bind. reflexivity.
Qed.

Lemma sameSession_verifyOperations st : sameSession st (snd (verifyOperations U st)).
Proof.
  apply steps_verifyOperations.
  - apply sameSession_refl.
  - apply sameSession_trans.
  - intros i d st0. rewrite updateOperandInfo_run. unfold sameSession. cbn.
    repeat split. apply map_alter_absorbed. reflexivity.
Qed.

Lemma resetModel_clears st :
  let st' := snd (resetModel hexagon_nn st) in
  let id := mGraphId (self st) in
  let calls :=
    if id =? hexagon_nn_nn_id_none then trace st else trace st ++ [call_teardown id] in
  mCompiled (self st') = false /\
  Forall isCleared (mOperands (self st')) /\
  mGraphId (self st') = hexagon_nn calls call_init /\
  trace st' = calls ++ [call_init; call_set_debug_level (mGraphId (self st')) 99].
Proof.
  cbv zeta. rewrite resetModel_run. cbv zeta. cbn [snd self trace].
  destruct (mGraphId (self st) =? hexagon_nn_nn_id_none); cbn;
    repeat split; try (rewrite <- app_assoc; reflexivity);
    apply List.Forall_map, Forall_forall; intros o _; split; reflexivity.
Qed.

End Compile.

(** C3, as amended: when one of the construction steps [addInputs],
    [addOperations], [addOutputs] fails, [compile] resets the graph (it
    tears the session down if there is one, initialises a fresh session,
    clears the input handle and the output descriptor of every operand,
    leaves the compiled flag false) and returns false.  When the validation
    fails, [compile] returns false at once: nothing is asked of the
    accelerator and the session stays. *)
Theorem compile_failure_resets_a_partial_graph (hexagon_nn : Accelerator)
    (U : OperationsUtils) (st : State) :
  let validated := snd (verifyOperations U st) in
  let built := buildGraph hexagon_nn U validated in
  let reset := snd (resetModel hexagon_nn (snd built)) in
  let id := mGraphId (self (snd built)) in
  let calls :=
    if id =? hexagon_nn_nn_id_none then trace (snd built)
    else trace (snd built) ++ [call_teardown id] in
  (fst (verifyOperations U st) = false \/ fst (verifyOperands validated) = false ->
   compile hexagon_nn U st = (false, validated) /\
   trace validated = trace st /\ mGraphId (self validated) = mGraphId (self st)) /\
  (fst (verifyOperations U st) = true -> fst (verifyOperands validated) = true ->
   fst built = false ->
   compile hexagon_nn U st = (false, reset) /\
   mCompiled (self reset) = false /\
   Forall isCleared (mOperands (self reset)) /\
   mGraphId (self reset) = hexagon_nn calls call_init /\
   trace reset = calls ++ [call_init; call_set_debug_level (mGraphId (self reset)) 99]).
Proof.
  cbv zeta. split.
  - intros H. split; [apply compile_invalid; exact H|].
    destruct (sameSession_verifyOperations U st) as (Ht & Hg & _). split; assumption.
  - intros Hv Hk Hb. split; [apply compile_not_built; assumption|].
    apply resetModel_clears.
Qed.

(** Both ways of failing: [nn_oem] does not pass validation; [nn_relu] does,
    and its first node is rejected. *)
Lemma compile_failure_resets_a_partial_graph_witness :
  (let st := Model_new accept_all nn_oem [] in
   fst (verifyOperations example_utils st) = false /\
   compile accept_all example_utils st = (false, snd (verifyOperations example_utils st))) /\
  (let st := Model_new reject_nodes nn_relu [] in
   let reset := snd (compile reject_nodes example_utils st) in
   fst (verifyOperations example_utils st) = true /\
   fst (verifyOperands (snd (verifyOperations example_utils st))) = true /\
   fst (buildGraph reject_nodes example_utils (snd (verifyOperations example_utils st))) = false /\
   fst (compile reject_nodes example_utils st) = false /\
   Forall isCleared (mOperands (self reset)) /\
   map entryPoint (issued st reset) =
     [ep_append_node; ep_teardown; ep_init; ep_set_debug_level]).
Proof.
  cbv zeta. split.
  - assert (H : fst (verifyOperations example_utils (Model_new accept_all nn_oem [])) = false)
      by (vm_compute; reflexivity).
    split; [exact H|].
    exact (proj1 (proj1 (compile_failure_resets_a_partial_graph accept_all example_utils
                           (Model_new accept_all nn_oem [])) (or_introl H))).
  - assert (Hv : fst (verifyOperations example_utils (Model_new reject_nodes nn_relu [])) = true)
      by (vm_compute; reflexivity).
    assert (Hk : fst (verifyOperands (snd (verifyOperations example_utils
                        (Model_new reject_nodes nn_relu [])))) = true)
      by (vm_compute; reflexivity).
    assert (Hb : fst (buildGraph reject_nodes example_utils
                        (snd (verifyOperations example_utils
                                (Model_new reject_nodes nn_relu [])))) = false)
      by (vm_compute; reflexivity).
    destruct (proj2 (compile_failure_resets_a_partial_graph reject_nodes example_utils
                       (Model_new reject_nodes nn_relu [])) Hv Hk Hb)
      as (Hc & _ & Hcleared & _ & _).
    split; [exact Hv|]. split; [exact Hk|]. split; [exact Hb|].
    rewrite Hc. split; [reflexivity|]. split; [exact Hcleared|].
    rewrite <- Hc. vm_compute. reflexivity.
Defined.

(** C3, as stated, fails: a model that does not pass validation makes
    [compile] return false without any reset; the session opened at
    construction is neither torn down nor replaced. *)
Lemma compile_failure_without_reset :
  let st := Model_new accept_all nn_oem [] in
  let st' := snd (compile accept_all example_utils st) in
  fst (compile accept_all example_utils st) = false /\
  trace st' = trace st /\
  map entryPoint (trace st') = [ep_init; ep_set_debug_level] /\
  mGraphId (self st') = mGraphId (self st).
Proof. vm_compute. repeat split. Qed.

(** The same happens when the accelerator fails to prepare a graph that was
    built: false is returned, the handles stay set and the session stays. *)
Example compile_is_not_reset_when_prepare_fails :
  let st := Model_new reject_prepare nn_relu [] in
  let st' := snd (compile reject_prepare example_utils st) in
  fst (compile reject_prepare example_utils st) = false /\
  map hexagon_input (mOperands (self st')) =
    [{| src_id := 1; output_idx := 0 |}; {| src_id := 2; output_idx := 0 |}] /\
  map entryPoint (issued st st') =
    [ep_append_node; ep_append_node; ep_append_node; ep_snpprint; ep_getlog;
     ep_prepare; ep_snpprint; ep_getlog].
Proof. vm_compute. repeat split. Qed.

(** ** Single assignment of operand handles *)

Section Handles.

Variable hexagon_nn : Accelerator.
Variable U : OperationsUtils.

(** [registerHexagonInputs] refuses an operand whose handle is set, and
    leaves everything as it was when that operand is the first one. *)
Lemma registerHexagonInputs_refuses (operand : Z) (rest : list Z) (node : Z) (st : State) :
  hexagon_nn_input_eqb (hexagon_input (operand_at (self st) operand)) value_init = false ->
  registerHexagonInputs (operand :: rest) node st = (false, st).
Proof.
  intros Hset. unfold registerHexagonInputs. simpl.
  rewrite run_bind. unfold getOperand, gets. cbn [fst snd]. rewrite Hset. reflexivity.
Qed.

Lemma outputsUnset_alter (f : OperandInfo -> OperandInfo) (i : Z) (st : State) :
  (forall o, hexagon_output (f o) = hexagon_output o) ->
  keepsOutputsUnset st (snd (updateOperandInfo i f st)).
Proof.
  intros Hf Hst. unfold outputsUnset in *. rewrite updateOperandInfo_run. cbn.
  apply Forall_alter; [exact Hst|]. intros o _ Ho. rewrite Hf. exact Ho.
Qed.

Lemma outputsUnset_same_operands (st st' : State) :
  mOperands (self st') = mOperands (self st) -> keepsOutputsUnset st st'.
Proof. intros H Hst. unfold outputsUnset in *. rewrite H. exact Hst. Qed.

Lemma keepsOutputsUnset_invoke method : moves keepsOutputsUnset (invoke hexagon_nn U method).
Proof.
  apply steps_invoke.
  - intros st H. exact H.
  - intros a b c Hab Hbc H. auto.
  - intros i d st. apply outputsUnset_alter. reflexivity.
  - intros i h st. apply outputsUnset_alter. reflexivity.
  - intros i h st. apply outputsUnset_alter. reflexivity.
  - intros i h st. apply outputsUnset_alter. reflexivity.
  - intros i arg pools st. apply outputsUnset_alter. intros o. unfold updateOperand.
    destruct (0 <? size_of (arg_dimensions arg)); reflexivity.
  - intros B H W D p size st. apply outputsUnset_same_operands.
    rewrite createTensorInternal_run. reflexivity.
  - intros op pad ins outs st. apply outputsUnset_same_operands.
    rewrite addOperationInternal_run.
    destruct (verifyOperationInputs ins && verifyOperationOutputs outs); reflexivity.
  - intros id st. apply outputsUnset_same_operands. reflexivity.
  - intros id st. apply outputsUnset_same_operands. reflexivity.
  - intros id st. apply outputsUnset_same_operands. reflexivity.
  - intros id ins outs st. apply outputsUnset_same_operands. reflexivity.
  - intros st _. unfold outputsUnset. rewrite resetModel_run. cbn.
    apply List.Forall_map, Forall_forall. intros o _. reflexivity.
Qed.

(** No method attaches an output descriptor to an operand. *)
Lemma reachable_outputsUnset st : reachable hexagon_nn U st -> outputsUnset st.
Proof.
  induction 1 as [model calls | st method Hst IH | st Hst IH | st Hst IH].
  - unfold outputsUnset, Model_new, getOperandsInfo. cbn.
    apply List.Forall_map, Forall_forall. intros o _. reflexivity.
  - apply (keepsOutputsUnset_invoke method st IH).
  - exact IH.
  - constructor.
Qed.

(** So the guard of [setShape] never fires. *)
Lemma setShape_succeeds (operand : Z) (shape : Shape) (st : State) :
  reachable hexagon_nn U st -> fst (setShape operand shape st) = true.
Proof.
  intros Hst. apply reachable_outputsUnset in Hst. unfold outputsUnset in Hst.
  unfold setShape. rewrite run_bind. unfold getOperand, gets. cbn [fst snd].
  assert (Hout : hexagon_output (operand_at (self st) operand) = value_init).
  { unfold operand_at. destruct (mOperands (self st) !! Z.to_nat operand) as [o|] eqn:Ho.
    - cbn. eapply Forall_lookup_1 in Hst; [exact Hst | exact Ho].
    - reflexivity. }
  rewrite Hout. reflexivity.
Qed.

End Handles.

(** C6, on the code.  [nn_relu] is compiled on an accelerator that fails to
    prepare the graph: both operands are wired (handles of nodes 1 and 2) and
    nothing is reset.  [registerHexagonInputs] then refuses to assign the
    handle of operand 1 again and changes nothing.  But [addInputs], run
    again by the next [compile], assigns the handle of operand 0 a second
    time, replacing node 1 by node 4, and succeeds; and [setShape] on the
    wired operand 1 succeeds and replaces its dimensions, since it tests the
    output descriptor, which no method ever sets. *)
Theorem handles_are_assigned_twice :
  let st := snd (compile reject_prepare example_utils (Model_new reject_prepare nn_relu [])) in
  let shape := {| shape_type := TENSOR_FLOAT32; shape_dimensions := [7; 7];
                  shape_scale := f32_zero; shape_offset := 0 |} in
  hexagon_input (operand_at (self st) 0) = {| src_id := 1; output_idx := 0 |} /\
  hexagon_input (operand_at (self st) 1) = {| src_id := 2; output_idx := 0 |} /\
  registerHexagonInputs [1] 9 st = (false, st) /\
  fst (addInputs reject_prepare st) = true /\
  hexagon_input (operand_at (self (snd (addInputs reject_prepare st))) 0) =
    {| src_id := 4; output_idx := 0 |} /\
  fst (setShape 1 shape st) = true /\
  dimensions (operand_at (self st) 1) = [1; 2] /\
  dimensions (operand_at (self (snd (setShape 1 shape st))) 1) = [7; 7].
Proof. vm_compute. repeat split. Qed.

(** * Further properties of the code *)

(** ** HexagonUtils: alignment, descriptors, pools and sizes *)

Lemma size_of_app {A} (a b : list A) : size_of (a ++ b) = size_of a + size_of b.
Proof. unfold size_of. rewrite length_app. lia. Qed.

Lemma size_of_replicate {A} (n : nat) (x : A) : size_of (replicate n x) = Z.of_nat n.
Proof. unfold size_of. rewrite length_replicate. reflexivity. Qed.

Lemma product_replicate_1 (n : nat) (l : list Z) :
  fold_right Z.mul 1 (replicate n 1 ++ l) = fold_right Z.mul 1 l.
Proof.
  induction n as [|n IH]; simpl; [reflexivity|].
  rewrite IH. destruct (fold_right Z.mul 1 l); reflexivity.
Qed.

Lemma getAlignedDimensions_within (dims : list Z) (N : Z) :
  size_of dims <= N ->
  getAlignedDimensions dims N = replicate (Z.to_nat (N - size_of dims)) 1 ++ dims.
Proof.
  intros Hle. unfold getAlignedDimensions.
  destruct (Z.ltb_spec N (size_of dims)); [lia | reflexivity].
Qed.

Lemma getAlignedDimensions_size (dims : list Z) (N : Z) :
  size_of dims <= N -> size_of (getAlignedDimensions dims N) = N.
Proof.
  intros Hle. rewrite getAlignedDimensions_within by exact Hle.
  rewrite size_of_app, size_of_replicate. lia.
Qed.

Lemma getAlignedDimensions_beyond (dims : list Z) (N : Z) :
  N < size_of dims -> getAlignedDimensions dims N = [].
Proof.
  intros Hlt. unfold getAlignedDimensions.
  destruct (Z.ltb_spec N (size_of dims)); [reflexivity | lia].
Qed.

(** X1: [getAlignedDimensions] of a vector longer than [N] is the empty
    vector.  Otherwise the result has [N] entries: the dimensions given,
    preceded by as many ones as are missing, so that the number of elements
    (the product of the dimensions) is the same. *)
Theorem getAlignedDimensions_pads_in_front (dims : list Z) (N : Z) :
  let aligned := getAlignedDimensions dims N in
  let pad := Z.to_nat (N - size_of dims) in
  (N < size_of dims -> aligned = []) /\
  (size_of dims <= N ->
   size_of aligned = N /\
   take pad aligned = replicate pad 1 /\
   drop pad aligned = dims /\
   fold_right Z.mul 1 aligned = fold_right Z.mul 1 dims).
Proof.
  cbv zeta. split; [apply getAlignedDimensions_beyond|].
  intros Hle. split; [apply getAlignedDimensions_size, Hle|].
  rewrite getAlignedDimensions_within by exact Hle.
  set (pad := Z.to_nat (N - size_of dims)).
  assert (Hpad : pad = length (replicate pad 1)) by (symmetry; apply length_replicate).
  repeat split.
  - rewrite take_app_length'; [reflexivity | exact Hpad].
  - rewrite drop_app_length'; [reflexivity | exact Hpad].
  - apply product_replicate_1.
Qed.

Lemma getAlignedDimensions_pads_in_front_witness :
  getAlignedDimensions [1; 2; 3; 4; 5] 4 = [] /\
  getAlignedDimensions [2; 3] 4 = [1; 1; 2; 3] /\
  fold_right Z.mul 1 (getAlignedDimensions [2; 3] 4) = 6.
Proof.
  split.
  - destruct (getAlignedDimensions_pads_in_front [1; 2; 3; 4; 5] 4) as [H _].
    apply H. reflexivity.
  - destruct (getAlignedDimensions_pads_in_front [2; 3] 4) as [_ H].
    destruct H as (_ & _ & _ & Hp); [vm_compute; discriminate|].
    split; [reflexivity | exact Hp].
Defined.

(** make_hexagon_nn_output *)
Lemma make_hexagon_nn_output_within (dims : list Z) (size : Z) :
  size_of dims <= 4 ->
  exists a b c d,
    getAlignedDimensions dims 4 = [a; b; c; d] /\
    make_hexagon_nn_output dims size =
      {| rank := 4; max_sizes := [a; b; c; d; 0; 0; 0; 0]; elementsize := size;
         zero_offset := 0; stepsize := f32_zero |}.
Proof.
  intros Hle. pose proof (getAlignedDimensions_size dims 4 Hle) as Hsize.
  unfold make_hexagon_nn_output.
  destruct (getAlignedDimensions dims 4) as [|a [|b [|c [|d [|e aligned]]]]];
    unfold size_of in Hsize; simpl in Hsize; try lia.
  exists a, b, c, d. split; reflexivity.
Qed.

Lemma make_hexagon_nn_output_beyond (dims : list Z) (size : Z) :
  4 < size_of dims ->
  make_hexagon_nn_output dims size =
    {| rank := 0; max_sizes := [0; 0; 0; 0; 0; 0; 0; 0]; elementsize := size;
       zero_offset := 0; stepsize := f32_zero |}.
Proof.
  intros Hlt. unfold make_hexagon_nn_output.
  rewrite getAlignedDimensions_beyond by exact Hlt. reflexivity.
Qed.

(** X2: for dimensions of rank at most four, [make_hexagon_nn_output] gives
    a descriptor of rank 4 whose first four sizes are the dimensions aligned
    to four and whose last four sizes are 0, with the element size asked
    for; it never compares equal to the empty descriptor, so
    [verifyOperationOutputs] accepts it. *)
Theorem make_hexagon_nn_output_pads_to_rank_four (dims : list Z) (size : Z) :
  size_of dims <= 4 ->
  let output := make_hexagon_nn_output dims size in
  rank output = 4 /\
  max_sizes output = getAlignedDimensions dims 4 ++ [0; 0; 0; 0] /\
  elementsize output = size /\
  verifyOperationOutputs [output] = true.
Proof.
  intros Hle. cbv zeta.
  destruct (make_hexagon_nn_output_within dims size Hle) as (a & b & c & d & Ha & Ho).
  rewrite Ho, Ha. repeat split.
Qed.

Lemma make_hexagon_nn_output_pads_to_rank_four_witness :
  max_sizes (make_hexagon_nn_output [2; 3] 4) = [1; 1; 2; 3; 0; 0; 0; 0] /\
  verifyOperationOutputs [make_hexagon_nn_output [2; 3] 4] = true.
Proof.
  destruct (make_hexagon_nn_output_pads_to_rank_four [2; 3] 4) as (_ & Hm & _ & Hv).
  - vm_compute. discriminate.
  - split; [exact Hm | exact Hv].
Defined.

(** X3: for dimensions of rank above four the alignment fails and
    [make_hexagon_nn_output] gives rank 0 and eight sizes of 0: the
    dimensions are lost.  The descriptor still carries the element size, so
    [verifyOperationOutputs] accepts it unless the size is 0. *)
Theorem make_hexagon_nn_output_drops_a_fifth_dimension (dims : list Z) (size : Z) :
  4 < size_of dims ->
  let output := make_hexagon_nn_output dims size in
  rank output = 0 /\
  max_sizes output = [0; 0; 0; 0; 0; 0; 0; 0] /\
  elementsize output = size /\
  verifyOperationOutputs [output] = negb (size =? 0).
Proof.
  intros Hlt. cbv zeta. rewrite make_hexagon_nn_output_beyond by exact Hlt.
  repeat split. unfold verifyOperationOutputs, hexagon_nn_output_eqb. cbn.
  destruct (size =? 0); reflexivity.
Qed.

Lemma make_hexagon_nn_output_drops_a_fifth_dimension_witness :
  rank (make_hexagon_nn_output [1; 2; 3; 4; 5] 4) = 0 /\
  verifyOperationOutputs [make_hexagon_nn_output [1; 2; 3; 4; 5] 4] = true.
Proof.
  destruct (make_hexagon_nn_output_drops_a_fifth_dimension [1; 2; 3; 4; 5] 4)
    as (Hr & _ & _ & Hv).
  - reflexivity.
  - split; [exact Hr | exact Hv].
Defined.

(** mapPools *)
Lemma mapPools_from_mapped (pools : list hidl_memory) :
  Forall (fun pool => pool <> None) pools ->
  mapPools_from pools = Some (map (fun pool => {| pool_buffer := pool |}) pools).
Proof.
  induction 1 as [|pool pools Hpool _ IH]; simpl; [reflexivity|].
  destruct pool as [bs|]; [|contradiction]. rewrite IH. reflexivity.
Qed.

Lemma mapPools_from_unmapped (pools : list hidl_memory) :
  In None pools -> mapPools_from pools = None.
Proof.
  induction pools as [|pool pools IH]; simpl; [contradiction|].
  intros [->|Hin]; [reflexivity|].
  destruct pool; [|reflexivity]. rewrite (IH Hin). reflexivity.
Qed.

(** X4: [mapPools] maps all pools or none: when every pool maps, the
    result has one entry per pool, in order, each holding the pool's
    mapping; when one pool fails to map, the result is the empty vector. *)
Theorem mapPools_is_all_or_nothing (pools : list hidl_memory) :
  (Forall (fun pool => pool <> None) pools ->
   mapPools pools = map (fun pool => {| pool_buffer := pool |}) pools) /\
  (In None pools -> mapPools pools = []).
Proof.
  unfold mapPools. split; intros H.
  - rewrite mapPools_from_mapped by exact H. reflexivity.
  - rewrite mapPools_from_unmapped by exact H. reflexivity.
Qed.

Lemma mapPools_is_all_or_nothing_witness :
  mapPools [Some [x01%byte]; Some []] =
    [{| pool_buffer := Some [x01%byte] |}; {| pool_buffer := Some [] |}] /\
  mapPools [Some [x01%byte]; None; Some []] = [].
Proof.
  split.
  - apply (proj1 (mapPools_is_all_or_nothing [Some [x01%byte]; Some []])).
    repeat constructor; discriminate.
  - apply (proj2 (mapPools_is_all_or_nothing [Some [x01%byte]; None; Some []])).
    simpl. tauto.
Defined.



(** getSize(const OperandInfo&) *)
Lemma getOperandSize_from (dims : list Z) (acc : Z) :
  to_uint32 (fold_left (fun acc dim => to_uint32 (acc * dim)) dims acc) =
  to_uint32 (acc * fold_right Z.mul 1 dims).
Proof.
  revert acc. induction dims as [|d dims IH]; intros acc; simpl.
  - rewrite Z.mul_1_r. reflexivity.
  - rewrite IH. unfold to_uint32.
    rewrite Z.mul_mod_idemp_l by lia. rewrite Z.mul_assoc. reflexivity.
Qed.

Lemma getOperandSize_in_range (dims : list Z) (acc : Z) :
  0 <= acc < 2 ^ 32 ->
  0 <= fold_left (fun acc dim => to_uint32 (acc * dim)) dims acc < 2 ^ 32.
Proof.
  revert acc. induction dims as [|d dims IH]; intros acc Hacc; simpl; [exact Hacc|].
  apply IH. unfold to_uint32. apply Z.mod_pos_bound. lia.
Qed.

(** X6: the byte size [getSize(const OperandInfo&)] accumulates is the size
    of the element type times the product of the dimensions, modulo 2^32. *)
Theorem getOperandSize_is_the_wrapped_product (operand : OperandInfo) :
  getOperandSize operand =
  to_uint32 (getSize (type operand) * fold_right Z.mul 1 (dimensions operand)).
Proof.
  rewrite <- getOperandSize_from. unfold getOperandSize.
  symmetry. apply Z.mod_small. apply getOperandSize_in_range.
  destruct (type operand); simpl; lia.
Qed.

(** ** Handles that are unset, and operands of rank above four *)

Lemma hexagon_nn_input_eqb_eq (a b : hexagon_nn_input) :
  hexagon_nn_input_eqb a b = true <-> a = b.
Proof.
  unfold hexagon_nn_input_eqb. destruct a as [s1 o1], b as [s2 o2]. cbn [src_id output_idx].
  rewrite andb_true_iff, !Z.eqb_eq. split.
  - intros [-> ->]. reflexivity.
  - intros E. inversion E. split; reflexivity.
Qed.

Lemma hexagon_nn_input_eqb_sym (a b : hexagon_nn_input) :
  hexagon_nn_input_eqb a b = hexagon_nn_input_eqb b a.
Proof.
  unfold hexagon_nn_input_eqb.
  rewrite (Z.eqb_sym (src_id a)), (Z.eqb_sym (output_idx a)). reflexivity.
Qed.

Lemma forallb_refuses {A} (f : A -> bool) (x : A) (l : list A) :
  In x l -> f x = false -> forallb f l = false.
Proof.
  intros Hin Hx. destruct (forallb f l) eqn:E; [|reflexivity].
  rewrite forallb_forall in E. rewrite (E x Hin) in Hx. discriminate.
Qed.

(** X7: [addOperationInternal] given an input handle that is unset, or an
    output descriptor that is empty, answers 0 without asking the
    accelerator and without taking a node id: the state is as before. *)
Theorem addOperationInternal_needs_every_handle (hexagon_nn : Accelerator)
    (op : op_type) (pad : hexagon_nn_padding_type)
    (ins : list hexagon_nn_input) (outs : list hexagon_nn_output) (st : State) :
  In value_init ins \/ In value_init outs ->
  addOperationInternal hexagon_nn op pad ins outs st = (0, st).
Proof.
  intros H. rewrite addOperationInternal_run.
  assert (E : verifyOperationInputs ins && verifyOperationOutputs outs = false).
  { apply andb_false_iff. destruct H as [H|H]; [left|right];
      eapply forallb_refuses; try exact H; reflexivity. }
  rewrite E. reflexivity.
Qed.

Lemma addOperationInternal_needs_every_handle_witness :
  addOperationInternal accept_all OP_Relu_f NN_PAD_NA [value_init]
    [make_hexagon_nn_output [1; 2] 4] (Model_new accept_all nn_relu []) =
  (0, Model_new accept_all nn_relu []).
Proof.
  apply addOperationInternal_needs_every_handle. left. simpl. tauto.
Defined.

Section Dropped.

Variable hexagon_nn : Accelerator.
Variable U : OperationsUtils.

Lemma alter_fixed {A} (f : A -> A) (i : nat) (l : list A) :
  (forall x, l !! i = Some x -> f x = x) -> alter f i l = l.
Proof.
  revert i. induction l as [|y l IH]; intros i H; [reflexivity|].
  destruct i as [|i]; simpl.
  - rewrite (H y eq_refl). reflexivity.
  - f_equal. apply IH. intros x Hx. apply H. exact Hx.
Qed.

Lemma updateOperandInfo_fixed (i : Z) (f : OperandInfo -> OperandInfo) (st : State) :
  (forall o, mOperands (self st) !! Z.to_nat i = Some o -> f o = o) ->
  updateOperandInfo i f st = (tt, st).
Proof.
  intros H. rewrite updateOperandInfo_run, alter_fixed by exact H.
  destruct st as [[] ?]. reflexivity.
Qed.

Lemma addOperand_beyond (i : Z) (st : State) :
  4 < size_of (dimensions (operand_at (self st) i)) ->
  addOperand hexagon_nn i st = (value_init, st).
Proof.
  intros Hlt. unfold addOperand, getOperand, gets. rewrite run_bind. cbn [fst snd].
  rewrite getAlignedDimensions_beyond by exact Hlt. reflexivity.
Qed.

(** X8: an operand with more than four dimensions never reaches the
    accelerator as a constant: [addOperand], [createConvFilterTensor],
    [createDepthwiseFilterTensor] and [createFullyConnectedWeightTensor]
    answer the empty handle and leave the state, the node counter included,
    as it was; so does [getTensor] when the operand has no handle yet. *)
Theorem a_fifth_dimension_is_never_sent (i depth_multiplier : Z) (st : State) :
  4 < size_of (dimensions (operand_at (self st) i)) ->
  addOperand hexagon_nn i st = (value_init, st) /\
  createConvFilterTensor hexagon_nn U i st = (value_init, st) /\
  createDepthwiseFilterTensor hexagon_nn i depth_multiplier st = (value_init, st) /\
  createFullyConnectedWeightTensor hexagon_nn U i st = (value_init, st) /\
  (hexagon_input (operand_at (self st) i) = value_init ->
   getTensor hexagon_nn i st = (value_init, st)).
Proof.
  intros Hlt. split; [apply addOperand_beyond, Hlt|].
  repeat split.
  - unfold createConvFilterTensor, getOperand, gets. rewrite run_bind. cbn [fst snd].
    rewrite getAlignedDimensions_beyond by exact Hlt. reflexivity.
  - unfold createDepthwiseFilterTensor, getOperand, gets. rewrite run_bind. cbn [fst snd].
    rewrite getAlignedDimensions_beyond by exact Hlt. reflexivity.
  - unfold createFullyConnectedWeightTensor, getOperand, gets. rewrite run_bind. cbn [fst snd].
    rewrite getAlignedDimensions_beyond by exact Hlt. reflexivity.
  - intros Hunset. unfold getTensor, getOperand, gets. rewrite run_bind. cbn [fst snd].
    rewrite Hunset. change (hexagon_nn_input_eqb value_init value_init) with true. cbv iota.
    rewrite run_bind, addOperand_beyond by exact Hlt. cbn [fst snd].
    rewrite run_bind, updateOperandInfo_fixed; [reflexivity|].
    intros o Ho. unfold operand_at in Hunset. rewrite Ho in Hunset. simpl in Hunset.
    destruct o. simpl in *. subst. reflexivity.
Qed.

End Dropped.

Lemma a_fifth_dimension_is_never_sent_witness :
  let st := Model_new accept_all nn_operands_only [] in
  addOperand accept_all 1 st = (value_init, st) /\
  getTensor accept_all 1 st = (value_init, st).
Proof.
  cbv zeta.
  destruct (a_fifth_dimension_is_never_sent accept_all example_utils 1 1
              (Model_new accept_all nn_operands_only [])) as (Ha & _ & _ & _ & Hg).
  - reflexivity.
  - split; [exact Ha | apply Hg; reflexivity].
Defined.

Section Tensor.

Variable hexagon_nn : Accelerator.

Lemma addOperand_within (i : Z) (st : State) :
  let o := operand_at (self st) i in
  let dims := getAlignedDimensions (dimensions o) 4 in
  size_of (dimensions o) <= 4 ->
  addOperand hexagon_nn i st =
  createTensorInternal hexagon_nn (at_ dims 0) (at_ dims 1) (at_ dims 2) (at_ dims 3)
    (blob_buffer (buffer_ptr o)) (length_bytes o) st.
Proof.
  intros o dims Hrank. unfold addOperand, getOperand, gets. rewrite run_bind. cbn [fst snd].
  fold o. fold dims.
  assert (Hsize : size_of dims = 4) by (apply getAlignedDimensions_size; exact Hrank).
  rewrite Hsize. cbn [Z.eqb negb]. rewrite run_bind, createTensorInternal_run. cbv zeta.
  cbn [fst snd].
  destruct (hexagon_nn _ _ =? 0); [|reflexivity].
  destruct (negb (hexagon_nn_input_eqb value_init _)) eqn:E; [reflexivity|].
  apply negb_false_iff, hexagon_nn_input_eqb_eq in E. rewrite <- E. reflexivity.
Qed.

(** X9: [getTensor] on an operand of rank at most four that has no handle
    asks for one constant node, with the next node id, the dimensions aligned
    to four, and the operand's buffer and length.  When the accelerator
    accepts it, the handle is output 0 of that node and is stored, so that a
    second [getTensor] returns the same handle and changes nothing. *)
Theorem getTensor_creates_the_constant_once (i : Z) (st : State) :
  let o := operand_at (self st) i in
  let dims := getAlignedDimensions (dimensions o) 4 in
  let node := mNodeCount (self st) + 1 in
  let c := call_append_const_node (mGraphId (self st)) node
             (at_ dims 0) (at_ dims 1) (at_ dims 2) (at_ dims 3)
             (blob_buffer (buffer_ptr o)) (length_bytes o) in
  (Z.to_nat i < length (mOperands (self st)))%nat ->
  0 <= mNodeCount (self st) < UINT32_MAX ->
  size_of (dimensions o) <= 4 ->
  hexagon_input o = value_init ->
  hexagon_nn (trace st) c = 0 ->
  let first := getTensor hexagon_nn i st in
  fst first = {| src_id := node; output_idx := 0 |} /\
  trace (snd first) = trace st ++ [c] /\
  getTensor hexagon_nn i (snd first) = (fst first, snd first).
Proof.
  intros o dims node c Hi Hn Hrank Hunset Hok first.
  set (h := {| src_id := node; output_idx := 0 |}).
  set (st1 :=
    {| self := set_mOperands (alter (set_hexagon_input h) (Z.to_nat i) (mOperands (self st)))
                 (set_mNodeCount node (self st));
       trace := trace st ++ [c] |}).
  assert (Hnode : to_uint32 (mNodeCount (self st) + 1) = node)
    by (apply to_uint32_id; unfold UINT32_MAX in Hn; lia).
  assert (Hset : hexagon_nn_input_eqb h value_init = false).
  { unfold hexagon_nn_input_eqb, h, node.
    cbn [src_id output_idx value_init ValueInit_hexagon_nn_input].
    destruct (Z.eqb_spec (mNodeCount (self st) + 1) 0); [lia | reflexivity]. }
  assert (Hfirst : first = (h, st1)).
  { unfold first, getTensor, getOperand, gets. rewrite run_bind. cbn [fst snd]. fold o.
    rewrite Hunset. change (hexagon_nn_input_eqb value_init value_init) with true. cbv iota.
    rewrite run_bind, addOperand_within by exact Hrank.
    rewrite createTensorInternal_run. cbv zeta. fold o. fold dims.
    rewrite Hnode. fold c. rewrite Hok. reflexivity. }
  rewrite Hfirst. cbn [fst snd]. split; [reflexivity|]. split; [reflexivity|].
  assert (Hread : operand_at (self st1) i = set_hexagon_input h o).
  { apply operand_at_alter; [reflexivity | exact Hi]. }
  unfold getTensor, getOperand, gets. rewrite run_bind. cbn [fst snd].
  rewrite Hread. cbn [hexagon_input set_hexagon_input]. rewrite Hset. reflexivity.
Qed.

End Tensor.

Lemma getTensor_creates_the_constant_once_witness :
  let st := Model_new accept_all nn_operands_only [] in
  let first := getTensor accept_all 0 st in
  fst first = {| src_id := 1; output_idx := 0 |} /\
  trace (snd first) =
    trace st ++ [call_append_const_node 1 1 1 1 1 2
                   (blob_buffer (Some (replicate 8 Byte.x00))) 8] /\
  getTensor accept_all 0 (snd first) = (fst first, snd first).
Proof.
  cbv zeta.
  apply (getTensor_creates_the_constant_once accept_all 0
           (Model_new accept_all nn_operands_only [])).
  - simpl. lia.
  - vm_compute. split; [discriminate | reflexivity].
  - vm_compute. discriminate.
  - reflexivity.
  - reflexivity.
Defined.

(** ** Output slots: [getHexagonOutputs] and [registerHexagonInputs] *)

Lemma list_alter_twice {A} (f g : A -> A) (i : nat) (l : list A) :
  alter f i (alter g i l) = alter (fun x => f (g x)) i l.
Proof.
  revert i. induction l as [|x l IH]; intros [|i]; simpl; try reflexivity.
  f_equal. apply IH.
Qed.

Lemma registerHexagonInputs_from_cons (i : Z) (rest : list Z) (node idx : Z) (st : State) :
  registerHexagonInputs_from (i :: rest) node idx st =
  let o := operand_at (self st) i in
  if hexagon_nn_input_eqb (hexagon_input o) value_init
  then registerHexagonInputs_from rest node (to_uint32 (idx + slotsOf o))
         (withOperand i (registeredAt node idx) st)
  else (false, st).
Proof.
  cbv zeta. cbn [registerHexagonInputs_from]. unfold getOperand, gets.
  rewrite run_bind. cbn [fst snd].
  destruct (hexagon_nn_input_eqb _ _); [|reflexivity].
  rewrite run_bind, updateOperandInfo_run. cbn [fst snd].
  unfold slotsOf.
  assert (Hsame : forall f ops,
    ops = alter f (Z.to_nat i) (mOperands (self st)) ->
    (forall o, mOperands (self st) !! Z.to_nat i = Some o -> f o = registeredAt node idx o) ->
    {| self := set_mOperands ops (self st); trace := trace st |} =
    withOperand i (registeredAt node idx) st).
  { intros f ops -> Hf. unfold withOperand. f_equal. f_equal.
    apply list_alter_ext; [exact Hf | reflexivity]. }
  destruct (OperandType_eqb (type (operand_at (self st) i)) TENSOR_QUANT8_ASYMM) eqn:Eq.
  - rewrite run_bind, updateOperandInfo_run. cbn [fst snd].
    rewrite run_bind, updateOperandInfo_run. cbn [fst snd].
    f_equal. cbn [self set_mOperands mOperands trace].
    rewrite !list_alter_twice.
    eapply Hsame; [reflexivity|].
    intros o Ho. unfold registeredAt.
    unfold operand_at in Eq. rewrite Ho in Eq. simpl in Eq. rewrite Eq. reflexivity.
  - f_equal.
    eapply Hsame; [reflexivity|].
    intros o Ho. unfold registeredAt.
    unfold operand_at in Eq. rewrite Ho in Eq. simpl in Eq. rewrite Eq. reflexivity.
Qed.

Lemma operand_at_withOperand (P : OperandInfo -> OperandInfo -> Prop)
    (i j : Z) (f : OperandInfo -> OperandInfo) (st : State) :
  (forall o, P (f o) o) -> (forall o, P o o) ->
  P (operand_at (self (withOperand i f st)) j) (operand_at (self st) j).
Proof.
  intros Hf Hrefl. unfold operand_at, withOperand. cbn [self set_mOperands mOperands].
  destruct (decide (Z.to_nat j = Z.to_nat i)) as [->|Hne].
  - rewrite list_lookup_alter_eq. destruct (mOperands (self st) !! Z.to_nat i); simpl; auto.
  - rewrite list_lookup_alter_ne by congruence. apply Hrefl.
Qed.

Lemma operand_at_withOperand_same (i : Z) (f : OperandInfo -> OperandInfo) (st : State) :
  inRange st i ->
  operand_at (self (withOperand i f st)) i = f (operand_at (self st) i).
Proof.
  intros [Hlo Hhi]. apply operand_at_alter; [reflexivity|]. unfold size_of in Hhi. lia.
Qed.

Lemma operand_at_withOperand_other (i j : Z) (f : OperandInfo -> OperandInfo) (st : State) :
  Z.to_nat j <> Z.to_nat i ->
  operand_at (self (withOperand i f st)) j = operand_at (self st) j.
Proof.
  intros Hne. unfold operand_at, withOperand. cbn [self set_mOperands mOperands].
  rewrite list_lookup_alter_ne by congruence. reflexivity.
Qed.

Lemma inRange_withOperand (i j : Z) (f : OperandInfo -> OperandInfo) (st : State) :
  inRange (withOperand i f st) j <-> inRange st j.
Proof.
  unfold inRange, withOperand, size_of. cbn [self set_mOperands mOperands].
  rewrite length_alter. reflexivity.
Qed.

Lemma type_registeredAt (node idx : Z) (o : OperandInfo) :
  type (registeredAt node idx o) = type o /\
  dimensions (registeredAt node idx o) = dimensions o.
Proof. unfold registeredAt. destruct (OperandType_eqb _ _); split; reflexivity. Qed.

(** Registration writes handles only, and only of the operands listed. *)
Lemma registerHexagonInputs_from_keeps (l : list Z) (node idx : Z) (st : State) (j : Z) :
  let st' := snd (registerHexagonInputs_from l node idx st) in
  trace st' = trace st /\
  size_of (mOperands (self st')) = size_of (mOperands (self st)) /\
  type (operand_at (self st') j) = type (operand_at (self st) j) /\
  dimensions (operand_at (self st') j) = dimensions (operand_at (self st) j) /\
  (~ In (Z.to_nat j) (map Z.to_nat l) -> operand_at (self st') j = operand_at (self st) j).
Proof.
  cbv zeta. revert idx st. induction l as [|i l IH]; intros idx st.
  - repeat split; reflexivity.
  - rewrite registerHexagonInputs_from_cons. cbv zeta.
    destruct (hexagon_nn_input_eqb _ _); [|repeat split; reflexivity].
    destruct (IH (to_uint32 (idx + slotsOf (operand_at (self st) i)))
                 (withOperand i (registeredAt node idx) st)) as (Ht & Hs & Hty & Hd & Ho).
    split; [exact Ht|]. split.
    { rewrite Hs. unfold withOperand, size_of. cbn [self set_mOperands mOperands].
      rewrite length_alter. reflexivity. }
    split.
    { rewrite Hty. apply (operand_at_withOperand (fun a b => type a = type b));
        [intros; apply type_registeredAt | reflexivity]. }
    split.
    { rewrite Hd. apply (operand_at_withOperand (fun a b => dimensions a = dimensions b));
        [intros; apply type_registeredAt | reflexivity]. }
    intros Hnot. cbn [map In] in Hnot. rewrite Ho by tauto.
    apply operand_at_withOperand_other. intros E. apply Hnot. left. congruence.
Qed.

Lemma getHexagonOutputs_flat (l : list Z) (st : State) :
  fst (getHexagonOutputs l st) =
  flat_map (fun i => descriptorsOf (operand_at (self st) i)) l.
Proof. reflexivity. Qed.

Lemma size_of_descriptorsOf (o : OperandInfo) : size_of (descriptorsOf o) = slotsOf o.
Proof. unfold descriptorsOf, slotsOf. destruct (OperandType_eqb _ _); reflexivity. Qed.

Lemma descriptorsOf_same (a b : OperandInfo) :
  type a = type b -> dimensions a = dimensions b -> descriptorsOf a = descriptorsOf b.
Proof. unfold descriptorsOf. intros -> ->. reflexivity. Qed.

Lemma slotsOf_pos (o : OperandInfo) : 1 <= slotsOf o <= 3.
Proof. unfold slotsOf. destruct (OperandType_eqb _ _); lia. Qed.

Lemma to_nat_distinct (i : Z) (l : list Z) :
  0 <= i -> Forall (fun j => 0 <= j) l -> ~ In i l -> ~ In (Z.to_nat i) (map Z.to_nat l).
Proof.
  intros Hi Hl Hnot Hin. apply in_map_iff in Hin. destruct Hin as (j & Hj & Hin).
  rewrite List.Forall_forall in Hl. apply Hnot.
  replace i with j; [exact Hin|]. specialize (Hl j Hin). lia.
Qed.

Lemma OperandType_eqb_eq (a b : OperandType) : OperandType_eqb a b = true <-> a = b.
Proof. destruct a, b; simpl; split; intros H; try reflexivity; discriminate. Qed.

Lemma registerHexagonInputs_from_slots (l : list Z) :
  forall (node idx : Z) (st : State),
  NoDup l -> Forall (inRange st) l ->
  fst (registerHexagonInputs_from l node idx st) = true ->
  0 <= idx -> idx + size_of (fst (getHexagonOutputs l st)) < 2 ^ 32 ->
  Forall (registeredIn st (snd (registerHexagonInputs_from l node idx st)) l node idx) l.
Proof.
  induction l as [|i l IH]; intros node idx st Hnd Hin Hok Hidx Hroom; [constructor|].
  rewrite registerHexagonInputs_from_cons in *. cbv zeta in *.
  destruct (hexagon_nn_input_eqb _ _); [|discriminate Hok].
  set (o := operand_at (self st) i) in *.
  set (st1 := withOperand i (registeredAt node idx) st) in *.
  apply NoDup_cons in Hnd. destruct Hnd as [Hnot Hnd].
  apply Forall_cons in Hin. destruct Hin as [Hi Hin].
  rewrite getHexagonOutputs_flat in Hroom. cbn [flat_map] in Hroom. fold o in Hroom.
  rewrite size_of_app, size_of_descriptorsOf, <- getHexagonOutputs_flat in Hroom.
  pose proof (slotsOf_pos o) as Hslots.
  assert (Hsize1 : size_of (fst (getHexagonOutputs l st)) >= 0) by (unfold size_of; lia).
  assert (Hnext : to_uint32 (idx + slotsOf o) = idx + slotsOf o) by (apply to_uint32_id; lia).
  rewrite Hnext in *.
  assert (Hsame : fst (getHexagonOutputs l st1) = fst (getHexagonOutputs l st)).
  { rewrite !getHexagonOutputs_flat. apply flat_map_ext. intros j.
    apply descriptorsOf_same;
      [apply (operand_at_withOperand (fun a b => type a = type b))
      |apply (operand_at_withOperand (fun a b => dimensions a = dimensions b))];
      solve [intros; apply type_registeredAt | reflexivity]. }
  set (st' := snd (registerHexagonInputs_from l node (idx + slotsOf o) st1)) in *.
  constructor.
  - (* the head *)
    assert (Ho' : operand_at (self st') i = registeredAt node idx o).
    { destruct (registerHexagonInputs_from_keeps l node (idx + slotsOf o) st1 i)
        as (_ & _ & _ & _ & Hkeep).
      fold st' in Hkeep. rewrite Hkeep.
      - apply operand_at_withOperand_same. exact Hi.
      - apply to_nat_distinct; [apply Hi | | rewrite list_elem_of_In in Hnot; exact Hnot ].
        eapply List.Forall_impl; [|exact Hin]. intros j Hj. apply Hj. }
    exists idx. unfold registeredIn. cbv zeta. fold o. rewrite Ho'.
    split; [lia|]. split.
    { unfold registeredAt. destruct (OperandType_eqb _ _); reflexivity. }
    split.
    { rewrite Z.sub_diag. reflexivity. }
    intros Hq. unfold registeredAt. apply OperandType_eqb_eq in Hq. rewrite Hq.
    cbn [hexagon_input_min hexagon_input_max set_hexagon_input_min set_hexagon_input_max].
    unfold slotsOf in Hroom. rewrite Hq in Hroom.
    rewrite !to_uint32_id by lia. split; reflexivity.
  - (* the others *)
    assert (Hin1 : Forall (inRange st1) l).
    { eapply List.Forall_impl; [|exact Hin]. intros j Hj. apply inRange_withOperand. exact Hj. }
    assert (Hroom1 : idx + slotsOf o + size_of (fst (getHexagonOutputs l st1)) < 2 ^ 32)
      by (rewrite Hsame; lia).
    specialize (IH node (idx + slotsOf o) st1 Hnd Hin1 Hok ltac:(lia) Hroom1).
    fold st' in IH. rewrite List.Forall_forall in IH. apply List.Forall_forall.
    intros j Hj. destruct (IH j Hj) as (slot & Hslot & Hh & Hd & Hq).
    assert (Hty : type (operand_at (self st1) j) = type (operand_at (self st) j)).
    { apply (operand_at_withOperand (fun a b => type a = type b));
        [intros; apply type_registeredAt | reflexivity]. }
    assert (Hdim : dimensions (operand_at (self st1) j) = dimensions (operand_at (self st) j)).
    { apply (operand_at_withOperand (fun a b => dimensions a = dimensions b));
        [intros; apply type_registeredAt | reflexivity]. }
    exists slot. split; [lia|]. split; [exact Hh|]. split.
    + rewrite getHexagonOutputs_flat. cbn [flat_map]. fold o.
      rewrite <- getHexagonOutputs_flat, <- Hsame, <- Hty, <- Hdim, <- Hd.
      replace (Z.to_nat (slot - idx))
        with (length (descriptorsOf o) + Z.to_nat (slot - (idx + slotsOf o)))%nat.
      * rewrite lookup_app_r by lia. f_equal. lia.
      * pose proof (size_of_descriptorsOf o) as Hlen. unfold size_of in Hlen. lia.
    + rewrite <- Hty. exact Hq.
Qed.

(** X10: [registerHexagonInputs] and [getHexagonOutputs] agree on the
    output slots.  When distinct operands are registered on a node, each gets
    as its handle a slot of that node, and the descriptor that
    [getHexagonOutputs] made at that position is the one of the operand's own
    dimensions and type; a quantized operand gets the next two slots for its
    minimum and maximum. *)
Theorem registered_handles_index_their_descriptors (operands : list Z) (node : Z)
    (st : State) :
  NoDup operands -> Forall (inRange st) operands ->
  size_of (fst (getHexagonOutputs operands st)) < 2 ^ 32 ->
  fst (registerHexagonInputs operands node st) = true ->
  Forall (registeredIn st (snd (registerHexagonInputs operands node st)) operands node 0)
    operands.
Proof.
  intros Hnd Hin Hroom Hok. unfold registerHexagonInputs in *.
  apply registerHexagonInputs_from_slots; try assumption; lia.
Qed.

Lemma registered_handles_index_their_descriptors_witness :
  let st := Model_new accept_all nn_operands_only [] in
  let st' := snd (registerHexagonInputs [2; 3] 7 st) in
  fst (getHexagonOutputs [2; 3] st) =
    [make_hexagon_nn_output [1; 2] 1; scalar_float_output; scalar_float_output;
     make_hexagon_nn_output [2; 2] 4] /\
  Forall (registeredIn st st' [2; 3] 7 0) [2; 3].
Proof.
  cbv zeta. split; [reflexivity|].
  apply registered_handles_index_their_descriptors.
  - repeat constructor; rewrite list_elem_of_In; simpl; intuition discriminate.
  - repeat constructor; vm_compute; discriminate.
  - reflexivity.
  - reflexivity.
Defined.

Lemma registerHexagonInputs_from_blocked (l : list Z) :
  forall (node idx : Z) (st : State) (i : Z),
  In i l ->
  hexagon_nn_input_eqb (hexagon_input (operand_at (self st) i)) value_init = false ->
  fst (registerHexagonInputs_from l node idx st) = false.
Proof.
  induction l as [|j l IH]; intros node idx st i Hin Hset; [contradiction|].
  rewrite registerHexagonInputs_from_cons. cbv zeta.
  destruct (hexagon_nn_input_eqb (hexagon_input (operand_at (self st) j)) value_init) eqn:Ej;
    [|reflexivity].
  destruct (decide (Z.to_nat j = Z.to_nat i)) as [E|Hne].
  - unfold operand_at in Ej, Hset. rewrite E in Ej. congruence.
  - apply (IH _ _ _ i).
    + destruct Hin as [->|Hin]; [contradiction | exact Hin].
    + rewrite operand_at_withOperand_other by congruence. exact Hset.
Qed.

(** X11: [registerHexagonInputs] fails when an operand is listed twice: the
    second occurrence finds the handle the first one set. *)
Theorem registerHexagonInputs_refuses_a_repeated_operand (before rest : list Z)
    (i node : Z) (st : State) :
  node <> 0 -> inRange st i -> In i rest ->
  fst (registerHexagonInputs (before ++ i :: rest) node st) = false.
Proof.
  intros Hnode Hi Hin. unfold registerHexagonInputs. generalize 0 as idx. revert st Hi.
  induction before as [|j before IH]; intros st Hi idx; cbn [app];
    rewrite registerHexagonInputs_from_cons; cbv zeta;
    destruct (hexagon_nn_input_eqb _ _); try reflexivity.
  - apply (registerHexagonInputs_from_blocked rest _ _ _ i Hin).
    rewrite operand_at_withOperand_same by exact Hi.
    assert (Hh : hexagon_input (registeredAt node idx (operand_at (self st) i)) =
                 {| src_id := node; output_idx := idx |}).
    { unfold registeredAt. destruct (OperandType_eqb _ _); reflexivity. }
    rewrite Hh. unfold hexagon_nn_input_eqb. cbn [src_id value_init ValueInit_hexagon_nn_input].
    destruct (Z.eqb_spec node 0); [contradiction | reflexivity].
  - apply IH. apply inRange_withOperand. exact Hi.
Qed.

Lemma registerHexagonInputs_refuses_a_repeated_operand_witness :
  fst (registerHexagonInputs [2; 3; 2] 7 (Model_new accept_all nn_operands_only [])) = false.
Proof.
  apply (registerHexagonInputs_refuses_a_repeated_operand [] [3; 2] 2 7).
  - discriminate.
  - vm_compute. split; [discriminate | reflexivity].
  - simpl. tauto.
Defined.

Section Basic.

Variable hexagon_nn : Accelerator.

(** X12: when [addBasicOperation] succeeds, it has made exactly one call,
    [append_node] with the next node id, the inputs given and the
    descriptors of the output operands, which the accelerator accepted; the
    node counter is that id and every output operand is registered on that
    node, in the slot of its descriptor. *)
Theorem addBasicOperation_registers_its_outputs (op : op_type)
    (pad : hexagon_nn_padding_type) (ins : list hexagon_nn_input) (outs : list Z)
    (st : State) :
  let node := to_uint32 (mNodeCount (self st) + 1) in
  let c := call_append_node (mGraphId (self st)) node op pad ins
             (fst (getHexagonOutputs outs st)) in
  let st' := snd (addBasicOperation hexagon_nn op pad ins outs st) in
  NoDup outs -> Forall (inRange st) outs ->
  size_of (fst (getHexagonOutputs outs st)) < 2 ^ 32 ->
  fst (addBasicOperation hexagon_nn op pad ins outs st) = true ->
  hexagon_nn (trace st) c = 0 /\
  trace st' = trace st ++ [c] /\
  mNodeCount (self st') = node /\
  Forall (registeredIn st st' outs node 0) outs.
Proof.
  intros node c st' Hnd Hin Hroom Hok. subst st'. revert Hok.
  unfold addBasicOperation. rewrite run_bind.
  assert (Hpure : snd (getHexagonOutputs outs st) = st) by reflexivity.
  rewrite Hpure, run_bind, addOperationInternal_run.
  destruct (verifyOperationInputs ins && verifyOperationOutputs _);
    [|cbn; discriminate].
  cbv zeta. fold node. fold c. cbn [fst snd].
  destruct (Z.eqb_spec (hexagon_nn (trace st) c) 0) as [Hc|Hc]; [|cbn; discriminate].
  destruct (Z.eqb_spec 0 node) as [Hz|Hz]; cbn [negb]; [cbn; discriminate|].
  set (st2 := {| self := set_mNodeCount node (self st); trace := trace st ++ [c] |}).
  intros Hok.
  destruct (registerHexagonInputs_from_keeps outs node 0 st2 0) as (Ht & _).
  split; [exact Hc|]. split; [exact Ht|]. split.
  { clear -Hok. unfold registerHexagonInputs.
    assert (H : forall l idx s,
      mNodeCount (self (snd (registerHexagonInputs_from l node idx s))) = mNodeCount (self s)).
    { induction l as [|i l IH]; intros idx s; [reflexivity|].
      rewrite registerHexagonInputs_from_cons. cbv zeta.
      destruct (hexagon_nn_input_eqb _ _); [|reflexivity]. rewrite IH. reflexivity. }
    rewrite H. reflexivity. }
  apply (registerHexagonInputs_from_slots outs node 0 st2); try assumption; lia.
Qed.

End Basic.

Lemma addBasicOperation_registers_its_outputs_witness :
  let st := Model_new accept_all nn_operands_only [] in
  let st' := snd (addBasicOperation accept_all OP_Relu_f NN_PAD_NA
                    [{| src_id := 9; output_idx := 0 |}] [2; 3] st) in
  mNodeCount (self st') = 1 /\ Forall (registeredIn st st' [2; 3] 1 0) [2; 3].
Proof.
  cbv zeta.
  destruct (addBasicOperation_registers_its_outputs accept_all OP_Relu_f NN_PAD_NA
              [{| src_id := 9; output_idx := 0 |}] [2; 3]
              (Model_new accept_all nn_operands_only [])) as (_ & _ & Hn & Hr).
  - repeat constructor; rewrite list_elem_of_In; simpl; intuition discriminate.
  - repeat constructor; vm_compute; discriminate.
  - reflexivity.
  - reflexivity.
  - split; [exact Hn | exact Hr].
Defined.

(** ** The input node, the output node and the reset *)

Section Wiring.

Variable hexagon_nn : Accelerator.

(** X13: when [addInputs] succeeds, it has made exactly one call: an
    [OP_INPUT] node with no input and one descriptor per model input, in
    order.  The [k]-th model input then has output [k] of that node as its
    handle. *)
Theorem addInputs_wires_each_input (st : State) :
  let ins := mInputs (self st) in
  let node := to_uint32 (mNodeCount (self st) + 1) in
  let outs := map (fun i => make_hexagon_nn_output (dimensions (operand_at (self st) i))
                              (getSize (type (operand_at (self st) i)))) ins in
  let c := call_append_node (mGraphId (self st)) node OP_INPUT NN_PAD_NA [] outs in
  let st' := snd (addInputs hexagon_nn st) in
  NoDup ins -> Forall (inRange st) ins ->
  fst (addInputs hexagon_nn st) = true ->
  hexagon_nn (trace st) c = 0 /\
  trace st' = trace st ++ [c] /\
  forall k i, ins !! k = Some i ->
    hexagon_input (operand_at (self st') i) =
      {| src_id := node; output_idx := to_uint32 (Z.of_nat k) |}.
Proof.
  intros ins node outs c st' Hnd Hin. subst st'. unfold addInputs, gets.
  rewrite run_bind. cbn [fst snd]. rewrite run_bind. cbn [fst snd].
  fold ins. fold outs. rewrite run_bind, addOperationInternal_run.
  destruct (verifyOperationInputs [] && verifyOperationOutputs outs); [|cbn; discriminate].
  cbv zeta. fold node. fold c. cbn [fst snd].
  destruct (Z.eqb_spec (hexagon_nn (trace st) c) 0) as [Hc|Hc]; [|cbn; discriminate].
  destruct (Z.eqb_spec 0 node) as [Hz|Hz]; cbn [negb]; [cbn; discriminate|].
  intros _. split; [exact Hc|].
  set (st2 := {| self := set_mNodeCount node (self st); trace := trace st ++ [c] |}).
  rewrite run_bind. cbn [snd].
  set (update := fix update (l : list Z) (i : Z) : M unit :=
     match l with
     | [] => mret tt
     | x :: rest =>
         updateOperandInfo x (set_hexagon_input (node_output node (to_uint32 i)));;
         update rest (i + 1)
     end).
  assert (Hupdate : forall l start s,
    NoDup l -> Forall (inRange s) l ->
    trace (snd (update l start s)) = trace s /\
    (forall j, ~ In (Z.to_nat j) (map Z.to_nat l) ->
       operand_at (self (snd (update l start s))) j = operand_at (self s) j) /\
    forall k i, l !! k = Some i ->
      hexagon_input (operand_at (self (snd (update l start s))) i) =
        {| src_id := node; output_idx := to_uint32 (start + Z.of_nat k) |}).
  { induction l as [|x l IH]; intros start s Hl Hr.
    - repeat split. intros k i Hk. rewrite lookup_nil in Hk. discriminate.
    - apply NoDup_cons in Hl. destruct Hl as [Hx Hl].
      apply Forall_cons in Hr. destruct Hr as [Hxr Hr].
      cbn [update]. rewrite run_bind, updateOperandInfo_run. cbn [fst snd].
      change {| self := set_mOperands (alter ?f (Z.to_nat x) (mOperands (self s))) (self s);
                trace := trace s |} with (withOperand x f s).
      set (s1 := withOperand x (set_hexagon_input (node_output node (to_uint32 start))) s).
      assert (Hr1 : Forall (inRange s1) l).
      { eapply List.Forall_impl; [|exact Hr]. intros j Hj. apply inRange_withOperand, Hj. }
      destruct (IH (start + 1) s1 Hl Hr1) as (Ht & Hother & Hset).
      split; [exact Ht|]. split.
      + intros j Hj. cbn [map In] in Hj. rewrite Hother by tauto.
        apply operand_at_withOperand_other. intros E. apply Hj. left. congruence.
      + intros [|k] i Hk; cbn in Hk.
        * injection Hk as <-. rewrite Hother.
          -- unfold s1. rewrite operand_at_withOperand_same by exact Hxr.
             rewrite Z.add_0_r. reflexivity.
          -- apply to_nat_distinct; [apply Hxr | | rewrite list_elem_of_In in Hx; exact Hx].
             eapply List.Forall_impl; [|exact Hr]. intros j Hj. apply Hj.
        * rewrite (Hset k i Hk). do 2 f_equal. lia. }
  destruct (Hupdate ins 0 st2 Hnd) as (Ht & _ & Hset).
  { eapply List.Forall_impl; [|exact Hin]. intros j Hj. exact Hj. }
  change (snd ((mret true : M bool) (snd (update ins 0 st2)))) with (snd (update ins 0 st2)).
  split; [exact Ht|]. intros k i Hk. rewrite (Hset k i Hk). reflexivity.
Qed.

Lemma outputHandles_unset (m : Model) (outs : list Z) :
  In value_init (map (fun i => hexagon_input (operand_at m i)) outs) ->
  outputHandles m outs = None.
Proof.
  induction outs as [|i outs IH]; cbn [map In outputHandles]; [contradiction|].
  intros [E|Hin].
  - rewrite E. reflexivity.
  - destruct (negb _); [|reflexivity]. rewrite (IH Hin). reflexivity.
Qed.

Lemma outputHandles_set (m : Model) (outs : list Z) (handles : list hexagon_nn_input) :
  outputHandles m outs = Some handles ->
  handles = map (fun i => hexagon_input (operand_at m i)) outs.
Proof.
  revert handles. induction outs as [|i outs IH]; intros handles; cbn [map outputHandles].
  - intros E. injection E as <-. reflexivity.
  - destruct (negb _); [|discriminate].
    destruct (outputHandles m outs) as [hs|]; [|discriminate].
    intros E. injection E as <-. rewrite (IH hs eq_refl). reflexivity.
Qed.

(** X14: [addOutputs] fails, and changes nothing, when a model output
    has no handle.  When it succeeds it has made one call: an [OP_OUTPUT]
    node with the next node id, whose inputs are the handles of the model
    outputs, in order, and which has no output; nothing else changed. *)
Theorem addOutputs_collects_the_output_handles (st : State) :
  let handles := map (fun i => hexagon_input (operand_at (self st) i)) (mOutputs (self st)) in
  let node := to_uint32 (mNodeCount (self st) + 1) in
  let c := call_append_node (mGraphId (self st)) node OP_OUTPUT NN_PAD_NA handles [] in
  (In value_init handles -> addOutputs hexagon_nn st = (false, st)) /\
  (fst (addOutputs hexagon_nn st) = true ->
   hexagon_nn (trace st) c = 0 /\
   snd (addOutputs hexagon_nn st) =
     {| self := set_mNodeCount node (self st); trace := trace st ++ [c] |}).
Proof.
  cbv zeta. unfold addOutputs, gets. rewrite run_bind. cbn [fst snd]. split.
  - intros Hin. rewrite outputHandles_unset by exact Hin. reflexivity.
  - destruct (outputHandles (self st) (mOutputs (self st))) as [handles|] eqn:E;
      [|cbn; discriminate].
    apply outputHandles_set in E. subst handles.
    rewrite run_bind. unfold addBasicOperation. rewrite run_bind.
    assert (Hpure : getHexagonOutputs [] st = ([], st)) by reflexivity.
    rewrite Hpure. cbn [fst snd]. rewrite run_bind, addOperationInternal_run.
    destruct (verifyOperationInputs _ && verifyOperationOutputs []); [|cbn; discriminate].
    cbv zeta. cbn [fst snd].
    destruct (Z.eqb_spec (hexagon_nn (trace st)
      (call_append_node (mGraphId (self st)) (to_uint32 (mNodeCount (self st) + 1))
         OP_OUTPUT NN_PAD_NA
         (map (fun i => hexagon_input (operand_at (self st) i)) (mOutputs (self st))) [])) 0)
      as [Hc|Hc]; [|cbn; discriminate].
    destruct (Z.eqb_spec 0 (to_uint32 (mNodeCount (self st) + 1))); cbn [negb];
      [cbn; discriminate|].
    intros _. split; [exact Hc | reflexivity].
Qed.

Lemma operand_at_resetModel (st : State) (i : Z) :
  operand_at (self (snd (resetModel hexagon_nn st))) i =
  resetOperand (operand_at (self st) i).
Proof.
  rewrite resetModel_run. cbv zeta. cbn [snd self set_mGraphId set_mOperands mOperands].
  unfold operand_at, set_mGraphId, set_mOperands. cbn [mOperands].
  change (map resetOperand (mOperands (self st)))
    with (resetOperand <$> mOperands (self st)).
  rewrite list_lookup_fmap.
  destruct (mOperands (self st) !! Z.to_nat i); reflexivity.
Qed.

(** X15: [resetModel] tears the session down when there is one, opens a new
    one and sets its debug level; it clears the input handles, but it leaves
    the node counter and the handles of the quantization ranges as they were:
    [getQuantizationMin] on the new session still answers the handle it made
    in the old one, without creating a node. *)
Theorem resetModel_keeps_the_counter_and_the_ranges (st : State) (i : Z) :
  let st' := snd (resetModel hexagon_nn st) in
  let o := operand_at (self st) i in
  let id := mGraphId (self st) in
  let closed := if id =? hexagon_nn_nn_id_none then [] else [call_teardown id] in
  let id' := hexagon_nn (trace st ++ closed) call_init in
  hexagon_nn_input_eqb (hexagon_input_min o) value_init = false ->
  trace st' = trace st ++ closed ++ [call_init; call_set_debug_level id' 99] /\
  mGraphId (self st') = id' /\
  mNodeCount (self st') = mNodeCount (self st) /\
  hexagon_input (operand_at (self st') i) = value_init /\
  getQuantizationMin hexagon_nn i st' = (hexagon_input_min o, st').
Proof.
  cbv zeta. intros Hset.
  pose proof (operand_at_resetModel st i) as Ho.
  split; [|split; [|split; [|split]]].
  - rewrite resetModel_run. cbv zeta. cbn [snd trace].
    destruct (mGraphId (self st) =? hexagon_nn_nn_id_none); cbn [negb];
      rewrite ?app_nil_r, <- ?app_assoc; reflexivity.
  - rewrite resetModel_run. cbv zeta. cbn [snd self set_mGraphId mGraphId].
    destruct (mGraphId (self st) =? hexagon_nn_nn_id_none); cbn [negb];
      rewrite ?app_nil_r; reflexivity.
  - rewrite resetModel_run. reflexivity.
  - rewrite Ho. reflexivity.
  - rewrite getQuantizationMin_cached; rewrite Ho; [reflexivity | exact Hset].
Qed.

End Wiring.

Lemma addInputs_wires_each_input_witness :
  let st := Model_new accept_all nn_add_after_relu [] in
  let st' := snd (addInputs accept_all st) in
  hexagon_input (operand_at (self st') 1) = {| src_id := 1; output_idx := 0 |} /\
  hexagon_input (operand_at (self st') 4) = {| src_id := 1; output_idx := 1 |}.
Proof.
  cbv zeta.
  destruct (addInputs_wires_each_input accept_all (Model_new accept_all nn_add_after_relu []))
    as (_ & _ & H).
  - repeat constructor; rewrite list_elem_of_In; simpl; intuition discriminate.
  - repeat constructor; vm_compute; discriminate.
  - reflexivity.
  - split; [exact (H 0%nat 1 eq_refl) | exact (H 1%nat 4 eq_refl)].
Defined.

Lemma addOutputs_collects_the_output_handles_witness :
  let st := Model_new accept_all nn_relu [] in
  let built := snd (float32_relu accept_all [0] [1] (snd (addInputs accept_all st))) in
  addOutputs accept_all st = (false, st) /\
  trace (snd (addOutputs accept_all built)) =
    trace built ++ [call_append_node 1 3 OP_OUTPUT NN_PAD_NA
                      [{| src_id := 2; output_idx := 0 |}] []].
Proof.
  cbv zeta. split.
  - apply (addOutputs_collects_the_output_handles accept_all (Model_new accept_all nn_relu [])).
    simpl. tauto.
  - destruct (addOutputs_collects_the_output_handles accept_all
                (snd (float32_relu accept_all [0] [1]
                        (snd (addInputs accept_all (Model_new accept_all nn_relu []))))))
      as [_ H].
    destruct (H eq_refl) as [_ Hs]. rewrite Hs. reflexivity.
Defined.

Lemma resetModel_keeps_the_counter_and_the_ranges_witness :
  let st := snd (getQuantizationMin accept_all 0 (Model_new accept_all nn_tanh_quant8 [])) in
  let st' := snd (resetModel accept_all st) in
  mNodeCount (self st') = 1 /\
  getQuantizationMin accept_all 0 st' = ({| src_id := 1; output_idx := 0 |}, st').
Proof.
  cbv zeta.
  destruct (resetModel_keeps_the_counter_and_the_ranges accept_all
              (snd (getQuantizationMin accept_all 0 (Model_new accept_all nn_tanh_quant8 [])))
              0) as (_ & _ & Hn & _ & Hq).
  - reflexivity.
  - split; [exact Hn | exact Hq].
Defined.

(** ** The two tables, and what a check writes *)

(** X16: the lowering table against the check table.  Every pair with a
    lowering function is a kind with a check function, on [TENSOR_FLOAT32] or
    [TENSOR_QUANT8_ASYMM] operands.  Of the kinds with a check function, the
    only one without a float lowering is [DEQUANTIZE], and the ones without
    a quantized lowering are [L2_POOL_2D], [LOCAL_RESPONSE_NORMALIZATION],
    [RESIZE_BILINEAR] and [TANH]. *)
Theorem lowering_table_against_check_table (hexagon_nn : Accelerator)
    (U : OperationsUtils) (t : OperationType) :
  (forall ty, hasLoweringFunction hexagon_nn U t ty = true ->
     hasCheckFunction U t = true /\ (ty = TENSOR_FLOAT32 \/ ty = TENSOR_QUANT8_ASYMM)) /\
  (hasCheckFunction U t = true ->
     (hasLoweringFunction hexagon_nn U t TENSOR_FLOAT32 = false <-> t = DEQUANTIZE) /\
     (hasLoweringFunction hexagon_nn U t TENSOR_QUANT8_ASYMM = false <->
        In t [L2_POOL_2D; LOCAL_RESPONSE_NORMALIZATION; RESIZE_BILINEAR; TANH])).
Proof.
  split.
  - intros ty. destruct t, ty; cbn; intros H; try discriminate H; auto.
  - destruct t; cbn; intros H; try discriminate H;
      repeat split; intros E; try discriminate E; try reflexivity; auto;
      intuition discriminate.
Qed.

Lemma lowering_table_against_check_table_witness :
  hasCheckFunction example_utils DEQUANTIZE = true /\
  hasLoweringFunction accept_all example_utils DEQUANTIZE TENSOR_FLOAT32 = false /\
  hasLoweringFunction accept_all example_utils RESIZE_BILINEAR TENSOR_QUANT8_ASYMM = false.
Proof.
  destruct (lowering_table_against_check_table accept_all example_utils DEQUANTIZE)
    as [Hup Hdown].
  destruct (Hup TENSOR_QUANT8_ASYMM eq_refl) as [Hcheck _].
  destruct (Hdown Hcheck) as [Hf _].
  destruct (lowering_table_against_check_table accept_all example_utils RESIZE_BILINEAR)
    as [_ Hdown'].
  destruct (Hdown' eq_refl) as [_ Hq].
  split; [exact Hcheck|]. split; [apply Hf; reflexivity|].
  apply Hq. simpl. tauto.
Defined.

Section Footprint.

Variable U : OperationsUtils.
Variable out : Z.

Lemma set_dimensions_same (o : OperandInfo) : set_dimensions (dimensions o) o = o.
Proof. destruct o. reflexivity. Qed.

Lemma withOperand_fixed (i : Z) (f : OperandInfo -> OperandInfo) (st : State) :
  (forall o, mOperands (self st) !! Z.to_nat i = Some o -> f o = o) ->
  withOperand i f st = st.
Proof.
  intros H. unfold withOperand. rewrite alter_fixed by exact H.
  destruct st as [[] ?]. reflexivity.
Qed.

Lemma wroteDimensionsOf_refl st : wroteDimensionsOf out st st.
Proof.
  exists (dimensions (operand_at (self st) out)). symmetry. apply withOperand_fixed.
  intros o Ho. unfold operand_at. rewrite Ho. apply set_dimensions_same.
Qed.

Lemma wroteDimensionsOf_trans a b c :
  wroteDimensionsOf out a b -> wroteDimensionsOf out b c -> wroteDimensionsOf out a c.
Proof.
  intros [d1 ->] [d2 ->]. exists d2. unfold withOperand.
  cbn [self set_mOperands mOperands trace]. rewrite list_alter_twice. reflexivity.
Qed.

Lemma wroteDimensionsOf_setShape s : moves (wroteDimensionsOf out) (setShape out s).
Proof.
  intros st. unfold setShape, getOperand, gets. rewrite run_bind. cbn [fst snd].
  destruct (hexagon_nn_output_eqb _ _); [|apply wroteDimensionsOf_refl].
  rewrite run_bind, updateOperandInfo_run. cbn [fst snd].
  exists (shape_dimensions s). reflexivity.
Qed.

Lemma wroteDimensionsOf_commitShape p k :
  moves (wroteDimensionsOf out) k -> moves (wroteDimensionsOf out) (commitShape p out k).
Proof.
  intros Hk. unfold commitShape. destruct p as [outShape|];
    [|apply steps_mret, wroteDimensionsOf_refl].
  apply steps_bind; [apply wroteDimensionsOf_trans | apply wroteDimensionsOf_setShape|].
  intros [|]; [exact Hk | apply steps_mret, wroteDimensionsOf_refl].
Qed.

End Footprint.

Ltac reads :=
  first [ apply steps_getShape | apply steps_getScalar_int32 | apply steps_getPointer
        | apply steps_isConstant | apply steps_check_getShapes ];
  solve [ apply wroteDimensionsOf_refl | apply wroteDimensionsOf_trans ].

Ltac footprint :=
  repeat match goal with
  | |- moves _ (mret _) => apply steps_mret, wroteDimensionsOf_refl
  | |- moves _ (commitShape _ _ _) => apply wroteDimensionsOf_commitShape
  | |- moves _ (_ ≫= _) => apply steps_bind; [ apply wroteDimensionsOf_trans | | intros ]
  | |- moves _ (if ?c then _ else _) => destruct c
  | |- moves _ (match ?x with _ => _ end) => destruct x eqn:?
  | |- moves _ _ => reads
  end.

Lemma wroteDimensionsOf_check (U : OperationsUtils) (t : OperationType)
    (f : list Z -> list Z -> M bool) (ins outs : list Z) :
  getOperationCheckTable U t = Some f ->
  moves (wroteDimensionsOf (at_ outs 0)) (f ins outs).
Proof.
  intros E.
  destruct t; simpl in E; inversion E; subst; clear E;
    unfold check_add, check_mul, check_addMul, check_average_pool_2d, check_l2_pool_2d,
      check_max_pool_2d, check_pool, check_concatenation, check_conv_2d,
      check_depthwise_conv_2d, check_convolution, check_dequantize,
      check_fully_connected, check_local_response_normalization, check_logistic,
      check_relu, check_relu1, check_relu6, check_softmax, check_tanh,
      check_activation, check_reshape, check_resize_bilinear;
    footprint.
Qed.

(** X17: checking one operation writes at most the dimensions of the
    operation's first output operand: whatever the kind and the answer, the
    state afterwards is the state before with new dimensions for that
    operand (the accelerator is not called, no other operand or field
    changes). *)
Theorem a_check_writes_one_operand_only (U : OperationsUtils) (operation : Operation)
    (st : State) :
  let st' := snd (supportedOperation U operation st) in
  exists d, st' = withOperand (at_ (outputs operation) 0) (set_dimensions d) st.
Proof.
  cbv zeta. unfold supportedOperation.
  destruct (getOperationCheckTable U (operation_type operation)) as [f|] eqn:E.
  - eapply wroteDimensionsOf_check. exact E.
  - apply wroteDimensionsOf_refl.
Qed.

(** ** The description of the model *)

Lemma sameDescription_refl st : sameDescription st st.
Proof. unfold sameDescription. repeat split; reflexivity. Qed.

Lemma sameDescription_trans a b c :
  sameDescription a b -> sameDescription b c -> sameDescription a c.
Proof. unfold sameDescription. intuition congruence. Qed.

Lemma sameDescription_update (i : Z) (f : OperandInfo -> OperandInfo) :
  (forall o, declared (f o) = declared o) ->
  moves sameDescription (updateOperandInfo i f).
Proof.
  intros Hf st. rewrite updateOperandInfo_run. unfold sameDescription.
  cbn [snd self set_mOperands mOperations mInputs mOutputs mPools mOperands].
  repeat split. apply map_alter_absorbed. exact Hf.
Qed.

Lemma declared_updateOperand arg pools o : declared (updateOperand arg pools o) = declared o.
Proof. unfold updateOperand. destruct (0 <? _); reflexivity. Qed.

Ltac described :=
  try apply sameDescription_refl; try apply sameDescription_trans;
  try (intros; apply sameDescription_update; intros;
       solve [reflexivity | apply declared_updateOperand]);
  try (intros; intros st;
       rewrite ?createTensorInternal_run, ?addOperationInternal_run, ?controller_run,
         ?resetModel_run;
       repeat match goal with |- context [if ?c then _ else _] => destruct c end;
       unfold sameDescription;
       cbn [snd self set_mNodeCount set_mGraphId set_mCompiled set_mOperands
            mOperations mInputs mOutputs mPools mOperands];
       repeat split; rewrite ?map_map; reflexivity).

Section Description.

Variable hexagon_nn : Accelerator.
Variable U : OperationsUtils.


Lemma sameDescription_verifyOperations : moves sameDescription (verifyOperations U).
Proof. apply steps_verifyOperations; described. Qed.

Lemma sameDescription_addInputs : moves sameDescription (addInputs hexagon_nn).
Proof. apply steps_addInputs; described. Qed.

Lemma sameDescription_lowering t ty f ins outs :
  getOperationPrepareTable hexagon_nn U t ty = Some f ->
  moves sameDescription (f ins outs).
Proof. intros E. eapply steps_lowering; try exact E; described. Qed.

Lemma declared_type (st st' : State) (i : Z) :
  sameDescription st st' ->
  type (operand_at (self st') i) = type (operand_at (self st) i).
Proof.
  intros (_ & _ & _ & _ & H). unfold operand_at.
  assert (E : declared <$> mOperands (self st') !! Z.to_nat i =
              declared <$> mOperands (self st) !! Z.to_nat i).
  { rewrite <- !list_lookup_fmap. f_equal. exact H. }
  destruct (mOperands (self st') !! Z.to_nat i), (mOperands (self st) !! Z.to_nat i);
    simpl in *; try discriminate E; [|reflexivity].
  injection E as E. unfold declared in E. congruence.
Qed.

Lemma addOperations_from_without_lowering (l : list Operation) :
  forall (st0 st : State) (operation : Operation),
  sameDescription st0 st -> In operation l ->
  hasLoweringFunction hexagon_nn U (operation_type operation)
    (type (operand_at (self st0) (at_ (inputs operation) 0))) = false ->
  fst (addOperations_from hexagon_nn U l st) = false.
Proof.
  induction l as [|o l IH]; intros st0 st operation Hsame Hin Hnone; [contradiction|].
  cbn [addOperations_from]. unfold getOperand, gets. rewrite run_bind. cbn [fst snd].
  destruct (getOperationPrepareTable hexagon_nn U (operation_type o)
              (type (operand_at (self st) (at_ (inputs o) 0)))) as [lower|] eqn:E;
    [|reflexivity].
  destruct Hin as [->|Hin].
  - unfold hasLoweringFunction in Hnone.
    rewrite <- (declared_type st0 st _ Hsame), E in Hnone. discriminate.
  - rewrite run_bind. destruct (fst (lower (inputs o) (outputs o) st)); [|reflexivity].
    apply (IH st0 _ operation); [|exact Hin | exact Hnone].
    eapply sameDescription_trans; [exact Hsame|].
    eapply sameDescription_lowering. exact E.
Qed.

(** X18: a model that holds an operation for which the lowering table has no
    function, at the type of the operation's first input, cannot be built:
    [addOperations], the whole construction and [compile] return false,
    whatever the accelerator answers and whatever [supportedOperations]
    said. *)
Theorem compile_fails_without_a_lowering_function (operation : Operation) (st : State) :
  In operation (mOperations (self st)) ->
  hasLoweringFunction hexagon_nn U (operation_type operation)
    (type (operand_at (self st) (at_ (inputs operation) 0))) = false ->
  fst (addOperations hexagon_nn U st) = false /\
  fst (buildGraph hexagon_nn U st) = false /\
  fst (compile hexagon_nn U st) = false.
Proof.
  intros Hin Hnone.
  assert (Hadd : forall s, sameDescription st s -> fst (addOperations hexagon_nn U s) = false).
  { intros s Hs. unfold addOperations, gets. rewrite run_bind. cbn [fst snd].
    apply (addOperations_from_without_lowering _ st s operation Hs); [|exact Hnone].
    destruct Hs as (-> & _). exact Hin. }
  assert (Hbuild : forall s, sameDescription st s -> fst (buildGraph hexagon_nn U s) = false).
  { intros s Hs. unfold buildGraph. rewrite run_bind.
    destruct (fst (addInputs hexagon_nn s)); cbn [negb]; [|reflexivity].
    rewrite run_bind, Hadd; [reflexivity|].
    eapply sameDescription_trans; [exact Hs | apply sameDescription_addInputs]. }
  split; [apply Hadd, sameDescription_refl|].
  split; [apply Hbuild, sameDescription_refl|].
  unfold compile. rewrite run_bind.
  destruct (fst (verifyOperations U st)); cbn [negb]; [|reflexivity].
  rewrite run_bind.
  assert (Hpure : forall s, snd (verifyOperands s) = s) by reflexivity.
  rewrite Hpure.
  destruct (fst (verifyOperands _)); cbn [negb]; [|reflexivity].
  rewrite run_bind, Hbuild; [|apply sameDescription_verifyOperations].
  cbn [negb]. rewrite run_bind. reflexivity.
Qed.


End Description.

Lemma compile_fails_without_a_lowering_function_witness :
  let st := Model_new accept_all nn_tanh_quant8 [] in
  fst (supportedOperations example_utils st) = [true] /\
  fst (compile accept_all example_utils st) = false.
Proof.
  cbv zeta. split; [reflexivity|].
  apply (compile_fails_without_a_lowering_function accept_all example_utils
           {| operation_type := TANH; inputs := [0]; outputs := [1] |}).
  - simpl. tauto.
  - reflexivity.
Defined.

(** ** Execution and the HAL entry points *)








Section Service.

Variable hexagon_nn : Accelerator.
Variable U : OperationsUtils.



End Service.



(** ** A controller without its library *)

Section Unloaded.

Variable lib : Accelerator.
Variable U : OperationsUtils.

Lemma noSession_invoke method : moves noSession (invoke (withoutLibrary lib) U method).
Proof.
  apply steps_invoke; unfold moves, noSession; intros;
    rewrite ?updateOperandInfo_run, ?createTensorInternal_run,
      ?addOperationInternal_run, ?controller_run, ?resetModel_run;
    repeat match goal with |- context [if ?c then _ else _] => destruct c end;
    simpl; auto; congruence.
Qed.

Lemma reachable_noSession st :
  reachable (withoutLibrary lib) U st -> mGraphId (self st) = hexagon_nn_nn_id_none.
Proof.
  induction 1 as [model calls|st method _ IH|st _ IH|st _ IH].
  - reflexivity.
  - apply noSession_invoke. exact IH.
  - exact IH.
  - reflexivity.
Qed.

(** X23: when the controller could load no entry point of the library, every
    model that can be reached has the empty graph id, [compile] and
    [execute] on it return false, and destroying it makes no call. *)
Theorem nothing_succeeds_without_the_library (st : State) (request : Request) :
  reachable (withoutLibrary lib) U st ->
  mGraphId (self st) = hexagon_nn_nn_id_none /\
  fst (compile (withoutLibrary lib) U st) = false /\
  fst (execute (withoutLibrary lib) request st) = false /\
  Model_delete (withoutLibrary lib) st = (tt, st).
Proof.
  intros Hreach. pose proof (reachable_noSession st Hreach) as Hid.
  split; [exact Hid|]. split.
  - apply rejected_compile. intros calls c Hc. destruct c; try discriminate Hc.
    cbn. discriminate.
  - split.
    + destruct (execute_never_compiles (withoutLibrary lib) request st) as (ins & outs & _ & Hr).
      cbv zeta in Hr. rewrite Hr. reflexivity.
    + rewrite Model_delete_run, Hid. destruct st. reflexivity.
Qed.

End Unloaded.

Lemma nothing_succeeds_without_the_library_witness :
  let unloaded := withoutLibrary accept_all in
  let st := snd (invoke unloaded example_utils call_compile
                   (Model_new unloaded nn_relu [])) in
  mGraphId (self st) = hexagon_nn_nn_id_none /\
  fst (execute unloaded request_relu st) = false.
Proof.
  cbv zeta.
  destruct (nothing_succeeds_without_the_library accept_all example_utils
              (snd (invoke (withoutLibrary accept_all) example_utils call_compile
                      (Model_new (withoutLibrary accept_all) nn_relu [])))
              request_relu) as (Hid & _ & He & _).
  - apply reachable_invoke, reachable_new.
  - split; [exact Hid | exact He].
Defined.

(** ** What a lowering leaves in the output operands *)

Lemma sameDescription_inRange (st st' : State) (i : Z) :
  sameDescription st st' -> inRange st i -> inRange st' i.
Proof.
  intros (_ & _ & _ & _ & H). unfold inRange, size_of.
  apply (f_equal (@length _)) in H. rewrite !length_map in H. rewrite H. tauto.
Qed.

Lemma hexagon_input_registeredAt (node idx : Z) (o : OperandInfo) :
  hexagon_input (registeredAt node idx o) = {| src_id := node; output_idx := idx |}.
Proof. unfold registeredAt. destruct (OperandType_eqb _ _); reflexivity. Qed.

Lemma node_handle_is_set (node idx : Z) :
  node <> 0 -> hexagon_nn_input_eqb {| src_id := node; output_idx := idx |} value_init = false.
Proof.
  intros Hn. unfold hexagon_nn_input_eqb. cbn [src_id value_init ValueInit_hexagon_nn_input].
  destruct (Z.eqb_spec node 0); [contradiction | reflexivity].
Qed.

Lemma registerHexagonInputs_from_wires (l : list Z) :
  forall (node idx : Z) (st : State) (i : Z),
  node <> 0 -> In i l -> inRange st i ->
  fst (registerHexagonInputs_from l node idx st) = true ->
  hexagon_nn_input_eqb
    (hexagon_input (operand_at (self (snd (registerHexagonInputs_from l node idx st))) i))
    value_init = false.
Proof.
  induction l as [|j l IH]; intros node idx st i Hnode Hin Hi Hok; [contradiction|].
  rewrite registerHexagonInputs_from_cons in *. cbv zeta in *.
  destruct (hexagon_nn_input_eqb (hexagon_input (operand_at (self st) j)) value_init);
    [|discriminate Hok].
  set (st1 := withOperand j (registeredAt node idx) st) in *.
  set (idx1 := to_uint32 (idx + slotsOf (operand_at (self st) j))) in *.
  destruct (in_dec Z.eq_dec i l) as [Hl|Hl].
  - apply IH; try assumption. apply inRange_withOperand. exact Hi.
  - destruct Hin as [->|Hin]; [|contradiction].
    assert (Hset : hexagon_nn_input_eqb (hexagon_input (operand_at (self st1) i)) value_init
                   = false).
    { unfold st1. rewrite operand_at_withOperand_same by exact Hi.
      rewrite hexagon_input_registeredAt. apply node_handle_is_set. exact Hnode. }
    destruct (in_dec Nat.eq_dec (Z.to_nat i) (map Z.to_nat l)) as [Hnat|Hnat].
    + apply in_map_iff in Hnat. destruct Hnat as (j' & Hj' & Hin').
      rewrite (registerHexagonInputs_from_blocked l node idx1 st1 j' Hin') in Hok;
        [discriminate Hok|].
      unfold operand_at in *. rewrite Hj'. exact Hset.
    + destruct (registerHexagonInputs_from_keeps l node idx1 st1 i) as (_ & _ & _ & _ & Hkeep).
      rewrite (Hkeep Hnat). exact Hset.
Qed.

Section Wires.

Variable hexagon_nn : Accelerator.
Variable U : OperationsUtils.
Variable outs : list Z.

Ltac described_step :=
  first
    [ apply steps_gets | apply steps_getOperand | apply steps_getShape
    | apply steps_getScalar_int32 | apply steps_getFloatActivation
    | apply steps_getQuantizedActivation | apply steps_getHexagonOutputs
    | apply steps_getTensor | apply steps_getQuantizationMin
    | apply steps_getQuantizationMax | apply steps_createQuantizationValue
    | apply steps_createConvFilterTensor | apply steps_createDepthwiseFilterTensor
    | apply steps_createFullyConnectedWeightTensor | apply steps_createShape
    | apply steps_createTensor_float | apply steps_createValues_float
    | apply steps_createValues_int32 | apply steps_createScalar_float
    | apply steps_createScalar_int32 | apply steps_setupActivationArgs
    | apply steps_quantizedTensor ];
  described.

Ltac description :=
  first [ described_step | apply steps_mapM; described; described_step ].

Lemma sameDescription_addOperationInternal op pad ins descriptors :
  moves sameDescription (addOperationInternal hexagon_nn op pad ins descriptors).
Proof. described. Qed.

Lemma wiresOutputs_bind {A} (m : M A) (k : A -> M bool) :
  moves sameDescription m -> (forall a, wiresOutputs outs (k a)) ->
  wiresOutputs outs (m ≫= k).
Proof.
  intros Hm Hk st i Hin Hi. rewrite run_bind. apply Hk; [exact Hin|].
  eapply sameDescription_inRange; [apply Hm | exact Hi].
Qed.

Lemma wiresOutputs_node (m : M Z) (k : Z -> M bool) :
  moves sameDescription m -> (forall node, node <> 0 -> wiresOutputs outs (k node)) ->
  wiresOutputs outs (m ≫= fun node => if negb (0 =? node) then k node else mret value_init).
Proof.
  intros Hm Hk st i Hin Hi. rewrite run_bind.
  destruct (Z.eqb_spec 0 (fst (m st))) as [E|E]; cbn [negb]; [cbn; discriminate|].
  apply Hk; [congruence | exact Hin|].
  eapply sameDescription_inRange; [apply Hm | exact Hi].
Qed.

Lemma wiresOutputs_false : wiresOutputs outs (mret value_init).
Proof. intros st i _ _. cbn. discriminate. Qed.

Lemma wiresOutputs_registerHexagonInputs node :
  node <> 0 -> wiresOutputs outs (registerHexagonInputs outs node).
Proof.
  intros Hnode st i Hin Hi Hok. unfold registerHexagonInputs in *.
  apply registerHexagonInputs_from_wires; assumption.
Qed.

Ltac wires :=
  repeat match goal with
  | |- wiresOutputs _ (mret value_init) => apply wiresOutputs_false
  | |- wiresOutputs _ (registerHexagonInputs _ _) =>
      apply wiresOutputs_registerHexagonInputs; assumption
  | |- wiresOutputs _ (if ?c then _ else _) => destruct c
  | |- wiresOutputs _ (_ ≫= fun node => if negb (0 =? node) then _ else mret value_init) =>
      apply wiresOutputs_node;
      [ first [ apply sameDescription_addOperationInternal
              | match goal with |- moves _ (if ?c then _ else _) => destruct c end;
                [ apply sameDescription_addOperationInternal
                | apply steps_mret, sameDescription_refl ] ]
      | intros ]
  | |- wiresOutputs _ (_ ≫= _) => apply wiresOutputs_bind; [ description | intros ]
  end.

Lemma wiresOutputs_addBasicOperation op pad ins :
  wiresOutputs outs (addBasicOperation hexagon_nn op pad ins outs).
Proof. unfold addBasicOperation. wires. Qed.

Lemma wiresOutputs_addFloatOperationWithActivation op pad act ins :
  wiresOutputs outs (addFloatOperationWithActivation hexagon_nn op pad act ins outs).
Proof. unfold addFloatOperationWithActivation. wires. Qed.

Lemma wiresOutputs_addQuant8OperationWithActivation op pad act ins :
  wiresOutputs outs (addQuant8OperationWithActivation hexagon_nn op pad act ins outs).
Proof. unfold addQuant8OperationWithActivation. wires. Qed.

Lemma wiresOutputs_addFusedFloatOperation op pad bias act ins :
  wiresOutputs outs (addFusedFloatOperation hexagon_nn op pad bias act ins outs).
Proof. unfold addFusedFloatOperation. wires. Qed.

Lemma wiresOutputs_addFusedQuant8Operation op pad bias act ins :
  wiresOutputs outs (addFusedQuant8Operation hexagon_nn op pad bias act ins outs).
Proof. unfold addFusedQuant8Operation. wires. Qed.

Ltac lowered :=
  wires;
  first [ apply wiresOutputs_addBasicOperation
        | apply wiresOutputs_addFloatOperationWithActivation
        | apply wiresOutputs_addQuant8OperationWithActivation
        | apply wiresOutputs_addFusedFloatOperation
        | apply wiresOutputs_addFusedQuant8Operation ].

Lemma wiresOutputs_lowering t ty f ins :
  getOperationPrepareTable hexagon_nn U t ty = Some f -> wiresOutputs outs (f ins outs).
Proof.
  destruct ty, t; simpl; intros E; inversion E; subst; clear E;
    unfold float32_add, float32_average_pool_2d, float32_l2_pool_2d,
      float32_max_pool_2d, float32_pool, float32_concatenation, float32_conv_2d,
      float32_depthwise_conv_2d, float32_fully_connected,
      float32_local_response_normalization, float32_logistic, float32_relu,
      float32_tanh, float32_unary, float32_mul, float32_relu1, float32_relu6,
      float32_reshape, float32_resize_bilinear, float32_softmax,
      quant8_asym_add, quant8_asym_mul, quant8_asym_addMul,
      quant8_asym_average_pool_2d, quant8_asym_max_pool_2d, quant8_asym_pool,
      quant8_asym_concatenation, quant8_asym_conv_2d,
      quant8_asym_depthwise_conv_2d, quant8_asym_dequantize, quant8_asym_relu,
      quant8_asym_unary, quant8_asym_fully_connected, quant8_asym_logistic,
      quant8_asym_relu1, quant8_asym_relu6, quant8_asym_reshape,
      quant8_asym_softmax; lowered.
Qed.

End Wires.

(** X24: whichever lowering function of the table runs, when it succeeds
    every output operand of the operation has a handle set, which later
    operations and [addOutputs] read. *)
Theorem a_lowering_registers_its_outputs (hexagon_nn : Accelerator) (U : OperationsUtils)
    (t : OperationType) (ty : OperandType) (lower : list Z -> list Z -> M bool)
    (ins outs : list Z) (st : State) (i : Z) :
  getOperationPrepareTable hexagon_nn U t ty = Some lower ->
  In i outs -> inRange st i ->
  fst (lower ins outs st) = true ->
  hexagon_nn_input_eqb (hexagon_input (operand_at (self (snd (lower ins outs st))) i))
    value_init = false.
Proof.
  intros Hlower Hin Hi Hok.
  apply (wiresOutputs_lowering hexagon_nn U outs t ty lower ins Hlower); assumption.
Qed.

Lemma a_lowering_registers_its_outputs_witness :
  let st := snd (addInputs accept_all (Model_new accept_all nn_relu [])) in
  hexagon_nn_input_eqb
    (hexagon_input (operand_at (self (snd (float32_relu accept_all [0] [1] st))) 1))
    value_init = false.
Proof.
  cbv zeta.
  apply (a_lowering_registers_its_outputs accept_all example_utils RELU TENSOR_FLOAT32
           (float32_relu accept_all) [0] [1]).
  - reflexivity.
  - simpl. tauto.
  - vm_compute. split; [discriminate | reflexivity].
  - reflexivity.
Defined.

(** ** Checks on a model that can be reached *)

Section Accepts.

Variable hexagon_nn : Accelerator.
Variable U : OperationsUtils.

(** X25: on a model that can be reached, a check of the activation family
    ([logistic], [relu], [relu1], [relu6], [tanh] with one input, [softmax]
    with two) accepts exactly when the numbers of inputs and outputs are the
    expected ones and [genericActivationPrepare] accepts the shapes; it then
    has written the dimensions of the shape the validator gave into the
    output operand, and nothing else. *)
Theorem an_activation_check_follows_its_validator (ins outs : list Z) (n : Z)
    (op : OperationType) (st : State) :
  let inShape := fst (getShape (at_ ins 0) st) in
  let outShape := fst (getShape (at_ outs 0) st) in
  let prepared := genericActivationPrepare U inShape outShape in
  reachable hexagon_nn U st ->
  fst (check_activation U ins outs n op st) =
    (n =? size_of ins) && (1 =? size_of outs) &&
    match prepared with Some _ => true | None => false end /\
  (forall shape, n = size_of ins -> size_of outs = 1 -> prepared = Some shape ->
   snd (check_activation U ins outs n op st) =
     withOperand (at_ outs 0) (set_dimensions (shape_dimensions shape)) st).
Proof.
  intros inShape outShape prepared Hreach.
  pose proof (fun s => setShape_succeeds hexagon_nn U (at_ outs 0) s st Hreach) as Hset.
  assert (Hrun : check_activation U ins outs n op st =
    if n =? size_of ins then
      if 1 =? size_of outs then commitShape prepared (at_ outs 0) (mret true) st
      else (false, st)
    else (false, st)).
  { unfold check_activation. destruct (n =? size_of ins); [|reflexivity].
    destruct (1 =? size_of outs); [|reflexivity]. reflexivity. }
  assert (Hcommit : forall shape, prepared = Some shape ->
    commitShape prepared (at_ outs 0) (mret true) st =
    (true, withOperand (at_ outs 0) (set_dimensions (shape_dimensions shape)) st)).
  { intros shape ->. unfold commitShape. rewrite run_bind.
    specialize (Hset shape). rewrite Hset.
    unfold setShape, getOperand, gets in *. rewrite run_bind in *. cbn [fst snd] in *.
    destruct (hexagon_nn_output_eqb _ _); [|discriminate Hset]. reflexivity. }
  rewrite Hrun. split.
  - destruct (n =? size_of ins); [|reflexivity].
    destruct (1 =? size_of outs); [|reflexivity].
    destruct prepared as [shape|] eqn:E; [|reflexivity].
    rewrite (Hcommit shape eq_refl). reflexivity.
  - intros shape -> Houts E. rewrite Z.eqb_refl, Houts. cbn [Z.eqb Pos.eqb].
    rewrite (Hcommit shape E). reflexivity.
Qed.

End Accepts.

Lemma an_activation_check_follows_its_validator_witness :
  let st := Model_new accept_all nn_relu [] in
  fst (check_activation example_utils [0] [1] 1 RELU st) = true /\
  snd (check_activation example_utils [0] [1] 1 RELU st) =
    withOperand 1 (set_dimensions [1; 2]) st.
Proof.
  cbv zeta.
  destruct (an_activation_check_follows_its_validator accept_all example_utils [0] [1] 1 RELU
              (Model_new accept_all nn_relu [])) as [Hf Hs].
  - apply reachable_new.
  - split; [rewrite Hf; reflexivity|].
    rewrite (Hs {| shape_type := TENSOR_FLOAT32; shape_dimensions := [1; 2];
                   shape_scale := f32_zero; shape_offset := 0 |}); reflexivity.
Defined.
